(** * ipwb replay: index search, Memento resolution, TimeMap abbreviation and
      response reconstruction

    A shallow embedding of [ipwb/replay.py].  Python [str] values are lists of
    code points, [bytes] values are lists of octets, exceptions are an error
    monad, dictionaries are finite maps.  Collaborators that live outside
    [replay.py] ([surt], [ipwb.util], the IPFS client, Flask, the crypto
    library) are parameters of the sections that use them. *)

From Stdlib Require Import ZArith NArith Lia List Ascii String Sorted.
From Stdlib Require Floats.SpecFloat.
From stdpp Require Import base option list gmap.

Local Open Scope list_scope.

(** ** Python values: text, bytes, exceptions *)

Module Py.

(** A [str] is a sequence of Unicode code points, a [bytes] a sequence of
    octets. *)
Abbreviation char := N (only parsing).
Abbreviation str := (list N) (only parsing).
Abbreviation bytes := (list N) (only parsing).

(** A literal of the source, written as a Rocq string. *)
Definition lit (s : string) : str :=
  map N_of_ascii (list_ascii_of_string s).

(** The exception classes [replay.py] can meet. *)
Inductive exn : Type :=
  | ValueError
  | IndexError
  | KeyError
  | TypeError
  | AttributeError
  | NameError
  | UnicodeDecodeError
  | TimeoutError
  | HTTPError
  | HashNotFoundError
  | IPFSDaemonNotAvailable
  | OtherError.

Inductive res (A : Type) : Type :=
  | Ok (a : A)
  | Raise (e : exn).
Arguments Ok {A} a.
Arguments Raise {A} e.

Definition bind {A B} (m : res A) (k : A -> res B) : res B :=
  match m with
  | Ok a => k a
  | Raise e => Raise e
  end.

Definition is_Ok {A} (m : res A) : bool :=
  match m with Ok _ => true | Raise _ => false end.

#[global] Instance res_ret : MRet res := @Ok.
#[global] Instance res_bind : MBind res := fun A B k m => bind m k.

(** *** Comparison *)

Definition str_eqb (a b : str) : bool := bool_decide (a = b).

(** [a < b] on [str]: lexicographic on code points. *)
Fixpoint str_ltb (a b : str) : bool :=
  match a, b with
  | [], [] => false
  | [], _ :: _ => true
  | _ :: _, [] => false
  | x :: a', y :: b' =>
      if (x <? y)%N then true
      else if (y <? x)%N then false
      else str_ltb a' b'
  end.

Definition str_leb (a b : str) : bool := negb (str_ltb b a).

(** *** Searching *)

Fixpoint starts_with (p s : str) : bool :=
  match p, s with
  | [], _ => true
  | _ :: _, [] => false
  | a :: p', b :: s' => (a =? b)%N && starts_with p' s'
  end.

(** [p in s] *)
Fixpoint contains (p s : str) : bool :=
  starts_with p s ||
  match s with
  | [] => false
  | _ :: s' => contains p s'
  end.

(** [s.find(p)], [None] for -1 *)
Fixpoint find (p s : str) : option nat :=
  if starts_with p s then Some 0
  else match s with
       | [] => None
       | _ :: s' => S <$> find p s'
       end.

(** *** [str.replace(old, new)] *)

Fixpoint replace_go (old new : str) (skip : nat) (s : str) : str :=
  match s with
  | [] => []
  | c :: s' =>
      match skip with
      | S k => replace_go old new k s'
      | O =>
          if starts_with old s
          then new ++ replace_go old new (length old - 1) s'
          else c :: replace_go old new O s'
      end
  end.

Definition replace (old new s : str) : str :=
  match old with
  | [] => new ++ flat_map (fun c => c :: new) s
  | _ :: _ => replace_go old new 0 s
  end.

(** *** [str.split(sep, maxsplit)] for a one-character separator; [None] is
    no limit. *)
Fixpoint split (sep : char) (maxsplit : option nat) (s : str) : list str :=
  match s with
  | [] => [[]]
  | c :: s' =>
      if (c =? sep)%N && negb (bool_decide (maxsplit = Some 0))
      then [] :: split sep (Nat.pred <$> maxsplit) s'
      else match split sep maxsplit s' with
           | p :: ps => (c :: p) :: ps
           | [] => [[c]]
           end
  end.

Fixpoint join (sep : str) (l : list str) : str :=
  match l with
  | [] => []
  | [x] => x
  | x :: l' => x ++ sep ++ join sep l'
  end.

(** *** [str.strip()]: the characters [str.isspace] accepts *)
Definition is_space (c : char) : bool :=
  ((9 <=? c) && (c <=? 13) || (28 <=? c) && (c <=? 32) ||
   (c =? 133) || (c =? 160) || (c =? 5760) ||
   (8192 <=? c) && (c <=? 8202) || (c =? 8232) || (c =? 8233) ||
   (c =? 8239) || (c =? 8287) || (c =? 12288))%N.

Fixpoint lstrip (s : str) : str :=
  match s with
  | c :: s' => if is_space c then lstrip s' else s
  | [] => []
  end.

Definition rstrip (s : str) : str := rev (lstrip (rev s)).
Definition strip (s : str) : str := rstrip (lstrip s).

Definition is_digit (c : char) : bool := ((48 <=? c) && (c <=? 57))%N.

(** *** [str.lower()], on the ASCII letters *)
Definition lower_char (c : char) : char :=
  if ((65 <=? c) && (c <=? 90))%N then (c + 32)%N else c.
Definition lower (s : str) : str := map lower_char s.

(** *** Indexing: [l[i]] with Python's negative indices *)
Definition index {A} (l : list A) (i : Z) : res A :=
  let n := Z.of_nat (length l) in
  let j := if (i <? 0)%Z then (i + n)%Z else i in
  if (j <? 0)%Z then Raise IndexError
  else match l !! Z.to_nat j with
       | Some x => Ok x
       | None => Raise IndexError
       end.

(** [l[i] = x] *)
Definition set_index {A} (l : list A) (i : Z) (x : A) : res (list A) :=
  let n := Z.of_nat (length l) in
  let j := if (i <? 0)%Z then (i + n)%Z else i in
  if ((j <? 0) || (n <=? j))%Z then Raise IndexError
  else Ok (<[Z.to_nat j := x]> l).

(** *** [int(s)] and [int(s, 16)] on ASCII text: surrounding white space, a
    sign, for base 16 an optional [0x], digits with single underscores between
    them. *)
Definition digit_val (base : N) (c : char) : option N :=
  let v :=
    if ((48 <=? c) && (c <=? 57))%N then Some (c - 48)%N
    else if ((97 <=? c) && (c <=? 122))%N then Some (c - 87)%N
    else if ((65 <=? c) && (c <=? 90))%N then Some (c - 55)%N
    else None in
  match v with
  | Some d => if (d <? base)%N then Some d else None
  | None => None
  end.

(** [after_digit] tells that the previous character was a digit, so that an
    underscore or the end may follow. *)
Fixpoint int_digits (base : N) (acc : N) (after_digit : bool) (s : str)
  : option N :=
  match s with
  | [] => if after_digit then Some acc else None
  | c :: s' =>
      if (c =? 95)%N then
        if after_digit then int_digits base acc false s' else None
      else match digit_val base c with
           | Some d => int_digits base (acc * base + d)%N true s'
           | None => None
           end
  end.

Definition int_unsigned (base : N) (s : str) : option N :=
  let s1 :=
    if (base =? 16)%N then
      match s with
      | 48 :: x :: s' =>
          if ((x =? 120) || (x =? 88))%N then
            match s' with
            | 95 :: s'' => s''
            | _ => s'
            end
          else s
      | _ => s
      end%N
    else s in
  int_digits base 0 false s1.

Definition int_base (base : N) (s : str) : res Z :=
  let t := strip s in
  let '(neg, body) :=
    match t with
    | 45 :: r => (true, r)
    | 43 :: r => (false, r)
    | _ => (false, t)
    end%N in
  match int_unsigned base body with
  | Some n => Ok (if neg then (- Z.of_N n)%Z else Z.of_N n)
  | None => Raise ValueError
  end.

Definition int (s : str) : res Z := int_base 10 s.

(** *** [str(n)] and [format(n, 'x')] for a natural number *)
Definition digit_char (d : N) : char :=
  if (d <? 10)%N then (48 + d)%N else (87 + d)%N.

Fixpoint digits_go (base : N) (fuel : nat) (n : N) (acc : str) : str :=
  match fuel with
  | O => acc
  | S fuel' =>
      let acc := digit_char (n mod base) :: acc in
      if (n / base =? 0)%N then acc else digits_go base fuel' (n / base) acc
  end.

Definition decimal (n : N) : str := digits_go 10 (S (N.to_nat n)) n [].
Definition hex (n : N) : str := digits_go 16 (S (N.to_nat n)) n [].

(** *** Slices [s[:n]] and [s[n:]], with Python's negative bounds *)
Definition slice_to {A} (s : list A) (n : Z) : list A :=
  if (n <? 0)%Z then take (length s - Z.to_nat (- n)) s
  else take (Z.to_nat n) s.

Definition slice_from {A} (s : list A) (n : Z) : list A :=
  if (n <? 0)%Z then drop (length s - Z.to_nat (- n)) s
  else drop (Z.to_nat n) s.

(** *** [bytes.decode()] and [str.encode()]: strict UTF-8 *)

Definition is_cont (b : N) : bool := ((128 <=? b) && (b <=? 191))%N.

Definition cont_bits (b : N) : N := (b - 128)%N.

Fixpoint decode (b : bytes) : res str :=
  match b with
  | [] => Ok []
  | b0 :: t0 =>
      if (b0 <? 128)%N then r ← decode t0; Ok (b0 :: r)
      else
        match t0 with
        | [] => Raise UnicodeDecodeError
        | b1 :: t1 =>
            if negb (is_cont b1) then Raise UnicodeDecodeError
            else if ((194 <=? b0) && (b0 <=? 223))%N then
              r ← decode t1;
              Ok (((b0 - 192) * 64 + cont_bits b1)%N :: r)
            else
              match t1 with
              | [] => Raise UnicodeDecodeError
              | b2 :: t2 =>
                  if negb (is_cont b2) then Raise UnicodeDecodeError
                  else if ((224 <=? b0) && (b0 <=? 239))%N then
                    if ((b0 =? 224) && (b1 <? 160) ||
                        (b0 =? 237) && (160 <=? b1))%N
                    then Raise UnicodeDecodeError
                    else
                      r ← decode t2;
                      Ok (((b0 - 224) * 4096 + cont_bits b1 * 64 +
                           cont_bits b2)%N :: r)
                  else
                    match t2 with
                    | [] => Raise UnicodeDecodeError
                    | b3 :: t3 =>
                        if negb (is_cont b3) then Raise UnicodeDecodeError
                        else if ((240 <=? b0) && (b0 <=? 244))%N then
                          if ((b0 =? 240) && (b1 <? 144) ||
                              (b0 =? 244) && (144 <=? b1))%N
                          then Raise UnicodeDecodeError
                          else
                            r ← decode t3;
                            Ok (((b0 - 240) * 262144 + cont_bits b1 * 4096 +
                                 cont_bits b2 * 64 + cont_bits b3)%N :: r)
                        else Raise UnicodeDecodeError
                    end
              end
        end
  end.

Definition encode_char (c : char) : res bytes :=
  if (c <? 128)%N then Ok [c]
  else if (c <? 2048)%N then Ok [192 + c / 64; 128 + c mod 64]%N
  else if (c <? 65536)%N then
    if ((55296 <=? c) && (c <=? 57343))%N then Raise UnicodeDecodeError
    else Ok [224 + c / 4096; 128 + (c / 64) mod 64; 128 + c mod 64]%N
  else if (c <? 1114112)%N then
    Ok [240 + c / 262144; 128 + (c / 4096) mod 64;
        128 + (c / 64) mod 64; 128 + c mod 64]%N
  else Raise ValueError.

Fixpoint encode (s : str) : res bytes :=
  match s with
  | [] => Ok []
  | c :: s' => b ← encode_char c; r ← encode s'; Ok (b ++ r)
  end.

End Py.

Import Py.

(** ** The collaborators of [replay.py] *)

Module Env.

(** What [urlsplit] returns. *)
Record split_result := {
  scheme : str; netloc : str; path : str; query : str; fragment : str }.

(** A value of the metadata object of a line, as [json.loads] builds it: a
    [str], an [int], a [float], [True] or [False], [None], a [list] or a
    [dict] with its members in the order of the text. *)
#[warnings="-register-all"]
Inductive jval : Type :=
  | JStr (s : str)
  | JInt (z : Z)
  | JBool (b : bool)
  | JNull
  | JFloat (f : SpecFloat.spec_float)
  | JArr (items : list jval)
  | JObj (members : list (str * jval)).

(** [v == s] for a [str] [s]: only a [str] equals one. *)
Definition is_text (s : str) (v : jval) : bool :=
  match v with
  | JStr t => str_eqb t s
  | _ => false
  end.

(** [s in v] for a [str] [s]: a substring of a [str], an item of a [list], a
    key of a [dict]; the other values are not containers. *)
Definition text_in (s : str) (v : jval) : res bool :=
  match v with
  | JStr t => Ok (contains s t)
  | JArr items => Ok (existsb (is_text s) items)
  | JObj members => Ok (existsb (fun kv => str_eqb (fst kv) s) members)
  | JInt _ | JBool _ | JNull | JFloat _ => Raise TypeError
  end.

(** [v[0] == s] for a [str] [s] of one character: the first character of a
    [str], the first item of a [list]; a [dict] of JSON has no key [0]. *)
Definition first_is (s : str) (v : jval) : res bool :=
  match v with
  | JStr (c :: _) => Ok (str_eqb [c] s)
  | JStr [] => Raise IndexError
  | JArr (x :: _) => Ok (is_text s x)
  | JArr [] => Raise IndexError
  | JObj _ => Raise KeyError
  | JInt _ | JBool _ | JNull | JFloat _ => Raise TypeError
  end.

(** What the variable [header] of [show_uri] can hold: fetched [bytes], the
    [str] the handler of [HashNotFoundError] assigns, or [None]. *)
Inductive blob : Type :=
  | BBytes (b : bytes)
  | BStr (s : str)
  | BNone.

(** How a fetch from IPFS can fail. *)
Inductive fetch_error : Type :=
  | FetchTimeout
  | FetchTypeError
  | FetchHTTPError
  | FetchOther.

Definition exn_of_fetch_error (e : fetch_error) : exn :=
  match e with
  | FetchTimeout => TimeoutError
  | FetchTypeError => TypeError
  | FetchHTTPError => HTTPError
  | FetchOther => OtherError
  end.

(** A call returns, raises, or does not come back. *)
Inductive outcome (A : Type) : Type :=
  | Returns (a : A)
  | Raises (e : exn)
  | Hangs.
Arguments Returns {A} a.
Arguments Raises {A} e.
Arguments Hangs {A}.

Definition lift {A} (m : res A) : outcome A :=
  match m with
  | Ok a => Returns a
  | Raise e => Raises e
  end.

#[global] Instance outcome_ret : MRet outcome := @Returns.
#[global] Instance outcome_bind : MBind outcome := fun A B k m =>
  match m with
  | Returns a => k a
  | Raises e => Raises e
  | Hangs => Hangs
  end.

(** Everything [replay.py] takes from elsewhere: [surt.surt] (with
    [path_strip_trailing_slash_unless_empty=False]); [unsurt],
    [digits14_to_rfc1123], [pad_digits14(_, validate=True)], [is_localhosty],
    [check_daemon_is_alive], [get_ipwb_replay_config()] and the constants
    [IPWBREPLAY_HOST] and [IPWBREPLAY_PORT] of [ipwb.util]; the text
    [get_web_archive_index] returns for the replay index, which is not
    rewritten while a request is served; [app.proxy]; [urlsplit] and
    [urlunsplit]; [json.loads] on the third field of a line;
    [ipfs_client().cat]; the decryption of lines 697 to
    703 of the source ([pad], [b64encode], [AES.new], [decrypt]);
    [request.url] and [request.query_string]; the headers Flask gives a new
    response and the body werkzeug gives a redirect; and the two classes of
    the Unicode database the regular expressions of [show_uri] read:
    [isalnum] is [str.isalnum] on a character (with the underscore, the
    [\w] behind [\b]) and [isdecimal] is [str.isdecimal] (the [\d]). *)
Record env := {
  surt : str -> str;
  unsurt : str -> str;
  digits14_to_rfc1123 : str -> res str;
  pad_digits14 : str -> res str;
  is_localhosty : str -> bool;
  check_daemon_is_alive : res unit;
  replay_host : str;
  replay_port : str;
  IPWBREPLAY_HOST : str;
  IPWBREPLAY_PORT : str;
  content : str;
  app_proxy : option str;
  urlsplit : str -> split_result;
  urlunsplit : split_result -> str;
  json_loads : str -> res (gmap (list N) jval);
  cat : str -> fetch_error + bytes;
  decrypt : jval -> gmap (list N) jval -> blob -> bytes -> res (bytes * bytes);
  request_url : str;
  request_query_string : bytes;
  default_headers : list (str * str);
  redirect_body : str -> bytes;
  isalnum : char -> bool;
  isdecimal : char -> bool }.

End Env.

(** ** The sorted index: [objectify_cdxj_data], [binary_search], the
    adjacency scan and the closest capture *)

Module Index.

Definition SPACE : char := 32%N.
Definition NEWLINE : char := 10%N.
Definition BANG : char := 33%N.

Record cdxj_data := { metadata : list str; data : list str }.

(** [objectify_cdxj_data]: stops at the first blank line; a line that does not
    begin with [!] is unpacked into three fields, which raises [ValueError]
    when it has fewer. *)
Fixpoint objectify_cdxj_data (lines : list str) (only_uri : bool)
  : res cdxj_data :=
  match lines with
  | [] => Ok {| metadata := []; data := [] |}
  | line :: rest =>
      if (length (strip line) =? 0)%nat
      then Ok {| metadata := []; data := [] |}
      else
        match line with
        | [] => Raise IndexError
        | c :: _ =>
            if negb (c =? BANG)%N then
              match split SPACE (Some 2%nat) line with
              | [surt; datetime; the_rest] =>
                  let search_string :=
                    if only_uri then surt else surt ++ [SPACE] ++ datetime in
                  o ← objectify_cdxj_data rest only_uri;
                  Ok {| metadata := metadata o;
                        data := search_string :: data o |}
              | _ => Raise ValueError
              end
            else
              o ← objectify_cdxj_data rest only_uri;
              Ok {| metadata := line :: metadata o; data := data o |}
        end
  end.

(** [bisect.bisect_left(a, x, lo, hi)]: the loop of the standard library,
    [while lo < hi: mid = (lo + hi) // 2; ...].  The interval shrinks at every
    turn, so [hi - lo] turns are enough. *)
Fixpoint bisect_left_loop (fuel : nat) (a : list str) (x : str) (lo hi : nat)
  : nat :=
  match fuel with
  | O => lo
  | S fuel' =>
      if (lo <? hi)%nat then
        let mid := ((lo + hi) / 2)%nat in
        match a !! mid with
        | Some y =>
            if str_ltb y x
            then bisect_left_loop fuel' a x (mid + 1) hi
            else bisect_left_loop fuel' a x lo mid
        | None => lo
        end
      else lo
  end.

Definition bisect_left (a : list str) (x : str) (lo hi : nat) : nat :=
  bisect_left_loop (hi - lo) a x lo hi.

(** What [binary_search] hands back when it does not return [None]. *)
Inductive found : Type :=
  | FoundIndex (i : nat)
  | FoundLine (line : str).

Definition binary_search (haystack : list str) (needle : str)
    (returnIndex only_uri : bool) : res (option found) :=
  let lBound := 0%nat in
  cdxj_obj ← objectify_cdxj_data haystack only_uri;
  let surt_uris_and_datetimes := data cdxj_obj in
  let meta_line_count := length (metadata cdxj_obj) in
  let uBound := length surt_uris_and_datetimes in
  let pos := bisect_left surt_uris_and_datetimes needle lBound uBound in
  if negb (pos =? uBound)%nat &&
     bool_decide (surt_uris_and_datetimes !! pos = Some needle)
  then
    if returnIndex then Ok (Some (FoundIndex (pos + meta_line_count)))
    else
      line ← index haystack (Z.of_nat (pos + meta_line_count));
      Ok (Some (FoundLine line))
  else Ok None.

(** [int(cdxj_line.split(' ')[1])] *)
Definition line_datetime (cdxj_line : str) : res Z :=
  field ← index (split SPACE None cdxj_line) 1;
  int field.

(** [get_cdxj_line_closest_to]: [smallest_diff] starts at [float('inf')],
    which is [None] here. *)
Fixpoint closest_loop (datetime_target : Z) (smallest_diff : option Z)
    (best_line : option str) (cdxj_lines : list str) : res (option str) :=
  match cdxj_lines with
  | [] => Ok best_line
  | cdxj_line :: rest =>
      dt ← line_datetime cdxj_line;
      let diff := Z.abs (dt - datetime_target) in
      let smaller :=
        match smallest_diff with
        | None => true
        | Some m => (diff <? m)%Z
        end in
      if smaller
      then closest_loop datetime_target (Some diff) (Some cdxj_line) rest
      else closest_loop datetime_target smallest_diff best_line rest
  end.

Definition get_cdxj_line_closest_to (datetime_target : str)
    (cdxj_lines : list str) : res (option str) :=
  t ← int datetime_target;
  closest_loop t None None cdxj_lines.

Section WithIndex.

(** [surt.surt(urir, path_strip_trailing_slash_unless_empty=False)] and the
    text [get_web_archive_index] returns for the replay index; the index is
    not rewritten while a request is served. *)
Variable surt : str -> str.
Variable content : str.

Definition get_cdxj_line_binarySearch (surt_uri : str)
    (retIndex only_uri : bool) : res (option found) :=
  let lines := split NEWLINE None content in
  binary_search lines surt_uri retIndex only_uri.

(** The first field of a line, [line.split(' ')[0]]. *)
Definition first_field (line : str) : str :=
  match split SPACE None line with
  | f :: _ => f
  | [] => []
  end.

(** [get_cdxj_lines_with_urir]: the pivot, then every earlier line with the
    key walking down from the pivot, then every later line with the key. *)
Definition get_cdxj_lines_with_urir (urir : str) : res (list str) :=
  let s := surt urir in
  r ← get_cdxj_line_binarySearch s true true;
  match r with
  | None => Ok []
  | Some (FoundLine _) => Raise TypeError
  | Some (FoundIndex cdxj_line_index) =>
      let cdxj_lines := split NEWLINE None content in
      base_cdxj_line ← index cdxj_lines (Z.of_nat cdxj_line_index);
      let before :=
        filter (fun l => first_field l = s)
               (rev (take cdxj_line_index cdxj_lines)) in
      let after :=
        filter (fun l => first_field l = s)
               (drop (S cdxj_line_index) cdxj_lines) in
      Ok ([base_cdxj_line] ++ before ++ after)
  end.

End WithIndex.

(** *** The shape of a sorted index

    Metadata lines begin with [!]; a data line is not blank, does not begin
    with [!], has three fields, and its key is not empty and made of
    characters above the space.  The index is sorted by the [key timestamp]
    strings of its data lines. *)

Definition is_blank (line : str) : bool := (length (strip line) =? 0)%nat.

Definition is_metadata_line (line : str) : bool :=
  match line with
  | c :: _ => (c =? BANG)%N
  | [] => false
  end.

Definition is_data_line (line : str) : bool :=
  negb (is_blank line) && negb (is_metadata_line line) &&
  match split SPACE (Some 2%nat) line with
  | [k; _; _] =>
      negb (bool_decide (k = [])) && forallb (fun c => (32 <? c)%N) k
  | _ => false
  end.

(** The string a data line is searched by. *)
Definition search_string (only_uri : bool) (line : str) : str :=
  match split SPACE (Some 2%nat) line with
  | [k; t; _] => if only_uri then k else k ++ [SPACE] ++ t
  | _ => []
  end.

Definition timestamp_field (line : str) : str :=
  match split SPACE (Some 2%nat) line with
  | [_; t; _] => t
  | _ => []
  end.

(** The lines of an index: metadata lines, data lines, and what follows the
    data, which is nothing or begins with a blank line. *)
Definition index_shape (metas datas tail : list str) : bool :=
  forallb is_metadata_line metas && forallb is_data_line datas &&
  match tail with
  | [] => true
  | b :: _ => is_blank b
  end.

Fixpoint sortedb (l : list str) : bool :=
  match l with
  | a :: (b :: _) as t => str_leb a b && sortedb t
  | _ => true
  end.

Definition leR (a b : str) : Prop := str_leb a b = true.

End Index.

(** ** TimeMaps: [generate_link_timemap_from_cdxj_lines] and
    [get_link_header_abbreviated_timemap] *)

Module TimeMap.
Import Index Env.

Definition DQ : char := 34%N.

(** A literal of the source that holds double quotes: the apostrophes of the
    Rocq string stand for them. *)
Definition litq (s : string) : str :=
  map (fun c => if (c =? 39)%N then DQ else c) (lit s).

(** [re.findall('rel=.*W', line)] is not empty, for [W] one of [words]: on
    some line of the text, [rel=] and later one of the words ([.] does not
    match a newline).  A word that follows some [rel=] follows the first one,
    so the first one decides. *)
Definition rel_then (words : list str) (s : str) : bool :=
  match find (lit "rel=") s with
  | Some i => existsb (fun w => contains w (drop (i + 4) s)) words
  | None => false
  end.

Definition re_rel_then (words : list str) (line : str) : bool :=
  existsb (rel_then words) (split NEWLINE None line).

(** The memento test of both loops: the pattern is [rel=], anything, then
    [memento] and a double quote; the source skips a line when [findall]
    finds nothing. *)
Definition is_memento (line : str) : bool :=
  re_rel_then [litq "memento'"] line.

(** [re.findall('rel=.*(next|prev|first|last)', line)] is not empty *)
Definition has_relation (line : str) : bool :=
  re_rel_then [lit "next"; lit "prev"; lit "first"; lit "last"] line.


(** The index of the first memento line that holds the pivot, which is where
    the first loop of the abbreviation breaks. *)
Fixpoint find_pivot (pivot_datetime : str) (idx : nat) (tm_lines : list str)
  : option nat :=
  match tm_lines with
  | [] => None
  | line :: rest =>
      if is_memento line && contains pivot_datetime line then Some idx
      else find_pivot pivot_datetime (S idx) rest
  end.

(** The body of the first loop at the pivot: [next] on the line after,
    [prev] on the line before. *)
Definition mark_neighbours (tm_lines : list str) (idx : nat)
  : res (list str) :=
  let n := Z.of_nat (length tm_lines) in
  let i := Z.of_nat idx in
  let add_both_next_and_prev := ((0 <? i) && (i <? n - 1))%Z in
  l1 ← (if add_both_next_and_prev || (i =? 0)%Z then
          x ← index tm_lines (i + 1);
          set_index tm_lines (i + 1)
            (replace (litq "memento'") (litq "next memento'") x)
        else Ok tm_lines);
  if add_both_next_and_prev || (i =? n - 1)%Z then
    x ← index l1 (i - 1);
    set_index l1 (i - 1) (replace (litq "memento'") (litq "prev memento'") x)
  else Ok l1.

(** The second loop: a memento line that neither holds the pivot nor has a
    relation is emptied. *)
Definition drop_unrelated (pivot_datetime : str) (line : str) : str :=
  if negb (is_memento line) then line
  else if contains pivot_datetime line then line
  else if negb (has_relation line) then []
  else line.

(** [first_last_str] for the line [i] of [n] *)
Definition first_last_str (n i : nat) : str :=
  if (1 <? n)%nat then
    if (i =? 0)%nat then lit "first "
    else if (i =? n - 1)%nat then lit "last "
    else []
  else if (n =? 1)%nat then lit "first last "
  else [].

Section WithEnv.

Variable E : env.

Definition get_proxied_urit (uriT : str) : split_result :=
  let tmurl := urlsplit E uriT in
  match app_proxy E with
  | None => tmurl
  | Some proxy =>
      let tmurl1 :=
        {| scheme := scheme tmurl; netloc := proxy; path := path tmurl;
           query := query tmurl; fragment := fragment tmurl |} in
      let proxy_uri := urlsplit E proxy in
      if negb (bool_decide (scheme proxy_uri = []))
      then {| scheme := scheme proxy_uri;
              netloc := netloc proxy_uri ++ path proxy_uri;
              path := path tmurl1; query := query tmurl1;
              fragment := fragment tmurl1 |}
      else tmurl1
  end.

(** What a line gives to its entry: [datetime], [unsurt(surt_uri)] and
    [dt_rfc1123]. *)
Definition capture_of (line : str) : res (str * str * str) :=
  match split SPACE (Some 2%nat) line with
  | [surt_uri; datetime; json] =>
      dt_rfc1123 ← digits14_to_rfc1123 E datetime;
      Ok (datetime, unsurt E surt_uri, dt_rfc1123)
  | _ => Raise ValueError
  end.

(** One turn of the loop over the lines: the text added to [tm_data]. *)
Definition memento_entry (host_and_port : str) (n i : nat) (line : str)
  : res str :=
  '(datetime, uri, dt_rfc1123) ← capture_of line;
  Ok (lit "," ++ [NEWLINE] ++ lit "<" ++ host_and_port ++
      lit "memento/" ++ datetime ++ lit "/" ++
      uri ++ litq ">; rel='" ++ first_last_str n i ++
      litq "memento'; datetime='" ++ dt_rfc1123 ++ litq "'").

Fixpoint timemap_loop (host_and_port : str) (n i : nat) (lines : list str)
    (tm_data : str) : res str :=
  match lines with
  | [] => Ok tm_data
  | line :: rest =>
      e ← memento_entry host_and_port n i line;
      timemap_loop host_and_port n (S i) rest (tm_data ++ e)
  end.

(** [tm_self] and [tg_uri] after the rewriting for the proxy, and
    [host_and_port]. *)
Definition proxied (uri : str) : str :=
  match app_proxy E with
  | Some _ => urlunsplit E (get_proxied_urit uri)
  | None => uri
  end.

Definition host_and_port_of (tm_self : str) : str :=
  let tmurl := get_proxied_urit tm_self in
  let tmurl :=
    {| scheme := scheme tmurl; netloc := netloc tmurl; path := [];
       query := query tmurl; fragment := fragment tmurl |} in
  urlunsplit E tmurl ++ lit "/".

Definition generate_link_timemap_from_cdxj_lines (cdxj_lines : list str)
    (original tm_self tg_uri : str) : res str :=
  let host_and_port := host_and_port_of tm_self in
  let tm_self := proxied tm_self in
  let tg_uri := proxied tg_uri in
  let original_uri := lit "http://" ++ unsurt E original in
  let tm_data :=
    lit "<" ++ original_uri ++ litq ">; rel='original'," ++ [NEWLINE] in
  let tm_data := tm_data ++ lit "<" ++ tm_self ++ litq ">; rel='self timemap'; " in
  let tm_data :=
    tm_data ++ litq "type='application/link-format'," ++ [NEWLINE] in
  let cdxj_tm_uri :=
    replace (lit "/timemap/link/") (lit "/timemap/cdxj/") tm_self in
  let tm_data := tm_data ++ lit "<" ++ cdxj_tm_uri ++ litq ">; rel='timemap'; " in
  let tm_data :=
    tm_data ++ litq "type='application/cdxj+ors'," ++ [NEWLINE] in
  let tm_data := tm_data ++ lit "<" ++ tg_uri ++ litq ">; rel='timegate'" in
  tm_data ← timemap_loop host_and_port (length cdxj_lines) 0 cdxj_lines tm_data;
  Ok (tm_data ++ [NEWLINE]).

Definition timegate_uri (urir : str) : str :=
  lit "http://" ++ replay_host E ++ lit ":" ++ replay_port E ++
  lit "/timegate/" ++ urir.

Definition timemap_link_uri (urir : str) : str :=
  lit "http://" ++ replay_host E ++ lit ":" ++ replay_port E ++
  lit "/timemap/link/" ++ urir.

Definition get_link_header_abbreviated_timemap (urir pivot_datetime : str)
  : res str :=
  let s := surt E urir in
  cdxj_lines_with_urir ← get_cdxj_lines_with_urir (surt E) (content E) urir;
  let tg_uri := timegate_uri urir in
  let tm_uri := timemap_link_uri urir in
  tm ← generate_link_timemap_from_cdxj_lines cdxj_lines_with_urir s tm_uri tg_uri;
  let tm := replace (litq "rel='self timemap'") (litq "rel='timemap'") tm in
  if contains (litq "rel='first last memento'") tm
  then Ok (strip (replace [NEWLINE] [SPACE] tm))
  else
    let tm_lines := split NEWLINE None tm in
    tm_lines ←
      match find_pivot pivot_datetime 0 tm_lines with
      | Some idx => mark_neighbours tm_lines idx
      | None => Ok tm_lines
      end;
    let tm_lines := map (drop_unrelated pivot_datetime) tm_lines in
    Ok (join [SPACE]
          (filter (fun l => l <> []) tm_lines)).

(** [capture_of] over the lines. *)
Fixpoint captures_of (lines : list str) : res (list (str * str * str)) :=
  match lines with
  | [] => Ok []
  | line :: rest =>
      c ← capture_of line;
      cs ← captures_of rest;
      Ok (c :: cs)
  end.

End WithEnv.

(** *** What the abbreviated header is expected to hold

    The four links of the TimeMap itself, then of the [n] captures the first,
    the last, the pivot (at position [p]), the one before the pivot marked
    [prev] and the one after it marked [next], every link but the last with
    its comma, joined by spaces. *)

Definition header_link (uri rest : str) : str :=
  lit "<" ++ uri ++ lit ">; rel=" ++ DQ :: rest.

Definition memento_link (hp datetime uri rel rfc : str) : str :=
  lit "<" ++ hp ++ lit "memento/" ++ datetime ++ lit "/" ++ uri ++
  lit ">; rel=" ++ DQ :: rel ++ lit "memento" ++ DQ :: lit "; datetime=" ++
  DQ :: rfc ++ [DQ].

Definition comma (n i : nat) : str :=
  if (S i <? n)%nat then lit "," else [].

Definition abbreviated_rel (n p i : nat) : option str :=
  let fl := first_last_str n i in
  if (i =? p)%nat then Some fl
  else if (S i =? p)%nat then Some (fl ++ lit "prev ")
  else if (i =? S p)%nat then Some (fl ++ lit "next ")
  else if (i =? 0)%nat || (i =? n - 1)%nat then Some fl
  else None.

Fixpoint kept_links (hp : str) (n p i : nat) (captures : list (str * str * str))
  : list str :=
  match captures with
  | [] => []
  | (datetime, uri, rfc) :: rest =>
      match abbreviated_rel n p i with
      | Some rel => [memento_link hp datetime uri rel rfc ++ comma n i]
      | None => []
      end ++ kept_links hp n p (S i) rest
  end.

Definition abbreviated_expected (original_uri tm_self tg_uri hp : str)
    (p : nat) (captures : list (str * str * str)) : str :=
  join [SPACE]
    ([header_link original_uri (litq "original',");
      header_link tm_self (litq "timemap'; type='application/link-format',");
      header_link
        (replace (lit "/timemap/link/") (lit "/timemap/cdxj/") tm_self)
        (litq "timemap'; type='application/cdxj+ors',");
      header_link tg_uri (litq "timegate',")] ++
     kept_links hp (length captures) p 0 captures).

(** The lines of the full TimeMap: the start of a link up to the double
    quote of its relation, the link of every capture with its comma, and the
    mark the first loop adds next to the pivot. *)
Definition link_target (hp datetime uri : str) : str :=
  lit "<" ++ hp ++ lit "memento/" ++ datetime ++ lit "/" ++ uri ++
  lit ">; rel=".

Fixpoint full_links (hp : str) (n i : nat) (captures : list (str * str * str))
  : list str :=
  match captures with
  | [] => []
  | (datetime, uri, rfc) :: rest =>
      (memento_link hp datetime uri (first_last_str n i) rfc ++ comma n i) ::
      full_links hp n (S i) rest
  end.

Definition timemap_lines (original_uri tm_self tg_uri hp : str)
    (captures : list (str * str * str)) : list str :=
  [header_link original_uri (litq "original',");
   header_link tm_self (litq "self timemap'; type='application/link-format',");
   header_link
     (replace (lit "/timemap/link/") (lit "/timemap/cdxj/") tm_self)
     (litq "timemap'; type='application/cdxj+ors',");
   header_link tg_uri
     (litq "timegate'" ++ if captures is [] then [] else lit ",")] ++
  full_links hp (length captures) 0 captures ++ [[]].

(** The four links of the TimeMap itself as the abbreviation returns them,
    and the same header through them. *)
Definition abbreviated_headers (original_uri tm_self tg_uri : str)
  : list str :=
  [header_link original_uri (litq "original',");
   header_link tm_self (litq "timemap'; type='application/link-format',");
   header_link
     (replace (lit "/timemap/link/") (lit "/timemap/cdxj/") tm_self)
     (litq "timemap'; type='application/cdxj+ors',");
   header_link tg_uri (litq "timegate',")].

(** *** The inputs the abbreviation is stated for: texts without a double
    quote or a newline; timestamps of digits, as long as the pivot; no [rel=],
    relation word or pivot inside a URI or a date. *)

Definition plain (x : str) : bool :=
  forallb (fun c => negb (c =? DQ)%N && negb (c =? NEWLINE)%N) x.

(** A relation: no double quote, newline or digit. *)
Definition plain_word (rel : str) : bool :=
  plain rel && forallb (fun c => negb (is_digit c)) rel.

Definition relation_words : list str :=
  [lit "next"; lit "prev"; lit "first"; lit "last"].

Definition clean_capture (pivot : str) (c : str * str * str) : bool :=
  let '(datetime, uri, rfc) := c in
  forallb is_digit datetime && negb (str_eqb datetime []) &&
  (length datetime =? length pivot)%nat &&
  plain uri && plain rfc &&
  negb (contains (lit "rel=") uri) && negb (contains pivot uri) &&
  negb (contains pivot rfc) && negb (contains (lit "memento") rfc) &&
  forallb (fun w => negb (contains w rfc)) relation_words.

Definition clean_links (pivot original_uri tm_self tg_uri hp : str) : bool :=
  plain original_uri && plain tm_self && plain tg_uri && plain hp &&
  negb (contains (lit "rel=") hp) && negb (contains pivot hp).

(** The positions of the captures at the pivot timestamp. *)
Fixpoint pivot_positions (pivot : str) (i : nat)
    (captures : list (str * str * str)) : list nat :=
  match captures with
  | [] => []
  | (datetime, _, _) :: rest =>
      (if bool_decide (datetime = pivot) then [i] else []) ++
      pivot_positions pivot (S i) rest
  end.

End TimeMap.

(** ** Chunked transfer decoding: [extract_response_from_chunked_data] *)

Module Chunked.
Import Index.

Definition SEMICOLON : char := 59%N.

(** [chunk_descriptor.split(';')[0].strip()] *)
Definition descriptor (line : str) : str :=
  match split SEMICOLON None line with
  | d :: _ => strip d
  | [] => []
  end.

(** The [while] loop.  Every turn unpacks [rest.split('\n', 2)] into three
    parts, so [rest] loses at least two characters: [fuel] above the length of
    [rest] is never used up, and [None] stands for having used it up. *)
Fixpoint chunk_loop (fuel : nat) (chunk_descriptor rest retStr : str)
  : option (res str) :=
  match fuel with
  | O => None
  | S fuel' =>
      if bool_decide (chunk_descriptor = lit "0") then Some (Ok retStr)
      else
        match int_base 16 chunk_descriptor with
        | Raise e => Some (Raise e)
        | Ok chunk_dec_from_hex =>
            let retStr := retStr ++ slice_to rest chunk_dec_from_hex in
            let rest := slice_from rest chunk_dec_from_hex in
            match split NEWLINE (Some 2%nat) rest with
            | [CRLF; chunk_descriptor; rest] =>
                let chunk_descriptor := descriptor chunk_descriptor in
                if (length (strip chunk_descriptor) =? 0)%nat
                then Some (Ok retStr)
                else chunk_loop fuel' chunk_descriptor rest retStr
            | _ => Some (Raise ValueError)
            end
        end
  end.

(** On text ([data] already a [str]). *)
Definition extract_response_from_chunked_text (data : str) : res str :=
  match split NEWLINE (Some 1%nat) data with
  | [chunk_descriptor; rest] =>
      match chunk_loop (S (length rest)) (descriptor chunk_descriptor) rest []
      with
      | Some r => r
      | None => Raise OtherError
      end
  | _ => Raise ValueError
  end.

(** [extract_response_from_chunked_data] on [bytes], as [show_uri] calls it:
    the data are decoded first. *)
Definition extract_response_from_chunked_data (data : bytes) : res str :=
  text ← decode data;
  extract_response_from_chunked_text text.

(** *** The encoder the round trip is stated against: each chunk as its size
    in hexadecimal, an optional extension, CRLF, the data, CRLF; then a chunk
    of size zero. *)

Definition CRLF : bytes := [13; 10]%N.

(** A chunk: its data and its extension (empty, or [;name=value]). *)
Definition encode_chunk (c : bytes * bytes) : bytes :=
  hex (N.of_nat (length (fst c))) ++ snd c ++ CRLF ++ fst c ++ CRLF.

Definition chunked_encode (chunks : list (bytes * bytes)) : bytes :=
  flat_map encode_chunk chunks ++ lit "0" ++ CRLF ++ CRLF.

End Chunked.

(** ** The replay endpoints: [show_uri], [resolve_memento], [show_memento] *)

Module Replay.
Import Index Env TimeMap Chunked.

(** A Flask response: status as given to [Response], headers, body. *)
Record response := {
  status : jval;
  headers : list (str * str);
  data : bytes }.

(** What a view returns: a response object or a [(body, status)] tuple. *)
Inductive flask_return : Type :=
  | RespObj (r : response)
  | RespTuple (body : str) (code : Z).

(** *** Headers, as [werkzeug.datastructures.Headers]: keys compare without
    case; [h[k] = v] replaces the first entry of the key and removes the
    others, or appends. *)

Definition same_key (a b : str) : bool := str_eqb (lower a) (lower b).

Fixpoint headers_set (hs : list (str * str)) (k v : str) : list (str * str) :=
  match hs with
  | [] => [(k, v)]
  | (k0, v0) :: rest =>
      if same_key k0 k
      then (k, v) :: List.filter (fun kv => negb (same_key (fst kv) k)) rest
      else (k0, v0) :: headers_set rest k v
  end.

Fixpoint headers_get (hs : list (str * str)) (k : str) : option str :=
  match hs with
  | [] => None
  | (k0, v0) :: rest => if same_key k0 k then Some v0 else headers_get rest k
  end.

Definition set_header (r : response) (k v : str) : response :=
  {| status := status r; headers := headers_set (headers r) k v;
     data := data r |}.

(** [resp.set_data(value)]: a [str] is encoded, and werkzeug writes the
    length of the new body into [Content-Length]. *)
Definition set_data (r : response) (value : str) : res response :=
  b ← encode value;
  Ok {| status := status r;
        headers := headers_set (headers r) (lit "Content-Length")
                     (decimal (N.of_nat (length b)));
        data := b |}.

(** *** Regular expressions of [show_uri] *)

(** What a letter of a pattern matches under [re.IGNORECASE] in a [str]: a
    small ASCII letter [p] matches itself, its capital and the characters
    that the case tables of Unicode fold to it, the Kelvin sign for [k], the
    long s for [s], the dotted capital I and the dotless i for [i]; any other
    character of a pattern matches itself. *)
Definition folds_to (p c : char) : bool :=
  ((c =? p) || ((97 <=? p) && (p <=? 122) && (c =? p - 32)) ||
   ((p =? 107) && (c =? 8490)) || ((p =? 115) && (c =? 383)) ||
   ((p =? 105) && ((c =? 304) || (c =? 305))))%N.

(** The pattern [p], of small letters and signs, matches at the start of
    [s]. *)
Fixpoint matches_at (p s : str) : bool :=
  match p, s with
  | [], _ => true
  | _ :: _, [] => false
  | a :: p', c :: s' => folds_to a c && matches_at p' s'
  end.

(** [isUri]: [re.match('^https?://', s, flags=re.IGNORECASE)] *)
Definition isUri (s : str) : bool :=
  matches_at (lit "http://") s || matches_at (lit "https://") s.

Definition COLON : char := 58%N.
Definition SLASH : char := 47%N.

Definition ipwb_js_inject : str :=
  litq "<script src='/ipwbassets/webui.js'></script>" ++ [NEWLINE] ++
  lit "                      <script>injectIPWBJS()</script>".

Section WithEnv.

Variable E : env.

(** [\w] of a [str] pattern: what [str.isalnum] takes, and the underscore;
    [\b] is between a character that is one and a neighbour, or an end of
    the text, that is not. *)
Definition is_word (c : char) : bool := isalnum E c || (c =? 95)%N.

Definition boundary (a b : option char) : bool :=
  xorb (from_option is_word false a) (from_option is_word false b).

(** [re.search(r'\bchunked\b', v, re.I)]: [prev] is the character before the
    position looked at. *)
Fixpoint search_word (w : str) (prev : option char) (v : str) : bool :=
  (matches_at w v && boundary prev (head v) &&
   boundary (v !! pred (length w)) (v !! length w)) ||
  match v with
  | [] => false
  | c :: v' => search_word w (Some c) v'
  end.

Definition re_chunked (v : str) : bool := search_word (lit "chunked") None v.

(** [re.search(r'/\d{14}/', url).end()] *)
Fixpoint search_d14_end (pos : nat) (url : str) : option nat :=
  match url with
  | [] => None
  | c :: url' =>
      if (c =? 47)%N && (14 <=? length url')%nat &&
         forallb (isdecimal E) (take 14 url') &&
         bool_decide (url' !! 14%nat = Some 47%N)
      then Some (pos + 16)%nat
      else search_d14_end (S pos) url'
  end.

Definition abbreviated_timemap : str -> str -> res str :=
  get_link_header_abbreviated_timemap E.

(** [Response(body, status=...)] for a [bytes] and for a [str] body, where
    [status=None] is the default 200; [redirect(location, code)]. *)
Definition Response (body : bytes) (st : jval) : response :=
  {| status := match st with JNull => JInt 200 | _ => st end;
     headers := default_headers E; data := body |}.

Definition Response_text (msg : str) (st : jval) : res response :=
  b ← encode msg;
  Ok (Response b st).

Definition redirect (location : str) (code : Z) : response :=
  {| status := JInt code;
     headers := headers_set (default_headers E) (lit "Location") location;
     data := redirect_body E location |}.

Definition go_home : str :=
  litq " <a href='http://" ++ IPWBREPLAY_HOST E ++ lit ":" ++ IPWBREPLAY_PORT E ++
  litq "'>Go home</a>".

(** [generate_no_mementos_interface] *)
Fixpoint captures_list (lines : list str) (urir msg : str) : res (str * str) :=
  match lines with
  | [] => Ok (urir, msg)
  | line :: rest =>
      let fields := split SPACE (Some 2%nat) line in
      f0 ← index fields 0;
      let urir := unsurt E f0 in
      f1 ← index fields 1;
      captures_list rest urir
        (msg ++ litq "<li><a href='/" ++ f1 ++ lit "/" ++ urir ++ litq "'>" ++
         urir ++ lit " at " ++ f1 ++ lit "</a></li>")
  end.

Definition generate_no_mementos_interface (path datetime : str)
  : res flask_return :=
  let msg := lit "<h1>ERROR 404</h1>" in
  let msg := msg ++ lit "<p>No captures found for " ++ path ++ lit " at " ++
             datetime ++ lit ".</p>" in
  lines_with_same_urir ← get_cdxj_lines_with_urir (surt E) (content E) path;
  match lines_with_same_urir with
  | [line] =>
      let fields := split SPACE (Some 2%nat) line in
      f1 ← index fields 1;
      f0 ← index fields 0;
      Ok (RespObj (redirect (lit "/" ++ f1 ++ lit "/" ++ unsurt E f0) 302))
  | _ =>
      '(urir, msg) ←
        match lines_with_same_urir with
        | [] => Ok ([], msg)
        | _ =>
            let msg :=
              msg ++ lit "<p>" ++
              decimal (N.of_nat (length lines_with_same_urir)) ++
              lit " capture(s) available:</p><ul>" in
            '(urir, msg) ← captures_list lines_with_same_urir [] msg;
            Ok (urir, msg ++ lit "</ul>")
        end;
      let msg := msg ++ lit "<p>TimeMaps: " in
      let msg := msg ++ litq "<a href='/timemap/link/" ++ urir ++
                 litq "'>Link</a> " in
      let msg := msg ++ litq "<a href='/timemap/cdxj/" ++ urir ++
                 litq "'>CDXJ</a> " in
      resp ← Response_text msg (JInt 404);
      link_header ← abbreviated_timemap path datetime;
      let link_header :=
        replace (lit "self timemap") (lit "timemap") link_header in
      Ok (RespObj (set_header resp (lit "Link") link_header))
  end.

(** *** [show_uri]: the loop over the stored header lines *)

Definition passes_unprefixed (k : str) : bool :=
  existsb (str_eqb (lower k))
    [lit "content-type"; lit "content-encoding"; lit "location"].

Fixpoint header_loop (payload : bytes) (h_lines : list str) (resp : response)
  : res response :=
  match h_lines with
  | [] => Ok resp
  | hLine :: rest =>
      match split COLON (Some 1%nat) hLine with
      | [k; v] =>
          let finish (resp : response) :=
            let k :=
              if negb (passes_unprefixed k)
              then lit "X-Archive-Orig-" ++ k else k in
            header_loop payload rest (set_header resp k (strip v)) in
          if str_eqb (lower k) (lit "transfer-encoding") && re_chunked v then
            match extract_response_from_chunked_data payload with
            | Raise _ => header_loop payload rest resp
            | Ok unchunked_payload =>
                resp ← set_data resp unchunked_payload;
                finish resp
            end
          else finish resp
      | _ => Raise ValueError
      end
  end.


Definition declares_chunked (hLine : str) : bool :=
  match split COLON (Some 1%nat) hLine with
  | [k; v] => str_eqb (lower k) (lit "transfer-encoding") && re_chunked v
  | _ => false
  end.

(** The marker of synthesized headers. *)
Definition MARKER : str := lit "X-Headers-Generated-By".

Definition MEMENTO_DATETIME : str := lit "Memento-Datetime".

(** [header.decode()] and the three [replace] and the [split], then
    [h_lines.pop(0)] *)
Definition header_lines (header : blob) : res (list str) :=
  match header with
  | BBytes b =>
      text ← decode b;
      let text := replace [13%N] [] text in
      let text := replace [NEWLINE; 9%N] [9%N] text in
      let text := replace [NEWLINE; SPACE] [SPACE] text in
      Ok (tail (split NEWLINE None text))
  | BStr _ | BNone => Raise AttributeError
  end.

(** [Response(payload, status=status)]: werkzeug takes an [int] for the code
    and [None] for the default, and reads a [str] as the status line, which
    must not be empty or blank ([ValueError]); anything else is refused
    with an error of type, whose class depends on the version of
    werkzeug. *)
Definition checked_status (st : jval) : res unit :=
  match st with
  | JInt _ | JBool _ | JNull => Ok tt
  | JStr s => if str_eqb (strip s) [] then Raise ValueError else Ok tt
  | JFloat _ | JArr _ | JObj _ => Raise TypeError
  end.

(** [status[0] == '3'] *)
Definition status_is_redirect (st : jval) : res bool := first_is (lit "3") st.

(** ['text/html' in mime] *)
Definition mime_is_html (mime : jval) : res bool :=
  text_in (lit "text/html") mime.

(** The key of an encrypted record: the [while key_string is None] loop.  A
    key present as [null] keeps the loop turning; an absent key is asked of
    [raw_input(ask_for_key)].  The module neither defines nor imports
    [raw_input], and it is no builtin of the Python that reads the module
    (its f-strings and annotations are Python 3): the call raises
    [NameError]. *)
Definition key_string_of (json_object : gmap (list N) jval) : outcome jval :=
  match json_object !! lit "encryption_key" with
  | Some JNull => Hangs
  | Some k => Returns k
  | None => Raises NameError
  end.

(** [show_uri] from [h_lines] to the end (lines 705 to 765). *)
Definition assemble (json_object : gmap (list N) jval) (datetime : str)
    (payload : bytes) (header : blob) : res flask_return :=
  h_lines ← header_lines header;
  let status :=
    match json_object !! lit "status_code" with
    | Some st => st
    | None => JInt 200
    end in
  _ ← checked_status status;
  let resp := Response payload status in
  resp ← header_loop payload h_lines resp;
  let new_payload := data resp in
  mime ← match json_object !! lit "mime_type" with
         | Some m => Ok m
         | None => Raise KeyError
         end;
  html ← mime_is_html mime;
  resp ← (if (html : bool) then
            text ← decode new_payload;
            set_data resp
              (replace (lit "</html>") (ipwb_js_inject ++ lit "</html>") text)
          else Ok resp);
  md ← digits14_to_rfc1123 E datetime;
  let resp := set_header resp MEMENTO_DATETIME md in
  let resp :=
    match header with
    | BNone =>
        set_header resp MARKER (lit "InterPlanetary Wayback")
    | _ => resp
    end in
  is3 ← status_is_redirect status;
  resp ←
    (if (is3 : bool) then
       match headers_get (headers resp) (lit "Location") with
       | None => Raise TypeError
       | Some location =>
           if isUri location then
             match search_d14_end 0 (request_url E) with
             | None => Raise AttributeError
             | Some e =>
                 let uri_before_urir := take e (request_url E) in
                 Ok (set_header resp (lit "Location")
                       (uri_before_urir ++ location))
             end
           else Ok resp
       end
     else Ok resp);
  Ok (RespObj resp).

(** The decryption with the key [key_string] (lines 697 to 703), then the
    rest. *)
Definition decrypt_and_assemble (json_object : gmap (list N) jval)
    (datetime : str) (payload : bytes) (header : blob) (key_string : jval)
  : outcome flask_return :=
  '(h, p) ← lift (decrypt E key_string json_object header payload);
  lift (assemble json_object datetime p (BBytes h)).

(** [show_uri] from the test of [encryption_method] to the end. *)
Definition reconstruct (json_object : gmap (list N) jval) (datetime : str)
    (payload : bytes) (header : blob) : outcome flask_return :=
  match json_object !! lit "encryption_method" with
  | Some _ =>
      key_string ← key_string_of json_object;
      decrypt_and_assemble json_object datetime payload header key_string
  | None => lift (assemble json_object datetime payload header)
  end.

(** The handlers of the [try] around the two fetches; [payload] is [None]
    when the first fetch did not return. *)
Definition fetch_failed (json_object : gmap (list N) jval)
    (path datetime : str) (e : exn) (payload : option bytes)
  : outcome flask_return :=
  match e with
  | TimeoutError =>
      r ← lift (Response_text (path ++ lit " not found in IPFS :(" ++ go_home)
                  (JInt 200));
      Returns (RespObj r)
  | TypeError => Returns (RespTuple (lit "A Type Error Occurred") 500)
  | HTTPError => Returns (RespTuple (lit "Fetching from IPFS failed") 503)
  | HashNotFoundError =>
      match payload with
      | None => Returns (RespTuple (lit "Hashed not found") 404)
      | Some p => reconstruct json_object datetime p (BStr [])
      end
  | _ => Returns (RespTuple (lit "An unknown exception occurred") 500)
  end.

Definition show_uri (path datetime : str) : outcome flask_return :=
  match check_daemon_is_alive E with
  | Raise IPFSDaemonNotAvailable =>
      r ← lift (Response_text
                  (lit "IPFS daemon not running. " ++
                   lit "Start it using $ ipfs daemon on the command-line " ++
                   litq " or from the <a href='/'>" ++
                   lit "IPWB replay homepage</a>.") (JInt 503));
      Returns (RespObj r)
  | Raise e => Raises e
  | Ok _ =>
      let surted_uri := surt E path in
      let search_string := surted_uri ++ [SPACE] ++ datetime in
      match get_cdxj_line_binarySearch (content E) search_string false false with
      | Raise _ | Ok (Some (FoundIndex _)) =>
          r ← lift (Response_text (path ++ lit " not found :(" ++ go_home)
                      (JInt 200));
          Returns (RespObj r)
      | Ok None => lift (generate_no_mementos_interface path datetime)
      | Ok (Some (FoundLine cdxj_line)) =>
          let cdxj_parts := split SPACE (Some 2%nat) cdxj_line in
          p2 ← lift (index cdxj_parts 2);
          json_object ← lift (json_loads E p2);
          datetime ← lift (index cdxj_parts 1);
          locator ← match json_object !! lit "locator" with
                    | Some (JStr l) => Returns l
                    | Some _ => Raises AttributeError
                    | None => Raises KeyError
                    end;
          let digests := split SLASH None locator in
          match index digests (-1) with
          | Raise e => fetch_failed json_object path datetime e None
          | Ok d1 =>
              match cat E d1 with
              | inl e =>
                  fetch_failed json_object path datetime
                    (exn_of_fetch_error e) None
              | inr payload =>
                  match index digests (-2) with
                  | Raise e =>
                      fetch_failed json_object path datetime e (Some payload)
                  | Ok d2 =>
                      match cat E d2 with
                      | inl e =>
                          fetch_failed json_object path datetime
                            (exn_of_fetch_error e) (Some payload)
                      | inr header =>
                          reconstruct json_object datetime payload
                            (BBytes header)
                      end
                  end
              end
          end
      end
  end.

(** *** [compile_target_uri], [resolve_memento], [show_memento] *)

Definition compile_target_uri (url : str) (query_string : bytes) : res str :=
  match query_string with
  | [] => Ok url
  | _ => q ← decode query_string; Ok (url ++ lit "?" ++ q)
  end.

(** What [resolve_memento] returns: the 404 response, or the triple. *)
Inductive resolved : Type :=
  | NoCapture (r : response)
  | Resolved (new_datetime link_header uri : str).

Definition resolve_memento (urir datetime : str) : res resolved :=
  urir ← (if is_localhosty E urir
          then index (split SLASH (Some 4%nat) urir) 4
          else Ok urir);
  cdxj_lines_with_urir ← get_cdxj_lines_with_urir (surt E) (content E) urir;
  closest_line ← get_cdxj_line_closest_to datetime cdxj_lines_with_urir;
  match closest_line with
  | None =>
      r ← Response_text
            (lit "<h1>ERROR 404</h1>" ++ lit "<p>No captures found for " ++
             urir ++ lit " at " ++ datetime ++ lit ".</p>") (JInt 404);
      Ok (NoCapture r)
  | Some closest_line =>
      f0 ← index (split SPACE None closest_line) 0;
      let uri := unsurt E f0 in
      new_datetime ← index (split SPACE None closest_line) 1;
      link_header ← abbreviated_timemap urir new_datetime;
      Ok (Resolved new_datetime link_header uri)
  end.

(** [resp.headers['Link'] = link_header] on what the branch produced: a tuple
    has no [headers]. *)
Definition with_link (link_header : str) (r : flask_return)
  : outcome flask_return :=
  match r with
  | RespObj resp => Returns (RespObj (set_header resp (lit "Link") link_header))
  | RespTuple _ _ => Raises AttributeError
  end.

Definition show_memento (urir datetime : str) : outcome flask_return :=
  urir ← lift (compile_target_uri urir (request_query_string E));
  match pad_digits14 E datetime with
  | Raise ValueError =>
      r ← lift (Response_text
                  (lit "Expected a 4-14 digits valid datetime: " ++ datetime)
                  (JInt 400));
      Returns (RespObj r)
  | Raise e => Raises e
  | Ok datetime =>
      resolved_memento ← lift (resolve_memento urir datetime);
      match resolved_memento with
      | NoCapture r => Returns (RespObj r)
      | Resolved new_datetime link_header uri =>
          resp ← (if negb (str_eqb new_datetime datetime)
                  then Returns (RespObj (redirect
                         (lit "/memento/" ++ new_datetime ++ lit "/" ++ urir)
                         302))
                  else show_uri uri new_datetime);
          with_link link_header resp
      end
  end.

End WithEnv.

(** *** [all_exception_handler], registered with [app.errorhandler(Exception)]:
    what Flask answers for a view that raises *)



End Replay.

(** ** The other views: the CDXJ TimeMap, [show_timemap], [query_timegate],
    the lists of captures *)

Module Views.
Import Index Env TimeMap Replay.

(** [s.index(sub)] *)
Definition str_index (sub s : str) : res nat :=
  match find sub s with
  | Some i => Ok i
  | None => Raise ValueError
  end.

(** What the request of a TimeGate brings and the helpers of [ipwb.util] it
    is read with: the [Accept-Datetime] header, the present time in RFC 1123
    form, the test of that form and its conversion to fourteen digits. *)
Record timegate_env := {
  accept_datetime : option str;
  get_rfc1123_of_now : str;
  is_rfc1123_compliant : str -> bool;
  rfc1123_to_digits14 : str -> res str }.

Section WithEnv.

Variable E : env.

(** *** [generate_cdxj_timemap_from_cdxj_lines] *)

(** The fields of a line the entry is built from: [surt_uri], [datetime] and
    [dt_rfc1123]. *)
Definition cdxj_fields (line : str) : res (str * str * str) :=
  match split SPACE (Some 2%nat) line with
  | [surt_uri; datetime; json] =>
      dt_rfc1123 ← digits14_to_rfc1123 E datetime;
      Ok (surt_uri, datetime, dt_rfc1123)
  | _ => Raise ValueError
  end.

Definition cdxj_entry (host_and_port : str) (n i : nat) (line : str)
  : res str :=
  '(surt_uri, datetime, dt_rfc1123) ← cdxj_fields line;
  Ok (datetime ++ lit " {" ++
      litq "'uri': '" ++ host_and_port ++ lit "memento/" ++ datetime ++
      lit "/" ++ surt_uri ++ litq "', " ++
      litq "'rel': '" ++ first_last_str n i ++ litq "memento', " ++
      litq "'datetime'='" ++ dt_rfc1123 ++ litq "'}" ++ [NEWLINE]).

Fixpoint cdxj_loop (host_and_port : str) (n i : nat) (lines : list str)
    (tm_data : str) : res str :=
  match lines with
  | [] => Ok tm_data
  | line :: rest =>
      e ← cdxj_entry host_and_port n i line;
      cdxj_loop host_and_port n (S i) rest (tm_data ++ e)
  end.

Definition generate_cdxj_timemap_from_cdxj_lines (cdxj_lines : list str)
    (original tm_self tg_uri : str) : res str :=
  let tm_self := proxied E tm_self in
  let tg_uri := proxied E tg_uri in
  let original_uri := lit "http://" ++ unsurt E original in
  let tm_data :=
    litq "!context ['http://tools.ietf.org/html/rfc7089']" ++ [NEWLINE] in
  let tm_data :=
    tm_data ++ litq "!id {'uri': '" ++ tm_self ++ litq "'}" ++ [NEWLINE] in
  let tm_data :=
    tm_data ++ litq "!keys ['memento_datetime_YYYYMMDDhhmmss']" ++
    [NEWLINE] in
  let tm_data :=
    tm_data ++ litq "!meta {'original_uri': '" ++ original_uri ++ litq "'}" ++
    [NEWLINE] in
  let tm_data :=
    tm_data ++ litq "!meta {'timegate_uri': '" ++ tg_uri ++ litq "'}" ++
    [NEWLINE] in
  let link_tm_uri :=
    replace (lit "/timemap/cdxj/") (lit "/timemap/link/") tm_self in
  let tm_data :=
    tm_data ++ litq "!meta {'timemap_uri': {" ++
    litq "'link_format': '" ++ link_tm_uri ++ litq "'," ++
    litq "'cdxj_format': '" ++ tm_self ++ litq "'" ++
    lit "}}" ++ [NEWLINE] in
  i ← str_index (lit "timemap/") tm_self;
  let host_and_port := take i tm_self in
  cdxj_loop host_and_port (length cdxj_lines) 0 cdxj_lines tm_data.

(** *** [show_timemap] *)
Definition show_timemap (urir format : str) : res response :=
  urir ← compile_target_uri urir (request_query_string E);
  let s := surt E urir in
  cdxj_lines_with_urir ← get_cdxj_lines_with_urir (surt E) (content E) urir;
  let tg_uri := timegate_uri E urir in
  '(tm, tm_content_type) ←
    (if str_eqb format (lit "link") then
       tm ← generate_link_timemap_from_cdxj_lines E cdxj_lines_with_urir s
              (request_url E) tg_uri;
       Ok (tm, lit "application/link-format")
     else if str_eqb format (lit "cdxj") then
       tm ← generate_cdxj_timemap_from_cdxj_lines cdxj_lines_with_urir s
              (request_url E) tg_uri;
       Ok (tm, lit "application/cdxj+ors")
     else Ok ([], []));
  resp ← Response_text E tm JNull;
  Ok (set_header resp (lit "Content-Type") tm_content_type).

(** *** [query_timegate] *)
Definition query_timegate (T : timegate_env) (urir : str)
  : res flask_return :=
  urir ← compile_target_uri urir (request_query_string E);
  let adt :=
    match accept_datetime T with
    | None => get_rfc1123_of_now T
    | Some adt => adt
    end in
  if negb (is_rfc1123_compliant T adt)
  then Ok (RespTuple (lit "Bad Request") 400)
  else
    datetime14 ← rfc1123_to_digits14 T adt;
    resolved_memento ← resolve_memento E urir datetime14;
    match resolved_memento with
    | NoCapture r => Ok (RespObj r)
    | Resolved new_datetime link_header uri =>
        let resp :=
          redirect E (lit "/memento/" ++ new_datetime ++ lit "/" ++ urir)
            302 in
        let resp := set_header resp (lit "Link") link_header in
        let resp := set_header resp (lit "Vary") (lit "Accept-Datetime") in
        Ok (RespObj resp)
    end.

(** *** The lists of captures: [show_mementos_for_urirs_sans_js],
    [generate_no_mementos_interface_noDatetime], [show_mementos_for_urirs] *)

(** [url] is [request.args.get('url')]. *)
Definition show_mementos_for_urirs_sans_js (url : option str)
  : res response :=
  match url with
  | None =>
      Response_text E (lit "Searching for nothing is not allowed!") (JInt 400)
  | Some urir =>
      if str_eqb (strip urir) []
      then Response_text E (lit "Searching for nothing is not allowed!")
             (JInt 400)
      else Ok (redirect E (lit "/memento/*/" ++ urir) 301)
  end.

Definition generate_no_mementos_interface_noDatetime (urir : str) : str :=
  let msg := lit "<h1>ERROR 404</h1>" in
  let msg := msg ++ lit "<p>No captures found for " ++ urir ++ lit ".</p>" in
  msg ++
  litq "<form method='get' action='/memento/*/' " ++
  litq "style='margin-top: 1.0em;'>" ++
  litq "<input type='text' value='" ++ urir ++ litq "' id='url' " ++
  litq "name='url' aria-label='Enter a URI' required />" ++
  litq "<input type='submit' value='Search URL in the archive'/>" ++
  lit "</form>".

Fixpoint mementos_list (lines : list str) (msg : str) : res str :=
  match lines with
  | [] => Ok msg
  | line :: rest =>
      let fields := split SPACE (Some 2%nat) line in
      dt14 ← index fields 1;
      dt_rfc1123 ← digits14_to_rfc1123 E dt14;
      f0 ← index fields 0;
      mementos_list rest
        (msg ++ litq "<li><a href='/memento/" ++ dt14 ++ lit "/" ++
         unsurt E f0 ++ litq "'>" ++ unsurt E f0 ++ lit " at " ++
         dt_rfc1123 ++ lit "</a></li>")
  end.

Definition show_mementos_for_urirs (urir : str) : res response :=
  urir ← compile_target_uri urir (request_query_string E);
  urir ← (if is_localhosty E urir
          then index (split SLASH (Some 4%nat) urir) 4
          else Ok urir);
  cdxj_lines_with_urir ← get_cdxj_lines_with_urir (surt E) (content E) urir;
  match cdxj_lines_with_urir with
  | [line] =>
      let fields := split SPACE (Some 2%nat) line in
      f1 ← index fields 1;
      f0 ← index fields 0;
      Ok (redirect E (lit "/memento/" ++ f1 ++ lit "/" ++ unsurt E f0) 302)
  | _ =>
      msg ←
        match cdxj_lines_with_urir with
        | [] => Ok (generate_no_mementos_interface_noDatetime urir)
        | _ =>
            msg ← mementos_list cdxj_lines_with_urir
                    (lit "<p>" ++
                     decimal (N.of_nat (length cdxj_lines_with_urir)) ++
                     lit " capture(s) available:</p><ul>");
            Ok (msg ++ lit "</ul>")
        end;
      Response_text E msg JNull
  end.

End WithEnv.

(** *** The lines of the CDXJ TimeMap, for stating what the loop builds *)

Definition cdxj_preamble (original_uri tm_self tg_uri : str) : list str :=
  [litq "!context ['http://tools.ietf.org/html/rfc7089']";
   litq "!id {'uri': '" ++ tm_self ++ litq "'}";
   litq "!keys ['memento_datetime_YYYYMMDDhhmmss']";
   litq "!meta {'original_uri': '" ++ original_uri ++ litq "'}";
   litq "!meta {'timegate_uri': '" ++ tg_uri ++ litq "'}";
   litq "!meta {'timemap_uri': {'link_format': '" ++
   replace (lit "/timemap/cdxj/") (lit "/timemap/link/") tm_self ++
   litq "','cdxj_format': '" ++ tm_self ++ litq "'}}"].

Definition cdxj_line (hp : str) (n i : nat) (c : str * str * str) : str :=
  let '(surt_uri, datetime, rfc) := c in
  datetime ++ litq " {'uri': '" ++ hp ++ lit "memento/" ++ datetime ++
  lit "/" ++ surt_uri ++ litq "', 'rel': '" ++ first_last_str n i ++
  litq "memento', 'datetime'='" ++ rfc ++ litq "'}".

Fixpoint cdxj_lines_of (hp : str) (n i : nat) (cs : list (str * str * str))
  : list str :=
  match cs with
  | [] => []
  | c :: rest => cdxj_line hp n i c :: cdxj_lines_of hp n (S i) rest
  end.

Fixpoint cdxj_fields_of (E : env) (lines : list str)
  : res (list (str * str * str)) :=
  match lines with
  | [] => Ok []
  | line :: rest =>
      c ← cdxj_fields E line;
      cs ← cdxj_fields_of E rest;
      Ok (c :: cs)
  end.

(** Every line with its newline. *)
Definition unlines (ls : list str) : str :=
  flat_map (fun l => l ++ [NEWLINE]) ls.

End Views.

(** ** Chunked data of ASCII octets, for the round trip of the decoder *)

Module ChunkedShape.
Import Index Chunked.

Definition ascii (b : bytes) : bool := forallb (fun c => (c <? 128)%N) b.

(** A chunk the encoder can send so that the data come back: data that are
    not empty (an empty chunk ends the message) and ASCII, an extension that
    is ASCII on one line and, if any, begins with a semicolon. *)
Definition chunk_ok (c : bytes * bytes) : bool :=
  negb (str_eqb (fst c) []) && ascii (fst c) && ascii (snd c) &&
  forallb (fun x => negb (x =? NEWLINE)%N) (snd c) &&
  match snd c with
  | [] => true
  | x :: _ => (x =? SEMICOLON)%N
  end.

(** The digits of [format(n, 'x')]. *)
Definition is_hex_digit (c : char) : bool :=
  ((48 <=? c) && (c <=? 57) || (97 <=? c) && (c <=? 102))%N.

End ChunkedShape.

(** ** The figures of the index: [calculate_memento_info_in_index] *)

Module Stats.
Import Index Env.

(** The two tests of [ipwb.util] on a line. *)
Record line_tests := {
  is_valid_cdxj_line : str -> bool;
  is_cdxj_metadata_record : str -> bool }.

Record memento_info := {
  memento_count : nat;
  html_count : nat;
  surt_uris : gmap (list N) nat;
  oldest_datetime : option str;
  newest_datetime : option str }.

(** What the function returns: [err_return], the pair of zeros, or the
    dictionary. *)
Inductive info_result : Type :=
  | ErrReturn
  | Info (m : memento_info).

(** The truth value of a JSON value. *)
Definition truthy (v : jval) : bool :=
  match v with
  | JStr s => negb (str_eqb s [])
  | JInt z => negb (z =? 0)%Z
  | JBool b => b
  | JNull => false
  | JFloat (SpecFloat.S754_zero _) => false
  | JFloat _ => true
  | JArr [] | JObj [] => false
  | JArr (_ :: _) | JObj (_ :: _) => true
  end.

(** [j['mime_type'] and j['mime_type'].lower().startswith('text/html') and
    j['status_code'][0] != '3'] *)
Definition counts_as_html (j : gmap (list N) jval) : res bool :=
  mime ← match j !! lit "mime_type" with
         | Some m => Ok m
         | None => Raise KeyError
         end;
  if truthy mime then
    lowered ← match mime with
              | JStr s => Ok (lower s)
              | _ => Raise AttributeError
              end;
    if starts_with (lit "text/html") lowered then
      status_code ← match j !! lit "status_code" with
                    | Some s => Ok s
                    | None => Raise KeyError
                    end;
      is3 ← first_is (lit "3") status_code;
      Ok (negb is3)
    else Ok false
  else Ok false.

Section WithEnv.

Variable E : env.
Variable X : line_tests.

(** A line the loop counts. *)
Definition counted (l : str) : bool :=
  is_valid_cdxj_line X l && negb (is_cdxj_metadata_record X l).

(** One turn of the loop. *)
Definition info_step (m : memento_info) (l : str) : res memento_info :=
  if counted l then
    let count := S (memento_count m) in
    match split SPACE (Some 2%nat) l with
    | [surt_uri; datetime; jsonInLine] =>
        let uris :=
          <[surt_uri := match surt_uris m !! surt_uri with
                        | None => 1%nat
                        | Some k => S k
                        end]> (surt_uris m) in
        j ← json_loads E jsonInLine;
        html ← counts_as_html j;
        let htmls := if (html : bool) then S (html_count m) else html_count m in
        match oldest_datetime m with
        | None =>
            Ok {| memento_count := count; html_count := htmls;
                  surt_uris := uris; oldest_datetime := Some datetime;
                  newest_datetime := Some datetime |}
        | Some oldest =>
            let oldest := if str_ltb datetime oldest then datetime else oldest in
            match newest_datetime m with
            | None => Raise TypeError
            | Some newest =>
                let newest :=
                  if str_ltb newest datetime then datetime else newest in
                Ok {| memento_count := count; html_count := htmls;
                      surt_uris := uris; oldest_datetime := Some oldest;
                      newest_datetime := Some newest |}
            end
        end
    | _ => Raise ValueError
    end
  else Ok m.

Fixpoint info_loop (lines : list str) (m : memento_info) : res memento_info :=
  match lines with
  | [] => Ok m
  | l :: rest => m ← info_step m l; info_loop rest m
  end.

(** [index_file_contents] is what [get_web_archive_index] returned. *)
Definition calculate_memento_info_in_index (index_file_contents : str)
  : res info_result :=
  if str_eqb index_file_contents [] then Ok ErrReturn
  else
    let lines := split NEWLINE None (strip index_file_contents) in
    m ← info_loop lines
          {| memento_count := 0; html_count := 0; surt_uris := ∅;
             oldest_datetime := None; newest_datetime := None |};
    Ok (Info m).

(** The counted lines, and their keys. *)
Definition mementos_of (lines : list str) : list str :=
  List.filter counted lines.

Definition key_field (line : str) : str :=
  match split SPACE (Some 2%nat) line with
  | [k; _; _] => k
  | _ => []
  end.

End WithEnv.

(** What the figures say of the timestamps [ds] they were taken from. *)
Definition spans (m : memento_info) (ds : list str) : Prop :=
  match oldest_datetime m, newest_datetime m with
  | None, None => ds = []
  | Some o, Some n =>
      o ∈ ds /\ n ∈ ds /\
      forall d, d ∈ ds -> str_leb o d = true /\ str_leb d n = true
  | _, _ => False
  end.

(** What holds of the figures after the lines [seen]: the count, the
    pages among them, the count of every key, the oldest and the newest. *)
Definition info_inv (X : line_tests) (m : memento_info) (seen : list str)
  : Prop :=
  memento_count m = length (mementos_of X seen) /\
  (html_count m <= memento_count m)%nat /\
  (forall k,
      default 0%nat (surt_uris m !! k) =
      length (List.filter (fun l => str_eqb (key_field l) k)
                (mementos_of X seen))) /\
  spans m (map timestamp_field (mementos_of X seen)).

End Stats.

(** ** Sample inputs *)

Module Samples.
Import Index.

Definition sample_index : list str :=
  [lit "!context [x]"; lit "!meta {y}";
   lit "com,a)/ 20190101000000 {}";
   lit "com,b)/ 20190101000000 {}";
   lit "com,b)/ 20200101000000 {}";
   lit "com,c)/ 20180101000000 {}";
   []].

Definition sample_content : str := join [NEWLINE] sample_index.

(** Captures of one key at the timestamps 10, 20 and 30. *)
Definition three_captures : list str :=
  [lit "k 10 {}"; lit "k 20 {}"; lit "k 30 {}"].

End Samples.

(** ** A sample archive: an index of five captures, their metadata and the
    blobs of the content store *)

Module SampleArchive.
Import Index Env TimeMap Chunked Replay.

Definition json_plain : str :=
  litq "{'locator': 'urn:ipfs/H1/P1', 'status_code': '200', 'mime_type': 'text/plain'}".
Definition json_chunked : str :=
  litq "{'locator': 'urn:ipfs/H2/P2', 'status_code': '200', 'mime_type': 'text/plain'}".
Definition json_noheader : str :=
  litq "{'locator': 'urn:ipfs/HX/P1', 'status_code': '200', 'mime_type': 'text/plain'}".
Definition json_nostatus : str :=
  litq "{'locator': 'urn:ipfs/H1/P1', 'mime_type': 'text/plain'}".
Definition json_secret : str :=
  litq "{'locator': 'urn:ipfs/H1/P1', 'status_code': '200', 'mime_type': 'text/plain', 'encryption_method': 'aes'}".

Definition metadata_of (locator : string) (extra : list (list N * jval))
  : gmap (list N) jval :=
  list_to_map
    ([(lit "locator", JStr (lit locator));
      (lit "mime_type", JStr (lit "text/plain"))] ++ extra).

Definition object_plain := metadata_of "urn:ipfs/H1/P1"
  [(lit "status_code", JStr (lit "200"))].
Definition object_chunked := metadata_of "urn:ipfs/H2/P2"
  [(lit "status_code", JStr (lit "200"))].
Definition object_noheader := metadata_of "urn:ipfs/HX/P1"
  [(lit "status_code", JStr (lit "200"))].
Definition object_nostatus := metadata_of "urn:ipfs/H1/P1" [].
Definition object_secret := metadata_of "urn:ipfs/H1/P1"
  [(lit "status_code", JStr (lit "200"));
   (lit "encryption_method", JStr (lit "aes"))].

Definition archive_json_loads (text : str) : res (gmap (list N) jval) :=
  if str_eqb text json_plain then Ok object_plain
  else if str_eqb text json_chunked then Ok object_chunked
  else if str_eqb text json_noheader then Ok object_noheader
  else if str_eqb text json_nostatus then Ok object_nostatus
  else if str_eqb text json_secret then Ok object_secret
  else Raise ValueError.

Definition archive_lines : list str :=
  [lit "!context [x]";
   lit "com,example)/ 20190101000000 " ++ json_plain;
   lit "com,example)/chunked 20190101000000 " ++ json_chunked;
   lit "com,example)/noheader 20190101000000 " ++ json_noheader;
   lit "com,example)/nostatus 20190101000000 " ++ json_nostatus;
   lit "com,example)/secret 20190101000000 " ++ json_secret;
   []].

Definition archive_content : str := join [NEWLINE] archive_lines.

Definition CR : char := 13%N.

Definition header_plain : bytes :=
  lit "HTTP/1.1 200 OK" ++ [CR; NEWLINE] ++ lit "Content-Type: text/plain" ++
  [CR; NEWLINE] ++ lit "Server: nginx".
Definition header_chunked : bytes :=
  lit "HTTP/1.1 200 OK" ++ [CR; NEWLINE] ++ lit "Transfer-Encoding: chunked" ++
  [CR; NEWLINE] ++ lit "Content-Type: text/plain".
Definition payload_plain : bytes := lit "hello".
Definition payload_not_chunked : bytes := lit "this is not chunked".

Definition archive_cat (hash : str) : fetch_error + bytes :=
  if str_eqb hash (lit "H1") then inr header_plain
  else if str_eqb hash (lit "H2") then inr header_chunked
  else if str_eqb hash (lit "P1") then inr payload_plain
  else if str_eqb hash (lit "P2") then inr payload_not_chunked
  else inl FetchTimeout.

(** [surt] and [unsurt] on the host of the samples. *)
Definition archive_surt (u : str) : str :=
  if starts_with (lit "example.com/") u
  then lit "com,example)/" ++ drop 12 u else u.
Definition archive_unsurt (k : str) : str :=
  if starts_with (lit "com,example)/") k
  then lit "example.com/" ++ drop 13 k else k.

Definition archive_rfc1123 (d : str) : res str :=
  if str_eqb d (lit "20190101000000")
  then Ok (lit "Tue, 01 Jan 2019 00:00:00 GMT")
  else Raise ValueError.

Definition archive_urlsplit (u : str) : split_result :=
  {| scheme := lit "http"; netloc := lit "localhost:5000"; path := drop 21 u;
     query := []; fragment := [] |}.
Definition archive_urlunsplit (r : split_result) : str :=
  scheme r ++ lit "://" ++ netloc r ++ path r.

Definition archive_default_headers : list (list N * list N) :=
  [(lit "Content-Type", lit "text/html; charset=utf-8")].

Definition archive_redirect_body (location : str) : bytes :=
  lit "<p>You should be redirected automatically to the target URL: " ++
  location.

Definition archive_decrypt (k : jval) (o : gmap (list N) jval) (h : blob)
    (p : bytes) : res (list N * list N) := Raise TypeError.

(** The two classes of characters on the ASCII range; the samples hold no
    other character. *)
Definition ascii_isdecimal (c : char) : bool := is_digit c.
Definition ascii_isalnum (c : char) : bool :=
  (is_digit c || (65 <=? c) && (c <=? 90) || (97 <=? c) && (c <=? 122))%N.

(** The sample server. *)
Definition archive : env :=
  {| surt := archive_surt;
     unsurt := archive_unsurt;
     digits14_to_rfc1123 := archive_rfc1123;
     pad_digits14 := fun d => Ok d;
     is_localhosty := fun _ => false;
     check_daemon_is_alive := Ok tt;
     replay_host := lit "localhost";
     replay_port := lit "5000";
     IPWBREPLAY_HOST := lit "localhost";
     IPWBREPLAY_PORT := lit "5000";
     content := archive_content;
     app_proxy := None;
     urlsplit := archive_urlsplit;
     urlunsplit := archive_urlunsplit;
     json_loads := archive_json_loads;
     cat := archive_cat;
     decrypt := archive_decrypt;
     request_url :=
       lit "http://localhost:5000/memento/20190101000000/example.com/";
     request_query_string := [];
     default_headers := archive_default_headers;
     redirect_body := archive_redirect_body;
     isalnum := ascii_isalnum;
     isdecimal := ascii_isdecimal |}.

(** An index of [n] captures of [com,example)/], at the timestamps
    [20190101000001], [20190101000002], ... (for [n] below ten), and the
    server over it. *)
Definition capture_line (i : nat) : str :=
  lit "com,example)/ 2019010100000" ++ [N.of_nat (48 + i)] ++ lit " {}".

Definition captures_content (n : nat) : str :=
  join [NEWLINE] (map capture_line (seq 1 n) ++ [[]]).

Definition archive_over (index : str) : env :=
  {| surt := archive_surt;
     unsurt := archive_unsurt;
     digits14_to_rfc1123 := fun _ => Ok (lit "Tue, 01 Jan 2019 00:00:00 GMT");
     pad_digits14 := fun d => Ok d;
     is_localhosty := fun _ => false;
     check_daemon_is_alive := Ok tt;
     replay_host := lit "localhost";
     replay_port := lit "5000";
     IPWBREPLAY_HOST := lit "localhost";
     IPWBREPLAY_PORT := lit "5000";
     content := index;
     app_proxy := None;
     urlsplit := archive_urlsplit;
     urlunsplit := archive_urlunsplit;
     json_loads := archive_json_loads;
     cat := archive_cat;
     decrypt := archive_decrypt;
     request_url :=
       lit "http://localhost:5000/memento/20190101000001/example.com/";
     request_query_string := [];
     default_headers := archive_default_headers;
     redirect_body := archive_redirect_body;
     isalnum := ascii_isalnum;
     isdecimal := ascii_isdecimal |}.

Definition captures_archive (n : nat) : env :=
  archive_over (captures_content n).

(** The same captures for a page asked with a query string: the index key
    of [example.com/page?rel=next]. *)
Definition query_capture_line (i : nat) : str :=
  lit "com,example)/page?rel=next 2019010100000" ++ [N.of_nat (48 + i)] ++
  lit " {}".

Definition query_archive (n : nat) : env :=
  archive_over (join [NEWLINE] (map query_capture_line (seq 1 n) ++ [[]])).

Definition query_captures (n : nat) : list (list N * list N * list N) :=
  map (fun i => (lit "2019010100000" ++ [N.of_nat (48 + i)],
                 lit "example.com/page?rel=next",
                 lit "Tue, 01 Jan 2019 00:00:00 GMT"))
      (seq 1 n).

(** The captures of [captures_archive n] as [capture_of] reads them. *)
Definition sample_captures (n : nat) : list (list N * list N * list N) :=
  map (fun i => (lit "2019010100000" ++ [N.of_nat (48 + i)],
                 lit "example.com/", lit "Tue, 01 Jan 2019 00:00:00 GMT"))
      (seq 1 n).

(** What the abbreviation returns for the seven captures of the page with
    the query string and the pivot [20190101000004]: the marks of the seven
    links, none dropped. *)
Definition query_marks : list str :=
  [lit "first "; []; lit "prev "; []; lit "next "; []; lit "last "].

Definition query_links : list str :=
  map (fun '(i, (datetime, uri, rfc), rel) =>
         memento_link (lit "http://localhost:5000/") datetime uri rel rfc ++
         comma 7 i)
      (combine (combine (seq 0 7) (query_captures 7)) query_marks).

Definition query_headers : list str :=
  [header_link (lit "http://example.com/page?rel=next") (litq "original',");
   header_link
     (lit "http://localhost:5000/timemap/link/example.com/page?rel=next")
     (litq "timemap'; type='application/link-format',");
   header_link
     (lit "http://localhost:5000/timemap/cdxj/example.com/page?rel=next")
     (litq "timemap'; type='application/cdxj+ors',");
   header_link
     (lit "http://localhost:5000/timegate/example.com/page?rel=next")
     (litq "timegate',")].

Definition sample_expected (n p : nat) : str :=
  abbreviated_expected (lit "http://example.com/")
    (lit "http://localhost:5000/timemap/link/example.com/")
    (lit "http://localhost:5000/timegate/example.com/")
    (lit "http://localhost:5000/") p (sample_captures n).

(** A stored redirect: the record and the header of a page that has
    moved. *)
Definition object_moved := metadata_of "urn:ipfs/H3/P1"
  [(lit "status_code", JStr (lit "301"))].

Definition header_moved : bytes :=
  lit "HTTP/1.1 301 Moved Permanently" ++ [CR; NEWLINE] ++
  lit "Location: http://example.org/new".




(** A payload in chunks. *)
Definition payload_in_chunks : bytes :=
  chunked_encode [(lit "Wiki", []); (lit "pedia", [])].

End SampleArchive.

(** ** Absent characters and suffixes *)

Module TextDefs.

(** The character [c] does not occur in [s]. *)
Definition lacks (c : char) (s : str) : bool :=
  forallb (fun x => negb (x =? c)%N) s.

(** [s.endswith(u)] *)
Fixpoint is_suffix (u s : str) : bool :=
  str_eqb u s ||
  match s with
  | [] => false
  | _ :: s' => is_suffix u s'
  end.

End TextDefs.

(** ** Loop invariants *)

Module Invariants.
Import Index.

(** What the loop of [get_cdxj_line_closest_to] knows after the lines [seen]:
    nothing yet, or the line at [i] is the best one, closest to the target
    among the lines seen and strictly closer than every line before it. *)
Definition closest_inv (t : Z) (seen : list str) (smallest_diff : option Z)
    (best_line : option str) : Prop :=
  (seen = [] /\ smallest_diff = None /\ best_line = None) \/
  exists (i : nat) (best : str) (d : Z),
    seen !! i = Some best /\ line_datetime best = Ok d /\
    smallest_diff = Some (Z.abs (d - t)) /\ best_line = Some best /\
    (forall j l dt, seen !! j = Some l -> line_datetime l = Ok dt ->
                    (Z.abs (d - t) <= Z.abs (dt - t))%Z) /\
    (forall j l dt, (j < i)%nat -> seen !! j = Some l ->
                    line_datetime l = Ok dt ->
                    (Z.abs (d - t) < Z.abs (dt - t))%Z).

End Invariants.

(** * Properties *)

(** ** The order on text *)

Module StrOrder.

Lemma str_ltb_irrefl (a : str) : str_ltb a a = false.
Proof.
  induction a as [|x a IH]; simpl; [reflexivity|].
  rewrite N.ltb_irrefl. exact IH.
Qed.

Lemma str_ltb_trans (a b c : str) :
  str_ltb a b = true -> str_ltb b c = true -> str_ltb a c = true.
Proof.
  revert b c. induction a as [|x a IH]; intros [|y b] [|z c]; simpl;
    try discriminate; try reflexivity.
  destruct (N.ltb_spec x y), (N.ltb_spec y x), (N.ltb_spec y z),
    (N.ltb_spec z y), (N.ltb_spec x z), (N.ltb_spec z x);
    try discriminate; try reflexivity; try lia.
  apply IH.
Qed.

Lemma str_ltb_antisym (a b : str) :
  str_ltb a b = false -> str_ltb b a = false -> a = b.
Proof.
  revert b. induction a as [|x a IH]; intros [|y b]; simpl;
    try discriminate; try reflexivity.
  destruct (N.ltb_spec x y), (N.ltb_spec y x); try discriminate; try lia.
  intros H1 H2. assert (x = y) by lia. subst. f_equal. auto.
Qed.

Lemma str_ltb_asym (a b : str) : str_ltb a b = true -> str_ltb b a = false.
Proof.
  intros H. destruct (str_ltb b a) eqn:E; [|reflexivity].
  pose proof (str_ltb_trans _ _ _ H E) as T.
  rewrite str_ltb_irrefl in T. discriminate.
Qed.

(** [a < b] or [b <= a], and the mixed transitivities. *)
Lemma str_ltb_leb_trans (a b c : str) :
  str_ltb a b = true -> str_leb b c = true -> str_ltb a c = true.
Proof.
  unfold str_leb. revert b c.
  induction a as [|x a IH]; intros [|y b] [|z c]; simpl;
    try discriminate; try reflexivity.
  destruct (N.ltb_spec x y), (N.ltb_spec y x), (N.ltb_spec y z),
    (N.ltb_spec z y), (N.ltb_spec x z), (N.ltb_spec z x);
    simpl; try discriminate; try reflexivity; try lia.
  apply IH.
Qed.

Lemma str_leb_ltb_trans (a b c : str) :
  str_leb a b = true -> str_ltb b c = true -> str_ltb a c = true.
Proof.
  unfold str_leb. revert b c.
  induction a as [|x a IH]; intros [|y b] [|z c]; simpl;
    try discriminate; try reflexivity.
  destruct (N.ltb_spec x y), (N.ltb_spec y x), (N.ltb_spec y z),
    (N.ltb_spec z y), (N.ltb_spec x z), (N.ltb_spec z x);
    simpl; try discriminate; try reflexivity; try lia.
  apply IH.
Qed.

Lemma str_leb_refl (a : str) : str_leb a a = true.
Proof. unfold str_leb. now rewrite str_ltb_irrefl. Qed.

Lemma str_leb_trans (a b c : str) :
  str_leb a b = true -> str_leb b c = true -> str_leb a c = true.
Proof.
  intros H1 H2. unfold str_leb. destruct (str_ltb c a) eqn:E; [|reflexivity].
  pose proof (str_ltb_leb_trans _ _ _ E H1) as T.
  unfold str_leb in H2. rewrite T in H2. discriminate.
Qed.

Lemma str_leb_antisym (a b : str) :
  str_leb a b = true -> str_leb b a = true -> a = b.
Proof.
  unfold str_leb. intros H1 H2.
  apply str_ltb_antisym; [now destruct (str_ltb a b)|now destruct (str_ltb b a)].
Qed.

(** A common prefix does not change the order. *)
Lemma str_ltb_app (p a b : str) : str_ltb (p ++ a) (p ++ b) = str_ltb a b.
Proof.
  induction p as [|x p IH]; simpl; [reflexivity|].
  now rewrite N.ltb_irrefl.
Qed.

Lemma str_leb_app (p a b : str) : str_leb (p ++ a) (p ++ b) = str_leb a b.
Proof. unfold str_leb. now rewrite str_ltb_app. Qed.

(** Keys made of characters above the space are ordered as their
    [key timestamp] strings. *)
Lemma str_leb_keys (k1 k2 t1 t2 : str) :
  forallb (fun c => (32 <? c)%N) k1 = true ->
  forallb (fun c => (32 <? c)%N) k2 = true ->
  str_leb (k1 ++ [32%N] ++ t1) (k2 ++ [32%N] ++ t2) = true ->
  str_leb k1 k2 = true.
Proof.
  unfold str_leb. revert k2.
  induction k1 as [|x k1 IH]; intros [|y k2]; simpl; try reflexivity.
  - intros Hx _. apply andb_true_iff in Hx as [Hx _].
    apply N.ltb_lt in Hx.
    destruct (N.ltb_spec 32 x); [|lia]. discriminate.
  - intros Hx Hy. apply andb_true_iff in Hx as [_ Hx].
    apply andb_true_iff in Hy as [_ Hy].
    destruct (N.ltb_spec y x), (N.ltb_spec x y); try reflexivity; try discriminate.
    now apply IH.
Qed.

End StrOrder.

(** ** Binary search over the index *)

Module SearchFacts.
Import Index StrOrder.

Lemma sortedb_cons (a : str) (l : list str) :
  sortedb (a :: l) = true ->
  sortedb l = true /\ forall b, l !! 0%nat = Some b -> str_leb a b = true.
Proof.
  destruct l as [|b l]; simpl.
  - intros _. split; [reflexivity|]. intros b H. discriminate.
  - intros H. apply andb_true_iff in H as [H1 H2]. split; [exact H2|].
    intros b' Hb. now inversion Hb; subst.
Qed.

Lemma sortedb_pairwise (l : list str) :
  sortedb l = true ->
  forall (i j : nat) (a b : str),
    (i <= j)%nat -> l !! i = Some a -> l !! j = Some b -> str_leb a b = true.
Proof.
  induction l as [|x l IH]; intros Hs i j a b Hij Ha Hb.
  - rewrite lookup_nil in Ha. discriminate.
  - apply sortedb_cons in Hs as [Hs Hhd].
    destruct i as [|i], j as [|j]; simpl in *; try lia.
    + inversion Ha; inversion Hb; subst. apply str_leb_refl.
    + inversion Ha; subst.
      destruct l as [|y l]; [rewrite lookup_nil in Hb; discriminate|].
      apply str_leb_trans with y; [now apply Hhd|].
      apply (IH Hs 0%nat j y b); [lia|reflexivity|exact Hb].
    + apply (IH Hs i j a b); [lia|exact Ha|exact Hb].
Qed.

Lemma sortedb_app_r (l1 l2 : list str) :
  sortedb (l1 ++ l2) = true -> sortedb l2 = true.
Proof.
  induction l1 as [|x l1 IH]; simpl app; [auto|].
  intros H. apply sortedb_cons in H as [H _]. auto.
Qed.

Lemma bisect_left_loop_S (fuel : nat) (a : list str) (x : str) (lo hi : nat) :
  bisect_left_loop (S fuel) a x lo hi =
  if (lo <? hi)%nat then
    match a !! ((lo + hi) / 2)%nat with
    | Some y =>
        if str_ltb y x
        then bisect_left_loop fuel a x ((lo + hi) / 2 + 1) hi
        else bisect_left_loop fuel a x lo ((lo + hi) / 2)
    | None => lo
    end
  else lo.
Proof. reflexivity. Qed.

(** The loop of [bisect_left] keeps: everything left of [lo] is below the
    needle, nothing from [hi] on is. *)
Lemma bisect_left_loop_spec (a : list str) (x : str) :
  sortedb a = true ->
  forall (fuel lo hi : nat),
    (hi - lo <= fuel)%nat -> (lo <= hi)%nat -> (hi <= length a)%nat ->
    (forall k y, (k < lo)%nat -> a !! k = Some y -> str_ltb y x = true) ->
    (forall k y, (hi <= k)%nat -> a !! k = Some y -> str_ltb y x = false) ->
    let pos := bisect_left_loop fuel a x lo hi in
    (lo <= pos)%nat /\ (pos <= hi)%nat /\
    (forall k y, (k < pos)%nat -> a !! k = Some y -> str_ltb y x = true) /\
    (forall k y, (pos <= k)%nat -> a !! k = Some y -> str_ltb y x = false).
Proof.
  intros Hs. induction fuel as [|fuel IH]; intros lo hi Hf Hle Hlen Hlo Hhi.
  - simpl. assert (lo = hi) by lia. subst. repeat split; auto.
  - cbv zeta. rewrite bisect_left_loop_S.
    destruct (Nat.ltb_spec lo hi) as [Hlt|Hge].
    2:{ assert (lo = hi) by lia. subst. repeat split; auto. }
    set (mid := ((lo + hi) / 2)%nat) in *.
    assert (Hmid : (lo <= mid)%nat /\ (mid < hi)%nat).
    { subst mid. split.
      - apply Nat.div_le_lower_bound; lia.
      - apply Nat.Div0.div_lt_upper_bound; lia. }
    destruct (a !! mid) as [y|] eqn:Ey.
    2:{ apply lookup_ge_None in Ey. lia. }
    destruct (str_ltb y x) eqn:Eyx.
    + assert (Hlo' : forall k z, (k < mid + 1)%nat -> a !! k = Some z ->
                                 str_ltb z x = true).
      { intros k z Hk Hz.
        assert (Hzy : str_leb z y = true)
          by (apply (sortedb_pairwise a Hs k mid); [lia|exact Hz|exact Ey]).
        now apply str_leb_ltb_trans with y. }
      destruct (IH (mid + 1)%nat hi ltac:(lia) ltac:(lia) Hlen Hlo' Hhi)
        as (I1 & I2 & I3 & I4).
      repeat split; auto; lia.
    + assert (Hhi' : forall k z, (mid <= k)%nat -> a !! k = Some z ->
                                 str_ltb z x = false).
      { intros k z Hk Hz.
        assert (Hyz : str_leb y z = true)
          by (apply (sortedb_pairwise a Hs mid k); [lia|exact Ey|exact Hz]).
        destruct (str_ltb z x) eqn:Ezx; [|reflexivity].
        pose proof (str_leb_ltb_trans _ _ _ Hyz Ezx). congruence. }
      destruct (IH lo mid ltac:(lia) ltac:(lia) ltac:(lia) Hlo Hhi')
        as (I1 & I2 & I3 & I4).
      repeat split; auto; lia.
Qed.

Lemma bisect_left_spec (a : list str) (x : str) :
  sortedb a = true ->
  let pos := bisect_left a x 0 (length a) in
  (pos <= length a)%nat /\
  (forall k y, (k < pos)%nat -> a !! k = Some y -> str_ltb y x = true) /\
  (forall k y, (pos <= k)%nat -> a !! k = Some y -> str_ltb y x = false).
Proof.
  intros Hs. unfold bisect_left.
  destruct (bisect_left_loop_spec a x Hs (length a - 0) 0 (length a))
    as (_ & H2 & H3 & H4); try lia.
  - intros k y Hk Hy. apply lookup_lt_Some in Hy. lia.
  - rewrite Nat.sub_0_r in *. auto.
Qed.

(** In a sorted list the insertion point holds the needle exactly when the
    needle occurs, and then it is its first occurrence. *)
Lemma bisect_left_finds (a : list str) (x : str) :
  sortedb a = true ->
  x ∈ a ->
  a !! bisect_left a x 0 (length a) = Some x.
Proof.
  intros Hs Hin. destruct (bisect_left_spec a x Hs) as (Hlen & Hlt & Hge).
  set (pos := bisect_left a x 0 (length a)) in *.
  apply list_elem_of_lookup in Hin as [k Hk].
  assert (Hpk : (pos <= k)%nat).
  { destruct (Nat.le_gt_cases pos k) as [|Hgt]; [assumption|].
    pose proof (Hlt k x Hgt Hk) as T. rewrite str_ltb_irrefl in T. discriminate. }
  destruct (a !! pos) as [y|] eqn:Ey.
  2:{ apply lookup_ge_None in Ey. apply lookup_lt_Some in Hk. lia. }
  f_equal. apply str_leb_antisym.
  - apply (sortedb_pairwise a Hs pos k); auto.
  - unfold str_leb. now rewrite (Hge pos y).
Qed.

End SearchFacts.

(** ** The index as metadata lines followed by data lines *)

Module IndexShape.
Import Index StrOrder SearchFacts.

Lemma lstrip_app_nonspace (x : str) (c : char) :
  is_space c = false -> lstrip (x ++ [c]) <> [].
Proof.
  intros Hc. induction x as [|a x IH]; simpl.
  - now rewrite Hc.
  - destruct (is_space a); [exact IH|discriminate].
Qed.

Lemma metadata_line_not_blank (line : str) :
  is_metadata_line line = true -> is_blank line = false.
Proof.
  destruct line as [|c r]; simpl; [discriminate|].
  intros Hc. apply N.eqb_eq in Hc. subst c.
  unfold is_blank, strip, rstrip.
  change (lstrip (BANG :: r)) with (BANG :: r).
  rewrite length_rev. change (rev (BANG :: r)) with (rev r ++ [BANG]).
  pose proof (lstrip_app_nonspace (rev r) BANG eq_refl) as H.
  destruct (lstrip (rev r ++ [BANG])) eqn:E; [contradiction|reflexivity].
Qed.

(** [objectify_cdxj_data] on an index of that shape: the metadata block, and
    the search strings of the data lines. *)
Lemma objectify_data_lines (datas tail : list str) (only_uri : bool) :
  Forall (fun l => is_data_line l = true) datas ->
  (tail = [] \/ exists b tl, tail = b :: tl /\ is_blank b = true) ->
  objectify_cdxj_data (datas ++ tail) only_uri =
  Ok {| metadata := []; data := map (search_string only_uri) datas |}.
Proof.
  intros Hd Ht. induction Hd as [|l datas Hl Hd IH]; simpl app.
  - destruct Ht as [->|(b & tl & -> & Hb)]; [reflexivity|].
    simpl. unfold is_blank in Hb. now rewrite Hb.
  - cbn [objectify_cdxj_data]. unfold is_data_line in Hl.
    apply andb_true_iff in Hl as [Hl Hsplit].
    apply andb_true_iff in Hl as [Hnb Hnm].
    unfold is_blank in Hnb. apply negb_true_iff in Hnb. rewrite Hnb.
    destruct l as [|c r]; [discriminate|].
    simpl in Hnm. rewrite Hnm.
    destruct (split SPACE (Some 2%nat) (c :: r)) as [|k [|t [|j [|? ?]]]] eqn:E;
      try discriminate.
    rewrite IH. unfold mbind, res_bind, bind. cbn [map metadata data].
    assert (search_string only_uri (c :: r) =
            if only_uri then k else k ++ [SPACE] ++ t) as ->
      by (unfold search_string; now rewrite E).
    reflexivity.
Qed.

Lemma objectify_index (metas datas tail : list str) (only_uri : bool) :
  Forall (fun l => is_metadata_line l = true) metas ->
  Forall (fun l => is_data_line l = true) datas ->
  (tail = [] \/ exists b tl, tail = b :: tl /\ is_blank b = true) ->
  objectify_cdxj_data (metas ++ datas ++ tail) only_uri =
  Ok {| metadata := metas; data := map (search_string only_uri) datas |}.
Proof.
  intros Hm Hd Ht. induction Hm as [|l metas Hl Hm IH]; simpl app.
  - now apply objectify_data_lines.
  - cbn [objectify_cdxj_data].
    pose proof (metadata_line_not_blank l Hl) as Hnb.
    unfold is_blank in Hnb. rewrite Hnb.
    destruct l as [|c r]; [discriminate|].
    simpl in Hl. rewrite Hl. simpl negb. cbv iota.
    rewrite IH. reflexivity.
Qed.

Lemma index_shape_inv (metas datas tail : list str) :
  index_shape metas datas tail = true ->
  Forall (fun l => is_metadata_line l = true) metas /\
  Forall (fun l => is_data_line l = true) datas /\
  (tail = [] \/ exists b tl, tail = b :: tl /\ is_blank b = true).
Proof.
  unfold index_shape. intros H.
  apply andb_true_iff in H as [H Ht]. apply andb_true_iff in H as [Hm Hd].
  rewrite forallb_forall in Hm, Hd.
  split; [|split].
  - apply List.Forall_forall. exact Hm.
  - apply List.Forall_forall. exact Hd.
  - destruct tail as [|b tl]; [now left|right; eauto].
Qed.

Lemma index_lookup {A} (l : list A) (n : nat) (x : A) :
  l !! n = Some x -> index l (Z.of_nat n) = Ok x.
Proof.
  intros H. unfold index.
  destruct (Z.ltb_spec (Z.of_nat n) 0); [lia|].
  destruct (Z.ltb_spec (Z.of_nat n) 0); [lia|].
  now rewrite Nat2Z.id, H.
Qed.

(** [binary_search] on an index of that shape, in terms of the data line at
    the insertion point. *)
Lemma binary_search_shape (metas datas tail : list str) (needle : str)
    (returnIndex only_uri : bool) :
  index_shape metas datas tail = true ->
  let a := map (search_string only_uri) datas in
  let pos := bisect_left a needle 0 (length a) in
  binary_search (metas ++ datas ++ tail) needle returnIndex only_uri =
  match datas !! pos with
  | Some l =>
      if bool_decide (search_string only_uri l = needle)
      then Ok (Some (if returnIndex then FoundIndex (pos + length metas)
                     else FoundLine l))
      else Ok None
  | None => Ok None
  end.
Proof.
  intros Hshape a pos.
  apply index_shape_inv in Hshape as (Hm & Hd & Ht).
  unfold binary_search. rewrite (objectify_index _ _ _ _ Hm Hd Ht).
  unfold mbind, res_bind, bind. cbn [data metadata].
  fold a. fold pos.
  change (list_fmap str str (search_string only_uri) datas) with a.
  assert (Ha : a !! pos = search_string only_uri <$> datas !! pos)
    by apply list_lookup_fmap.
  destruct (datas !! pos) as [l|] eqn:El.
  - simpl in Ha. assert (Hlt : (pos < length a)%nat)
      by (apply lookup_lt_is_Some; rewrite Ha; eauto).
    destruct (Nat.eqb_spec pos (length a)); [lia|]. simpl negb.
    rewrite Ha. simpl andb.
    destruct (bool_decide_reflect (search_string only_uri l = needle)) as [Heq|Hne].
    + rewrite bool_decide_eq_true_2 by congruence.
      destruct returnIndex; [reflexivity|].
      rewrite (index_lookup _ _ l); [reflexivity|].
      rewrite lookup_app_r by lia.
      replace (pos + length metas - length metas)%nat with pos by lia.
      apply lookup_app_l_Some. exact El.
    + rewrite bool_decide_eq_false_2 by congruence. reflexivity.
  - simpl in Ha. rewrite Ha.
    rewrite bool_decide_eq_false_2 by congruence.
    now rewrite andb_false_r.
Qed.

End IndexShape.

(** ** Exact-match search *)

Module ExactSearch.
Import Index StrOrder SearchFacts IndexShape Samples.

(** C1.  On an index whose data lines are sorted by their search strings,
    [binary_search] returns a line only if that line is a data line whose
    search string (the key, or the key and the timestamp) equals the needle;
    when no data line has the needle as its search string the result is
    [None]; and when one has, a line is returned. *)
Theorem binary_search_exact (metas datas tail : list str) (needle : str)
    (only_uri : bool) :
  index_shape metas datas tail = true ->
  sortedb (map (search_string only_uri) datas) = true ->
  let haystack := metas ++ datas ++ tail in
  (forall line,
      binary_search haystack needle false only_uri = Ok (Some (FoundLine line)) ->
      line ∈ datas /\ search_string only_uri line = needle) /\
  ((forall line, line ∈ datas -> search_string only_uri line <> needle) ->
   binary_search haystack needle false only_uri = Ok None) /\
  ((exists line, line ∈ datas /\ search_string only_uri line = needle) ->
   exists line,
     binary_search haystack needle false only_uri = Ok (Some (FoundLine line))).
Proof.
  intros Hshape Hsorted haystack. subst haystack.
  rewrite (binary_search_shape _ _ _ needle false only_uri Hshape).
  cbv zeta.
  set (a := map (search_string only_uri) datas) in *.
  set (pos := bisect_left a needle 0 (length a)).
  split; [|split].
  - intros line H. destruct (datas !! pos) as [l|] eqn:El; [|discriminate].
    destruct (bool_decide_reflect (search_string only_uri l = needle));
      [|discriminate].
    inversion H; subst line. split; [|assumption].
    apply list_elem_of_lookup. eauto.
  - intros Hnone. destruct (datas !! pos) as [l|] eqn:El; [|reflexivity].
    rewrite bool_decide_eq_false_2; [reflexivity|].
    apply Hnone, list_elem_of_lookup. eauto.
  - intros (line & Hin & Heq).
    assert (Hneedle : needle ∈ a).
    { subst a. rewrite <- Heq. apply list_elem_of_fmap. eauto. }
    pose proof (bisect_left_finds a needle Hsorted Hneedle) as Hpos.
    fold pos in Hpos. subst a. rewrite list_lookup_fmap in Hpos.
    destruct (datas !! pos) as [l|] eqn:El; [|discriminate].
    simpl in Hpos. inversion Hpos as [Hl].
    rewrite bool_decide_eq_true_2 by reflexivity. eauto.
Qed.

Lemma binary_search_exact_witness :
  index_shape (take 2 sample_index) (take 4 (drop 2 sample_index))
    (drop 6 sample_index) = true /\
  sortedb (map (search_string false) (take 4 (drop 2 sample_index))) = true /\
  binary_search sample_index (lit "com,b)/ 2019") false false = Ok None.
Proof.
  split; [vm_compute; reflexivity|]. split; [vm_compute; reflexivity|].
  refine (proj1 (proj2 (binary_search_exact
            (take 2 sample_index) (take 4 (drop 2 sample_index))
            (drop 6 sample_index) (lit "com,b)/ 2019") false _ _)) _).
  - vm_compute; reflexivity.
  - vm_compute; reflexivity.
  - intros line Hin Heq.
    apply list_elem_of_In in Hin. vm_compute in Hin.
    repeat (destruct Hin as [<-|Hin]; [vm_compute in Heq; discriminate|]).
    exact Hin.
Defined.

End ExactSearch.

(** ** The adjacency scan *)

Module AdjacencyScan.
Import Index StrOrder SearchFacts IndexShape Samples.

Lemma sortedb_strongly (l : list str) :
  sortedb l = true -> StronglySorted leR l.
Proof.
  intros Hs. induction l as [|x l IH]; [constructor|].
  pose proof (sortedb_pairwise _ Hs) as Hp.
  apply sortedb_cons in Hs as [Hs _].
  constructor; [now apply IH|].
  apply List.Forall_forall. intros y Hy.
  apply list_elem_of_In, list_elem_of_lookup in Hy as [j Hj].
  apply (Hp 0%nat (S j) x y); [lia|reflexivity|exact Hj].
Qed.

Lemma strongly_sortedb (l : list str) :
  StronglySorted leR l -> sortedb l = true.
Proof.
  induction 1 as [|x l Hl IH Hx]; [reflexivity|].
  destruct l as [|y l]; [reflexivity|].
  change (str_leb x y && sortedb (y :: l) = true).
  rewrite IH, andb_true_r.
  now inversion Hx.
Qed.

(** Sortedness of one projection carries over to another projection of a
    filtered list, when the order transfers on the kept elements. *)
Lemma strongly_sorted_filter_map {A} (f g : A -> str) (P : A -> Prop)
    `{!forall x, Decision (P x)} (l : list A) :
  (forall x y, x ∈ l -> y ∈ l -> P x -> P y ->
               leR (f x) (f y) -> leR (g x) (g y)) ->
  StronglySorted leR (map f l) ->
  StronglySorted leR (map g (filter P l)).
Proof.
  induction l as [|x l IH]; intros Htr Hs; [constructor|].
  cbn [map] in Hs. apply StronglySorted_inv in Hs as [Hs Hx].
  assert (IH' : StronglySorted leR (map g (filter P l))).
  { apply IH; [|exact Hs]. intros y z Hy Hz. apply Htr; now right. }
  rewrite filter_cons. destruct (decide (P x)) as [Px|]; [|exact IH'].
  cbn [map]. constructor; [exact IH'|].
  apply List.Forall_forall. intros z Hz.
  apply in_map_iff in Hz as (y & <- & Hy).
  apply list_elem_of_In, list_elem_of_filter in Hy as [Py Hy].
  apply Htr; [left|now right|assumption..|].
  rewrite List.Forall_forall in Hx. apply Hx, in_map, list_elem_of_In, Hy.
Qed.

Lemma filter_all {A} (P : A -> Prop) `{!forall x, Decision (P x)} (l : list A) :
  (forall x, x ∈ l -> P x) -> filter P l = l.
Proof.
  induction l as [|x l IH]; intros Hall; [reflexivity|].
  rewrite filter_cons_True by (apply Hall; left).
  f_equal. apply IH. intros y Hy. apply Hall. now right.
Qed.

Lemma filter_none {A} (P : A -> Prop) `{!forall x, Decision (P x)} (l : list A) :
  (forall x, x ∈ l -> ~ P x) -> filter P l = [].
Proof.
  induction l as [|x l IH]; intros Hall; [reflexivity|].
  rewrite filter_cons_False by (apply Hall; left).
  apply IH. intros y Hy. apply Hall. now right.
Qed.

(** *** Fields of a line *)

Lemma split_not_nil (sep : char) (m : option nat) (s : str) :
  split sep m s <> [].
Proof.
  revert m. induction s as [|c s IH]; intros m; simpl; [discriminate|].
  destruct ((c =? sep)%N && negb (bool_decide (m = Some 0%nat)));
    [discriminate|].
  destruct (split sep m s); discriminate.
Qed.

(** The first field does not depend on the limit, as long as one split is
    allowed. *)
Lemma split_first (sep : char) (m : option nat) (s : str) :
  m <> Some 0%nat ->
  hd [] (split sep m s) = hd [] (split sep None s).
Proof.
  intros Hm. induction s as [|c s IH]; simpl; [reflexivity|].
  rewrite (bool_decide_eq_false_2 _ Hm).
  destruct (c =? sep)%N; simpl; [reflexivity|].
  pose proof (split_not_nil sep m s). pose proof (split_not_nil sep None s).
  destruct (split sep m s), (split sep None s); try contradiction.
  simpl in *. now rewrite IH.
Qed.

Lemma first_field_split2 (line k t j : str) :
  split SPACE (Some 2%nat) line = [k; t; j] -> first_field line = k.
Proof.
  intros H. unfold first_field.
  pose proof (split_first SPACE (Some 2%nat) line ltac:(discriminate)) as E.
  rewrite H in E. simpl in E.
  destruct (split SPACE None line); simpl in E; congruence.
Qed.

(** A non-empty first field begins as the line does. *)
Lemma first_field_head (c : char) (r : str) :
  first_field (c :: r) <> [] -> exists p, first_field (c :: r) = c :: p.
Proof.
  unfold first_field. simpl.
  destruct (c =? SPACE)%N; simpl; [contradiction|].
  pose proof (split_not_nil SPACE None r).
  destruct (split SPACE None r); [contradiction|]. eauto.
Qed.

Lemma first_field_metadata (line : str) :
  is_metadata_line line = true -> exists p, first_field line = BANG :: p.
Proof.
  destruct line as [|c r]; simpl; [discriminate|].
  intros Hc. apply N.eqb_eq in Hc. subst c.
  unfold first_field. simpl.
  pose proof (split_not_nil SPACE None r).
  destruct (split SPACE None r); [contradiction|]. eauto.
Qed.

(** What [is_data_line] gives: three fields, the key is the first field, is
    not empty, does not begin with [!], and is made of characters above the
    space. *)
Lemma data_line_fields (line : str) :
  is_data_line line = true ->
  exists k t j,
    split SPACE (Some 2%nat) line = [k; t; j] /\
    first_field line = k /\ k <> [] /\
    forallb (fun c => (32 <? c)%N) k = true /\
    (forall p, k <> BANG :: p).
Proof.
  unfold is_data_line. intros H.
  apply andb_true_iff in H as [H Hsplit]. apply andb_true_iff in H as [_ Hnm].
  destruct (split SPACE (Some 2%nat) line) as [|k [|t [|j [|? ?]]]] eqn:E;
    try discriminate.
  apply andb_true_iff in Hsplit as [Hne Hch].
  apply negb_true_iff, bool_decide_eq_false in Hne.
  pose proof (first_field_split2 _ _ _ _ E) as Hff.
  exists k, t, j. repeat split; auto.
  intros p Hk. destruct line as [|c r]; [discriminate E|].
  destruct (first_field_head c r) as [q Hq]; [congruence|].
  rewrite Hff, Hk in Hq. inversion Hq; subst c.
  simpl in Hnm. discriminate.
Qed.

Lemma data_line_search_strings (line : str) :
  is_data_line line = true ->
  search_string true line = first_field line /\
  search_string false line =
    first_field line ++ [SPACE] ++ timestamp_field line.
Proof.
  intros H. destruct (data_line_fields line H) as (k & t & j & E & Hff & _).
  unfold search_string, timestamp_field. rewrite E, Hff. auto.
Qed.

(** An index sorted by [key timestamp] is sorted by key. *)
Lemma keys_sorted (datas : list str) :
  Forall (fun l => is_data_line l = true) datas ->
  sortedb (map (search_string false) datas) = true ->
  sortedb (map (search_string true) datas) = true.
Proof.
  intros Hd Hs. apply sortedb_strongly in Hs. apply strongly_sortedb.
  rewrite List.Forall_forall in Hd.
  rewrite <- (filter_all (fun _ => True) datas) at 1 by auto.
  apply (strongly_sorted_filter_map (search_string false)); [|exact Hs].
  intros x y Hx Hy _ _.
  apply list_elem_of_In, Hd in Hx. apply list_elem_of_In, Hd in Hy.
  destruct (data_line_fields x Hx) as (kx & tx & jx & Ex & _ & _ & Hcx & _).
  destruct (data_line_fields y Hy) as (ky & ty & jy & Ey & _ & _ & Hcy & _).
  unfold search_string, leR. rewrite Ex, Ey.
  now apply str_leb_keys.
Qed.

Lemma rev_take_app {A} (l1 l2 : list A) (n : nat) (x : A) :
  x ∈ rev (take n l1 ++ l2) -> x ∈ take n l1 \/ x ∈ l2.
Proof.
  intros H. apply list_elem_of_In, in_rev, in_app_iff in H.
  destruct H; [left|right]; now apply list_elem_of_In.
Qed.

Section Scan.

Variable surt : str -> str.
Variables (content urir : str) (metas datas tail : list str).

Hypothesis Hlines : split NEWLINE None content = metas ++ datas ++ tail.
Hypothesis Hshape : index_shape metas datas tail = true.
Hypothesis Htail : forallb (fun l => bool_decide (l = [])) tail = true.
Hypothesis Hsorted : sortedb (map (search_string false) datas) = true.

Let s := surt urir.
Let a := map (search_string true) datas.
Let pos := bisect_left a s 0 (length a).

Lemma scan_data_lines : Forall (fun l => is_data_line l = true) datas.
Proof. now apply index_shape_inv in Hshape. Qed.

Lemma scan_keys_sorted : sortedb a = true.
Proof. apply keys_sorted; [apply scan_data_lines|exact Hsorted]. Qed.

Lemma scan_key_of (l : str) : l ∈ datas -> search_string true l = first_field l.
Proof.
  intros Hl. pose proof scan_data_lines as Hd.
  rewrite List.Forall_forall in Hd.
  apply data_line_search_strings, Hd, list_elem_of_In, Hl.
Qed.

(** No metadata line and no line after the data has the key of a data line. *)
Lemma scan_metas_differ (l m : str) :
  l ∈ datas -> m ∈ metas -> first_field m <> first_field l.
Proof.
  intros Hl Hm E.
  apply index_shape_inv in Hshape as (HM & HD & _).
  rewrite List.Forall_forall in HM, HD.
  apply list_elem_of_In, HM, first_field_metadata in Hm as [p Hp].
  apply list_elem_of_In, HD, data_line_fields in Hl
    as (k & t & j & _ & Hff & _ & _ & Hbang).
  apply (Hbang p). congruence.
Qed.

Lemma scan_tail_differ (l m : str) :
  l ∈ datas -> m ∈ tail -> first_field m <> first_field l.
Proof.
  intros Hl Hm E.
  rewrite forallb_forall in Htail.
  apply list_elem_of_In, Htail, bool_decide_eq_true in Hm. subst m.
  apply index_shape_inv in Hshape as (_ & HD & _).
  rewrite List.Forall_forall in HD.
  apply list_elem_of_In, HD, data_line_fields in Hl
    as (k & t & j & _ & Hff & Hne & _).
  apply Hne. rewrite <- Hff, <- E. reflexivity.
Qed.

(** The data lines before the insertion point have a smaller key. *)
Lemma scan_before_differ (l : str) (k : nat) :
  (k < pos)%nat -> datas !! k = Some l -> first_field l <> s.
Proof.
  intros Hk Hl E.
  destruct (bisect_left_spec a s scan_keys_sorted) as (_ & Hlt & _).
  fold pos in Hlt.
  assert (Ha : a !! k = Some s).
  { subst a. rewrite list_lookup_fmap, Hl. simpl. f_equal.
    rewrite scan_key_of; [exact E|]. apply list_elem_of_lookup; eauto. }
  pose proof (Hlt k s Hk Ha) as T. rewrite str_ltb_irrefl in T. discriminate.
Qed.

(** The index [binary_search] computes for the key. *)
Lemma scan_binary_search :
  get_cdxj_line_binarySearch content s true true =
  match datas !! pos with
  | Some l =>
      if bool_decide (search_string true l = s)
      then Ok (Some (FoundIndex (pos + length metas)))
      else Ok None
  | None => Ok None
  end.
Proof.
  unfold get_cdxj_line_binarySearch. rewrite Hlines.
  apply (binary_search_shape metas datas tail s true true Hshape).
Qed.

Lemma scan_miss :
  (forall l, datas !! pos = Some l -> search_string true l <> s) ->
  filter (fun l => first_field l = s) datas = [].
Proof.
  intros Hmiss. apply filter_none. intros l Hl E.
  assert (Hin : s ∈ a).
  { subst a. apply list_elem_of_fmap. exists l. split; [|exact Hl].
    now rewrite scan_key_of. }
  pose proof (bisect_left_finds a s scan_keys_sorted Hin) as Hp.
  fold pos in Hp. subst a. rewrite list_lookup_fmap in Hp.
  destruct (datas !! pos) as [l'|] eqn:El; [|discriminate].
  simpl in Hp. inversion Hp. now apply (Hmiss l').
Qed.

Lemma scan_result :
  get_cdxj_lines_with_urir surt content urir =
  Ok (filter (fun l => first_field l = s) datas).
Proof.
  unfold get_cdxj_lines_with_urir. fold s. rewrite scan_binary_search.
  destruct (datas !! pos) as [l|] eqn:El.
  2:{ simpl. rewrite scan_miss; [reflexivity|]. intros l H. congruence. }
  destruct (bool_decide_reflect (search_string true l = s)) as [Hkey|Hkey].
  2:{ simpl. rewrite scan_miss; [reflexivity|].
      intros l' H. assert (l' = l) by congruence. subst l'. exact Hkey. }
  assert (Hl : l ∈ datas) by (apply list_elem_of_lookup; eauto).
  assert (Hff : first_field l = s) by (now rewrite <- scan_key_of).
  unfold mbind, res_bind, bind. rewrite Hlines.
  assert (Hlt : (pos < length datas)%nat) by (apply lookup_lt_is_Some; eauto).
  rewrite (index_lookup _ _ l).
  2:{ rewrite lookup_app_r by lia.
      replace (pos + length metas - length metas)%nat with pos by lia.
      now apply lookup_app_l_Some. }
  f_equal.
  (* nothing before the pivot has the key *)
  rewrite (filter_none _ (rev _)).
  2:{ intros x Hx Ex. rewrite take_app in Hx.
      rewrite (take_ge metas) in Hx by lia.
      replace (pos + length metas - length metas)%nat with pos in Hx by lia.
      apply list_elem_of_In, in_rev, in_app_iff in Hx.
      destruct Hx as [Hx|Hx]; apply list_elem_of_In in Hx.
      - apply (scan_metas_differ l x Hl Hx). congruence.
      - rewrite take_app in Hx. apply elem_of_app in Hx as [Hx|Hx].
        + apply elem_of_take in Hx as (k & Hk & Hkp).
          now apply (scan_before_differ x k).
        + apply elem_of_take in Hx as (k & Hk & Hkp). lia. }
  (* after it: the data lines that follow *)
  assert (Hdrop : drop (S (pos + length metas)) (metas ++ datas ++ tail) =
                  drop (S pos) datas ++ drop (S pos - length datas) tail).
  { rewrite drop_app, (drop_ge metas) by lia.
    replace (S (pos + length metas) - length metas)%nat with (S pos) by lia.
    apply drop_app. }
  rewrite Hdrop, filter_app.
  rewrite (filter_none _ (drop _ tail)).
  2:{ intros x Hx Ex. apply subseteq_drop in Hx.
      apply (scan_tail_differ l x Hl Hx). congruence. }
  rewrite <- (take_drop_middle datas pos l El) at 2.
  rewrite filter_app, filter_cons_True by exact Hff.
  rewrite (filter_none _ (take pos datas)).
  2:{ intros x Hx Ex. apply elem_of_take in Hx as (k & Hk & Hkp).
      now apply (scan_before_differ x k). }
  simpl. now rewrite app_nil_r.
Qed.

End Scan.

(** C2.  On a sorted index with any number of leading metadata lines, the
    adjacency scan returns exactly the data lines whose key is the queried
    key, in index order, which is ascending timestamp order; the index
    [binary_search] returns is the position among the data lines plus the
    number of metadata lines, and the line at that index has the queried
    key. *)
Theorem adjacency_scan_exact (surt : str -> str) (content urir : str)
    (metas datas tail : list str) :
  split NEWLINE None content = metas ++ datas ++ tail ->
  index_shape metas datas tail = true ->
  forallb (fun l => bool_decide (l = [])) tail = true ->
  sortedb (map (search_string false) datas) = true ->
  let s := surt urir in
  let same_key := filter (fun l => first_field l = s) datas in
  get_cdxj_lines_with_urir surt content urir = Ok same_key /\
  sortedb (map timestamp_field same_key) = true /\
  (forall i,
      get_cdxj_line_binarySearch content s true true =
        Ok (Some (FoundIndex i)) ->
      exists p line,
        i = (p + length metas)%nat /\ datas !! p = Some line /\
        split NEWLINE None content !! i = Some line /\
        first_field line = s).
Proof.
  intros Hlines Hshape Htail Hsorted s same_key.
  split; [|split].
  - eapply scan_result; eassumption.
  - apply strongly_sortedb.
    apply (strongly_sorted_filter_map (search_string false));
      [|now apply sortedb_strongly].
    pose proof (scan_data_lines metas datas tail Hshape) as Hd.
    rewrite List.Forall_forall in Hd.
    intros x y Hx Hy Ex Ey.
    apply list_elem_of_In, Hd, data_line_search_strings in Hx as [_ Hx].
    apply list_elem_of_In, Hd, data_line_search_strings in Hy as [_ Hy].
    unfold leR. rewrite Hx, Hy, Ex, Ey.
    now rewrite !str_leb_app.
  - intros i Hi. unfold s in Hi.
    rewrite (scan_binary_search surt content urir metas datas tail Hlines Hshape)
      in Hi.
    fold s in Hi.
    set (pos := bisect_left (map (search_string true) datas) s 0
                  (length (map (search_string true) datas))) in *.
    destruct (datas !! pos) as [l|] eqn:El; [|discriminate].
    destruct (bool_decide_reflect (search_string true l = s)) as [Hkey|];
      [|discriminate].
    inversion Hi; subst i. exists pos, l.
    assert (Hl : l ∈ datas) by (apply list_elem_of_lookup; eauto).
    repeat split; auto.
    + rewrite Hlines, lookup_app_r by lia.
      replace (pos + length metas - length metas)%nat with pos by lia.
      now apply lookup_app_l_Some.
    + now rewrite <- (scan_key_of metas datas tail Hshape l Hl).
Qed.

Lemma adjacency_scan_exact_witness :
  let lines := split NEWLINE None sample_content in
  (split NEWLINE None sample_content =
     take 2 lines ++ take 4 (drop 2 lines) ++ drop 6 lines /\
   index_shape (take 2 lines) (take 4 (drop 2 lines)) (drop 6 lines) = true /\
   forallb (fun l => bool_decide (l = [])) (drop 6 lines) = true /\
   sortedb (map (search_string false) (take 4 (drop 2 lines))) = true) /\
  get_cdxj_lines_with_urir (fun u => u) sample_content (lit "com,b)/") =
    Ok [lit "com,b)/ 20190101000000 {}"; lit "com,b)/ 20200101000000 {}"].
Proof.
  intros lines.
  assert (H1 : split NEWLINE None sample_content =
               take 2 lines ++ take 4 (drop 2 lines) ++ drop 6 lines)
    by (vm_compute; reflexivity).
  assert (H2 : index_shape (take 2 lines) (take 4 (drop 2 lines))
                 (drop 6 lines) = true) by (vm_compute; reflexivity).
  assert (H3 : forallb (fun l => bool_decide (l = [])) (drop 6 lines) = true)
    by (vm_compute; reflexivity).
  assert (H4 : sortedb (map (search_string false) (take 4 (drop 2 lines)))
               = true) by (vm_compute; reflexivity).
  split; [auto|].
  rewrite (proj1 (adjacency_scan_exact (fun u => u) sample_content
                    (lit "com,b)/") _ _ _ H1 H2 H3 H4)).
  vm_compute. reflexivity.
Defined.

End AdjacencyScan.

(** ** The closest capture *)

Module Closest.
Import Index Samples Invariants.

Lemma closest_loop_inv (t : Z) (rest : list str) :
  forall (seen : list str) (smallest_diff : option Z) (best_line : option str),
    forallb (fun l => is_Ok (line_datetime l)) rest = true ->
    closest_inv t seen smallest_diff best_line ->
    exists best_line' smallest_diff',
      closest_loop t smallest_diff best_line rest = Ok best_line' /\
      closest_inv t (seen ++ rest) smallest_diff' best_line'.
Proof.
  induction rest as [|line rest IH]; intros seen sd bl Hok Hinv.
  - simpl. rewrite app_nil_r. eauto.
  - cbn [forallb] in Hok. apply andb_true_iff in Hok as [Hline Hok].
    cbn [closest_loop].
    destruct (line_datetime line) as [dt|] eqn:Edt; [|discriminate].
    unfold mbind, res_bind, bind.
    replace (seen ++ line :: rest) with ((seen ++ [line]) ++ rest)
      by (now rewrite <- app_assoc).
    destruct Hinv as [(-> & -> & ->)|(i & best & d & Hi & Hd & -> & -> & Hmin & Hfirst)].
    + (* the first line always wins against infinity *)
      apply IH; [exact Hok|]. right. exists 0%nat, line, dt.
      repeat split; auto.
      * intros [|j] l dt' Hl Hdt; simpl in Hl; [|discriminate].
        inversion Hl; subst l. rewrite Edt in Hdt. inversion Hdt. lia.
      * intros j l dt' Hj. lia.
    + destruct (Z.ltb_spec (Z.abs (dt - t)) (Z.abs (d - t))) as [Hlt|Hge].
      * (* strictly closer: the new line becomes the best *)
        apply IH; [exact Hok|]. right. exists (length seen), line, dt.
        repeat split; auto.
        -- rewrite lookup_app_r by lia. now rewrite Nat.sub_diag.
        -- intros j l dt' Hl Hdt.
           apply lookup_app_Some in Hl as [Hl|[Hj Hl]].
           ++ specialize (Hmin j l dt' Hl Hdt). lia.
           ++ destruct (j - length seen)%nat; simpl in Hl; [|discriminate].
              inversion Hl; subst l. rewrite Edt in Hdt. inversion Hdt. lia.
        -- intros j l dt' Hj Hl Hdt.
           rewrite lookup_app_l in Hl by lia.
           specialize (Hmin j l dt' Hl Hdt). lia.
      * (* not strictly closer: the earlier line stays *)
        apply IH; [exact Hok|]. right. exists i, best, d.
        repeat split; auto.
        -- now apply lookup_app_l_Some.
        -- intros j l dt' Hl Hdt.
           apply lookup_app_Some in Hl as [Hl|[Hj Hl]].
           ++ exact (Hmin j l dt' Hl Hdt).
           ++ destruct (j - length seen)%nat; simpl in Hl; [|discriminate].
              inversion Hl; subst l. rewrite Edt in Hdt. inversion Hdt. lia.
        -- intros j l dt' Hj Hl Hdt.
           assert (Hi' : (i < length seen)%nat) by (apply lookup_lt_is_Some; eauto).
           rewrite lookup_app_l in Hl by lia.
           exact (Hfirst j l dt' Hj Hl Hdt).
Qed.

(** C3.  For a non-empty list of lines whose timestamps parse, the resolver
    returns a line of the list whose timestamp is at the least absolute
    distance from the target, and every line before it is strictly farther
    (the first of several closest lines wins).  For the timestamps 10, 20, 30
    the targets 21 and 25 both resolve to 20. *)
Theorem closest_line_minimises :
  (forall (datetime_target : str) (cdxj_lines : list str) (t : Z),
      (0 < length cdxj_lines)%nat ->
      int datetime_target = Ok t ->
      forallb (fun l => is_Ok (line_datetime l)) cdxj_lines = true ->
      exists (i : nat) (best : str) (d : Z),
        get_cdxj_line_closest_to datetime_target cdxj_lines = Ok (Some best) /\
        cdxj_lines !! i = Some best /\ line_datetime best = Ok d /\
        (forall j l dt, cdxj_lines !! j = Some l -> line_datetime l = Ok dt ->
                        (Z.abs (d - t) <= Z.abs (dt - t))%Z) /\
        (forall j l dt, (j < i)%nat -> cdxj_lines !! j = Some l ->
                        line_datetime l = Ok dt ->
                        (Z.abs (d - t) < Z.abs (dt - t))%Z)) /\
  get_cdxj_line_closest_to (lit "21") three_captures = Ok (Some (lit "k 20 {}")) /\
  get_cdxj_line_closest_to (lit "25") three_captures = Ok (Some (lit "k 20 {}")).
Proof.
  split; [|split; vm_compute; reflexivity].
  intros target lines t Hlen Ht Hok.
  unfold get_cdxj_line_closest_to. rewrite Ht.
  unfold mbind, res_bind, bind.
  destruct (closest_loop_inv t lines [] None None Hok) as (bl & sd & Hrun & Hinv).
  { left. auto. }
  simpl app in Hinv.
  destruct Hinv as [(-> & _)|(i & best & d & Hi & Hd & _ & -> & Hmin & Hfirst)].
  { simpl in Hlen. lia. }
  exists i, best, d. repeat split; auto.
Qed.

Lemma closest_line_minimises_witness :
  ((0 < length three_captures)%nat /\
   int (lit "25") = Ok 25%Z /\
   forallb (fun l => is_Ok (line_datetime l)) three_captures = true) /\
  exists (i : nat) (best : str) (d : Z),
    get_cdxj_line_closest_to (lit "25") three_captures = Ok (Some best) /\
    three_captures !! i = Some best /\ line_datetime best = Ok d /\
    (forall j l dt, three_captures !! j = Some l -> line_datetime l = Ok dt ->
                    (Z.abs (d - 25) <= Z.abs (dt - 25))%Z) /\
    (forall j l dt, (j < i)%nat -> three_captures !! j = Some l ->
                    line_datetime l = Ok dt ->
                    (Z.abs (d - 25) < Z.abs (dt - 25))%Z).
Proof.
  split.
  - split; [simpl; lia|]. split; vm_compute; reflexivity.
  - apply (proj1 closest_line_minimises (lit "25") three_captures 25%Z).
    + simpl; lia.
    + vm_compute; reflexivity.
    + vm_compute; reflexivity.
Defined.

End Closest.

(** ** Response reconstruction *)

Module ReplayFacts.
Import Index Env TimeMap Chunked Replay SampleArchive.

Ltac unfold_bind := unfold mbind, res_bind, outcome_bind, bind, lift in *.

(** *** Headers *)

Lemma same_key_refl (k : list N) : same_key k k = true.
Proof. unfold same_key, str_eqb. now apply bool_decide_eq_true. Qed.

Lemma same_key_trans_false (a b c : list N) :
  same_key a b = true -> same_key b c = false -> same_key a c = false.
Proof.
  unfold same_key, str_eqb. intros H1 H2.
  apply bool_decide_eq_true in H1. apply bool_decide_eq_false in H2.
  apply bool_decide_eq_false. congruence.
Qed.

Lemma headers_get_set_same (hs : list (list N * list N)) (k v : list N) :
  headers_get (headers_set hs k v) k = Some v.
Proof.
  induction hs as [|[k0 v0] hs IH]; simpl.
  - now rewrite same_key_refl.
  - destruct (same_key k0 k) eqn:E; simpl.
    + now rewrite same_key_refl.
    + now rewrite E.
Qed.

Lemma headers_get_filter (hs : list (list N * list N)) (k k' : list N) :
  same_key k' k = false ->
  headers_get (List.filter (fun kv => negb (same_key (fst kv) k')) hs) k =
  headers_get hs k.
Proof.
  intros Hk. induction hs as [|[k0 v0] hs IH]; simpl; [reflexivity|].
  destruct (same_key k0 k') eqn:E; simpl.
  - rewrite (same_key_trans_false _ _ _ E Hk). exact IH.
  - destruct (same_key k0 k); [reflexivity|exact IH].
Qed.

(** Setting one header leaves the others as they are. *)
Lemma headers_get_set_other (hs : list (list N * list N)) (k k' v : list N) :
  same_key k' k = false ->
  headers_get (headers_set hs k' v) k = headers_get hs k.
Proof.
  intros Hk. induction hs as [|[k0 v0] hs IH]; simpl.
  - now rewrite Hk.
  - destruct (same_key k0 k') eqn:E; simpl.
    + rewrite Hk, (same_key_trans_false _ _ _ E Hk).
      now apply headers_get_filter.
    + destruct (same_key k0 k); [reflexivity|exact IH].
Qed.

(** *** A record without [status_code] *)

(** [status] is then the integer 200, and [status[0]] raises: the
    reconstruction never returns. *)
Lemma assemble_without_status (E : env) (json_object : gmap (list N) jval)
    (datetime : list N) (payload : list N) (header : blob) :
  json_object !! lit "status_code" = None ->
  exists e, assemble E json_object datetime payload header = Raise e.
Proof.
  intros Hst. unfold assemble. rewrite Hst. unfold_bind.
  repeat case_match; eauto; discriminate.
Qed.

Lemma reconstruct_without_status (E : env) (json_object : gmap (list N) jval)
    (datetime : list N) (payload : list N) (header : blob) :
  json_object !! lit "status_code" = None ->
  forall r, reconstruct E json_object datetime payload header <> Returns r.
Proof.
  intros Hst r. unfold reconstruct, decrypt_and_assemble. unfold_bind.
  repeat case_match; try discriminate;
    match goal with
    | H : assemble ?E ?j ?d ?p ?h = Ok _ |- _ =>
        destruct (assemble_without_status E j d p h Hst); congruence
    end.
Qed.

(** C6.  The capture [com,example)/nostatus] of the sample archive has no
    [status_code] in its metadata and both its blobs are fetched; [show_uri]
    raises [TypeError] instead of returning a response. *)
Theorem missing_status_code_raises :
  object_nostatus !! lit "status_code" = None /\
  show_uri archive (lit "example.com/nostatus")
    (lit "20190101000000") = Raises TypeError.
Proof. split; vm_compute; reflexivity. Qed.

(** *** A header blob that cannot be fetched *)

Lemma fetch_never_raises_HashNotFoundError (e : fetch_error) :
  exn_of_fetch_error e <> HashNotFoundError.
Proof. destruct e; discriminate. Qed.

(** The header the handler of [HashNotFoundError] fabricates is a [str]: it
    has no [decode]. *)
Lemma assemble_fabricated_header (E : env) (json_object : gmap (list N) jval)
    (datetime payload s : list N) :
  assemble E json_object datetime payload (BStr s) = Raise AttributeError.
Proof. reflexivity. Qed.

Lemma lower_app (a b : list N) : lower (a ++ b) = lower a ++ lower b.
Proof. unfold lower. apply map_app. Qed.

(** No key the header loop sets is the marker. *)
Lemma loop_key_not_marker (k : list N) :
  same_key
    (if negb (passes_unprefixed k) then lit "X-Archive-Orig-" ++ k else k)
    MARKER = false.
Proof.
  unfold same_key, str_eqb. apply bool_decide_eq_false.
  destruct (passes_unprefixed k) eqn:Hk; simpl negb; cbv iota.
  - unfold passes_unprefixed in Hk. simpl in Hk. unfold str_eqb in Hk.
    repeat (apply orb_true_iff in Hk as [Hk|Hk]); try discriminate;
      apply bool_decide_eq_true in Hk; rewrite Hk; vm_compute; discriminate.
  - rewrite lower_app. vm_compute. discriminate.
Qed.

Lemma header_loop_no_marker (E : env) (payload : list N)
    (h_lines : list (list N)) :
  forall resp resp',
    headers_get (headers resp) MARKER = None ->
    header_loop E payload h_lines resp = Ok resp' ->
    headers_get (headers resp') MARKER = None.
Proof.
  induction h_lines as [|hLine rest IH]; intros resp resp' Hm Hrun.
  - simpl in Hrun. now inversion Hrun; subst.
  - cbn [header_loop] in Hrun.
    destruct (split COLON (Some 1%nat) hLine) as [|k [|v [|? ?]]];
      try discriminate.
    assert (Hset : forall r, headers_get (headers r) MARKER = None ->
              headers_get
                (headers (set_header r
                   (if negb (passes_unprefixed k)
                    then lit "X-Archive-Orig-" ++ k else k) (strip v)))
                MARKER = None).
    { intros r Hr. simpl. rewrite headers_get_set_other; [exact Hr|].
      apply loop_key_not_marker. }
    destruct (str_eqb (lower k) (lit "transfer-encoding") && re_chunked E v).
    + destruct (extract_response_from_chunked_data payload) as [u|e].
      * unfold_bind. unfold set_data in Hrun. unfold_bind.
        destruct (encode u) as [b|]; [|discriminate].
        eapply IH; [|exact Hrun]. apply Hset. cbn [headers].
        rewrite headers_get_set_other by reflexivity. exact Hm.
      * eapply IH; [exact Hm|exact Hrun].
    + eapply IH; [|exact Hrun]. apply Hset. exact Hm.
Qed.

(** Whatever the record and the blobs, a response that [show_uri] assembles
    does not carry the marker of synthesized headers. *)
Lemma assemble_never_marks (E : env) (json_object : gmap (list N) jval)
    (datetime payload : list N) (header : blob) (r : response) :
  headers_get (default_headers E) MARKER = None ->
  assemble E json_object datetime payload header = Ok (RespObj r) ->
  headers_get (headers r) MARKER = None.
Proof.
  intros Hd Hrun. unfold assemble in Hrun.
  destruct header as [hb|hs|]; try discriminate.
  unfold_bind.
  destruct (header_lines (BBytes hb)) as [h_lines|]; [|discriminate].
  destruct (checked_status _); [|discriminate].
  match type of Hrun with
  | context [header_loop E ?p ?l ?r0] =>
      destruct (header_loop E p l r0) as [resp1|] eqn:Hloop; [|discriminate];
      pose proof (header_loop_no_marker E p l r0 resp1 Hd Hloop) as H1
  end.
  destruct (json_object !! lit "mime_type") as [mime|]; [|discriminate].
  destruct (mime_is_html mime) as [html|]; [|discriminate].
  match type of Hrun with
  | context [if html then ?a else ?b] =>
      destruct (if html then a else b) as [resp2|] eqn:Hhtml; [|discriminate]
  end.
  assert (H2 : headers_get (headers resp2) MARKER = None).
  { destruct html; [|injection Hhtml as <-; exact H1].
    destruct (decode (data resp1)); [|discriminate].
    unfold set_data in Hhtml. unfold_bind.
    destruct (encode _); [|discriminate]. injection Hhtml as <-.
    cbn [headers]. now rewrite headers_get_set_other by reflexivity. }
  destruct (digits14_to_rfc1123 E datetime) as [md|]; [|discriminate].
  destruct (status_is_redirect _) as [is3|]; [|discriminate].
  assert (H3 : headers_get
                 (headers (set_header resp2 MEMENTO_DATETIME md))
                 MARKER = None).
  { simpl. now rewrite headers_get_set_other by reflexivity. }
  destruct is3.
  - destruct (headers_get _ (lit "Location")) as [location|]; [|discriminate].
    destruct (isUri location).
    + destruct (search_d14_end E 0 (request_url E)); [|discriminate].
      inversion Hrun; subst r. simpl.
      rewrite headers_get_set_other by reflexivity. exact H3.
    + inversion Hrun; subst r. exact H3.
  - inversion Hrun; subst r. exact H3.
Qed.

(** C7.  The capture [com,example)/noheader] of the sample archive: its
    payload blob is fetched and the fetch of its header blob fails.
    [show_uri] returns the page that tells the capture was not found in IPFS,
    with status 200 and without the marker of synthesized headers; and
    continuing with the header the handler would fabricate raises
    [AttributeError]. *)
Theorem missing_header_not_synthesized :
  archive_cat (lit "P1") = inr payload_plain /\
  archive_cat (lit "HX") = inl FetchTimeout /\
  (exists r,
      show_uri archive (lit "example.com/noheader")
        (lit "20190101000000") = Returns (RespObj r) /\
      status r = JInt 200 /\
      headers_get (headers r) MARKER = None /\
      data r = lit "example.com/noheader not found in IPFS :(" ++
               go_home archive) /\
  reconstruct archive object_noheader
    (lit "20190101000000") payload_plain (BStr []) = Raises AttributeError.
Proof.
  split; [reflexivity|]. split; [reflexivity|]. split.
  - eexists. split; [vm_compute; reflexivity|].
    repeat split; vm_compute; reflexivity.
  - vm_compute; reflexivity.
Qed.


(** *** An encrypted record without a key *)





(** *** The loop over the header lines and what follows it *)

Lemma set_data_status (r r' : response) (v : list N) :
  set_data r v = Ok r' -> status r' = status r.
Proof.
  unfold set_data. unfold_bind.
  destruct (encode v); [|discriminate]. now intros [= <-].
Qed.

(** The loop leaves the status as it was. *)
Lemma header_loop_status (E : env) (payload : list N)
    (h_lines : list (list N)) :
  forall resp resp',
    header_loop E payload h_lines resp = Ok resp' -> status resp' = status resp.
Proof.
  induction h_lines as [|hLine rest IH]; intros resp resp' H.
  - now injection H as <-.
  - cbn [header_loop] in H.
    destruct (split COLON (Some 1%nat) hLine) as [|k0 [|v0 [|? ?]]];
      try discriminate.
    destruct (str_eqb (lower k0) (lit "transfer-encoding") && re_chunked E v0).
    + destruct (extract_response_from_chunked_data payload) as [text|].
      * unfold mbind, res_bind, bind in H.
        destruct (set_data resp text) as [r1|] eqn:Hset; [|discriminate].
        apply IH in H. apply set_data_status in Hset.
        cbn [set_header status] in H. congruence.
      * now apply IH in H.
    + now apply IH in H.
Qed.




(** *** A chunked transfer encoding that does not decode *)




(** *** Redirect or serve *)






End ReplayFacts.

(** ** Chunked decoding *)

Module ChunkedFacts.
Import Index Chunked.

(** C9.  The body made of the two octets of U+00E9 in UTF-8, sent as one
    chunk of size 2: the decoder takes the size as a number of characters of
    the decoded text, returns the character and the CR that follows it, and
    the response body set from it has three octets, not the two of the body.
    A body that holds the octet 255 makes the decoder raise. *)
Theorem chunked_round_trip_fails_on_non_ascii :
  chunked_encode [([195; 169]%N, [])] =
    (lit "2" ++ CRLF ++ [195; 169] ++ CRLF ++ lit "0" ++ CRLF ++ CRLF)%N /\
  extract_response_from_chunked_data (chunked_encode [([195; 169]%N, [])]) =
    Ok [233; 13]%N /\
  (text ← extract_response_from_chunked_data
            (chunked_encode [([195; 169]%N, [])]);
   encode text) = Ok [195; 169; 13]%N /\
  extract_response_from_chunked_data (chunked_encode [([255]%N, [])]) =
    Raise UnicodeDecodeError.
Proof. repeat split; vm_compute; reflexivity. Qed.

End ChunkedFacts.

(** ** Searching and replacing in text built from known and unknown parts *)

Module TextFacts.
Import TextDefs.

Lemma lacks_app (c : N) (a b : list N) :
  lacks c (a ++ b) = lacks c a && lacks c b.
Proof. unfold lacks. apply forallb_app. Qed.

Lemma lacks_cons (c x : N) (a : list N) :
  lacks c (x :: a) = negb (x =? c)%N && lacks c a.
Proof. reflexivity. Qed.

(** *** [starts_with] *)

Lemma starts_with_app (p s : list N) : starts_with p (p ++ s) = true.
Proof.
  induction p as [|a p IH]; simpl; [reflexivity|].
  now rewrite N.eqb_refl.
Qed.

Lemma starts_with_inv (p s : list N) :
  starts_with p s = true -> exists t, s = p ++ t.
Proof.
  revert s. induction p as [|a p IH]; intros s H.
  - exists s. reflexivity.
  - destruct s as [|b s]; simpl in H; [discriminate|].
    apply andb_true_iff in H as [Hab H]. apply N.eqb_eq in Hab. subst b.
    destruct (IH s H) as [t ->]. exists t. reflexivity.
Qed.

Lemma starts_with_long (p s : list N) :
  (length s < length p)%nat -> starts_with p s = false.
Proof.
  revert s. induction p as [|a p IH]; intros s H; simpl in *; [lia|].
  destruct s as [|b s]; [reflexivity|]. simpl in H.
  rewrite IH by lia. apply andb_false_r.
Qed.

(** A pattern as long as the text starts it exactly when they are equal. *)
Lemma starts_with_same_length (p s : list N) :
  length p = length s -> starts_with p s = bool_decide (p = s).
Proof.
  revert s. induction p as [|a p IH]; intros [|b s] H; simpl in *;
    try discriminate; try reflexivity.
  rewrite IH by lia.
  destruct (N.eqb_spec a b) as [->|Hab]; simpl.
  - destruct (bool_decide_reflect (p = s)) as [->|Hne].
    + now rewrite bool_decide_eq_true_2.
    + rewrite bool_decide_eq_false_2; [reflexivity|]. congruence.
  - rewrite bool_decide_eq_false_2; [reflexivity|]. congruence.
Qed.

(** A pattern that fits in the first part does not look at the second. *)
Lemma starts_with_app_l (p a b : list N) :
  (length p <= length a)%nat -> starts_with p (a ++ b) = starts_with p a.
Proof.
  revert a. induction p as [|x p IH]; intros a H; [reflexivity|].
  destruct a as [|y a]; simpl in *; [lia|].
  now rewrite IH by lia.
Qed.

(** A character the pattern lacks stops it. *)
Lemma starts_with_sep (c : N) (p x y : list N) :
  lacks c p = true ->
  starts_with p (x ++ c :: y) = starts_with p x.
Proof.
  revert x. induction p as [|a p IH]; intros x Hc; [reflexivity|].
  rewrite lacks_cons in Hc. apply andb_true_iff in Hc as [Ha Hc].
  apply negb_true_iff in Ha.
  destruct x as [|b x]; simpl.
  - now rewrite Ha.
  - now rewrite IH.
Qed.

(** *** [contains] *)

Lemma contains_cons (p : list N) (c : N) (s : list N) :
  contains p (c :: s) = starts_with p (c :: s) || contains p s.
Proof. reflexivity. Qed.

Lemma contains_nil (p : list N) : contains p [] = starts_with p [].
Proof. simpl. now rewrite orb_false_r. Qed.

Lemma contains_short (p s : list N) :
  (length s < length p)%nat -> contains p s = false.
Proof.
  induction s as [|c s IH]; intros H.
  - rewrite contains_nil. now apply starts_with_long.
  - rewrite contains_cons, starts_with_long by exact H.
    simpl in H. apply IH. lia.
Qed.

Lemma contains_intro (p x y : list N) : contains p (x ++ p ++ y) = true.
Proof.
  induction x as [|c x IH].
  - simpl app. destruct (p ++ y) eqn:E.
    + destruct p; [reflexivity|discriminate].
    + rewrite <- E. destruct (p ++ y) eqn:E2; [discriminate|].
      rewrite contains_cons, <- E2, starts_with_app. reflexivity.
  - simpl app. rewrite contains_cons, IH. apply orb_true_r.
Qed.

(** A pattern of the length of the text. *)
Lemma contains_same_length (p s : list N) :
  p <> [] -> length p = length s -> contains p s = bool_decide (p = s).
Proof.
  intros Hp H. destruct s as [|c s].
  - destruct p; [contradiction|discriminate].
  - rewrite contains_cons, contains_short by (simpl in H; lia).
    rewrite orb_false_r. now apply starts_with_same_length.
Qed.

(** Separator: an occurrence cannot go over a character the pattern lacks. *)
Lemma contains_app_sep (c : N) (p x y : list N) :
  lacks c p = true ->
  contains p (x ++ c :: y) = contains p x || contains p y.
Proof.
  intros Hc. induction x as [|a x IH].
  - simpl app. rewrite contains_cons, contains_nil.
    pose proof (starts_with_sep c p [] y Hc) as H0. simpl app in H0.
    now rewrite H0.
  - simpl app. rewrite !contains_cons, IH.
    change (a :: x ++ c :: y) with ((a :: x) ++ c :: y).
    rewrite (starts_with_sep c p (a :: x) y Hc).
    now rewrite orb_assoc.
Qed.

Lemma contains_cons_sep (c : N) (p y : list N) :
  lacks c p = true -> p <> [] ->
  contains p (c :: y) = contains p y.
Proof.
  intros Hc Hp. change (c :: y) with ([] ++ c :: y).
  rewrite contains_app_sep by exact Hc.
  rewrite contains_nil. destruct p; [contradiction|reflexivity].
Qed.

(** A text that lacks a character of the pattern does not hold the pattern. *)
Lemma starts_with_lacks (c : N) (p s : list N) :
  starts_with p s = true -> lacks c s = true -> lacks c p = true.
Proof.
  intros H Hs. apply starts_with_inv in H as [t ->].
  rewrite lacks_app in Hs. now apply andb_true_iff in Hs as [Hs _].
Qed.

Lemma contains_lacks (c : N) (p s : list N) :
  lacks c s = true -> lacks c p = false -> contains p s = false.
Proof.
  intros Hs Hp. induction s as [|a s IH].
  - rewrite contains_nil. destruct (starts_with p []) eqn:E; [|reflexivity].
    rewrite (starts_with_lacks c p [] E Hs) in Hp. discriminate.
  - rewrite contains_cons.
    destruct (starts_with p (a :: s)) eqn:E.
    + rewrite (starts_with_lacks c p _ E Hs) in Hp. discriminate.
    + rewrite lacks_cons in Hs. apply andb_true_iff in Hs as [_ Hs]. auto.
Qed.

(** *** Anchor: the pattern [u ++ c :: v] where [u] lacks [c], in a text
    [a ++ c :: b] where [a] lacks [c] *)

Lemma starts_with_anchor (c : N) (u v a b : list N) :
  lacks c u = true -> lacks c a = true ->
  starts_with (u ++ c :: v) (a ++ c :: b) =
  bool_decide (u = a) && starts_with v b.
Proof.
  revert a. induction u as [|x u IH]; intros a Hu Ha.
  - destruct a as [|y a]; simpl.
    + now rewrite N.eqb_refl.
    + rewrite lacks_cons in Ha. apply andb_true_iff in Ha as [Hy _].
      apply negb_true_iff in Hy. rewrite N.eqb_sym, Hy. reflexivity.
  - rewrite lacks_cons in Hu. apply andb_true_iff in Hu as [Hx Hu].
    apply negb_true_iff in Hx.
    destruct a as [|y a]; simpl.
    + now rewrite Hx.
    + rewrite lacks_cons in Ha. apply andb_true_iff in Ha as [_ Ha].
      rewrite (IH a Hu Ha).
      destruct (N.eqb_spec x y) as [->|Hxy]; simpl.
      * destruct (bool_decide_reflect (u = a)) as [->|Hne].
        -- now rewrite bool_decide_eq_true_2.
        -- rewrite bool_decide_eq_false_2; [reflexivity|]. congruence.
      * rewrite bool_decide_eq_false_2; [reflexivity|]. congruence.
Qed.

Lemma contains_anchor (c : N) (u v a b : list N) :
  lacks c u = true -> lacks c a = true ->
  contains (u ++ c :: v) (a ++ c :: b) =
  (is_suffix u a && starts_with v b) || contains (u ++ c :: v) b.
Proof.
  intros Hu. induction a as [|y a IH]; intros Ha.
  - simpl app. rewrite contains_cons.
    pose proof (starts_with_anchor c u v [] b Hu Ha) as H0.
    simpl app in H0. rewrite H0. simpl is_suffix. unfold str_eqb.
    now rewrite orb_false_r.
  - simpl app. rewrite contains_cons.
    pose proof (starts_with_anchor c u v (y :: a) b Hu Ha) as H0.
    simpl app in H0. rewrite H0.
    rewrite lacks_cons in Ha. apply andb_true_iff in Ha as [_ Ha].
    rewrite (IH Ha). simpl is_suffix. unfold str_eqb.
    destruct (bool_decide (u = y :: a)), (is_suffix u a), (starts_with v b);
      reflexivity.
Qed.

(** *** [is_suffix] *)

Lemma is_suffix_refl (u : list N) : is_suffix u u = true.
Proof.
  destruct u; cbn [is_suffix]; unfold str_eqb;
    now rewrite bool_decide_eq_true_2.
Qed.

Lemma is_suffix_cons (u : list N) (x : N) (s : list N) :
  is_suffix u s = true -> is_suffix u (x :: s) = true.
Proof. intros H. simpl. rewrite H. apply orb_true_r. Qed.

Lemma is_suffix_app (u x : list N) : is_suffix u (x ++ u) = true.
Proof.
  induction x as [|a x IH]; [apply is_suffix_refl|].
  simpl app. now apply is_suffix_cons.
Qed.

Lemma is_suffix_length (u s : list N) :
  is_suffix u s = true -> (length u <= length s)%nat.
Proof.
  induction s as [|a s IH]; cbn [is_suffix]; unfold str_eqb.
  - rewrite orb_false_r. intros H. apply bool_decide_eq_true in H. now subst.
  - intros H. apply orb_true_iff in H as [H|H].
    + apply bool_decide_eq_true in H. subst. simpl. lia.
    + specialize (IH H). simpl. lia.
Qed.

(** With a known end at least as long as [u], only the end counts. *)
Lemma is_suffix_app_lit (u x l : list N) :
  (length u <= length l)%nat -> is_suffix u (x ++ l) = is_suffix u l.
Proof.
  intros H. induction x as [|a x IH]; [reflexivity|].
  simpl app. simpl is_suffix. rewrite IH. unfold str_eqb.
  rewrite bool_decide_eq_false_2; [reflexivity|].
  intros ->. simpl in H. rewrite length_app in H. lia.
Qed.

Lemma starts_with_refl (u : list N) : starts_with u u = true.
Proof.
  pose proof (starts_with_app u []) as H. now rewrite app_nil_r in H.
Qed.

Lemma is_suffix_contains (u s : list N) :
  is_suffix u s = true -> contains u s = true.
Proof.
  induction s as [|a s IH]; cbn [is_suffix]; unfold str_eqb.
  - rewrite orb_false_r. intros H. apply bool_decide_eq_true in H. now subst.
  - intros H. rewrite contains_cons. apply orb_true_iff in H as [H|H].
    + apply bool_decide_eq_true in H. subst u.
      now rewrite starts_with_refl.
    + rewrite (IH H). apply orb_true_r.
Qed.

Lemma is_suffix_take (u s : list N) :
  is_suffix u s = true -> s = take (length s - length u) s ++ u.
Proof.
  induction s as [|a s IH]; cbn [is_suffix]; unfold str_eqb.
  - rewrite orb_false_r. intros H. apply bool_decide_eq_true in H. now subst.
  - intros H. apply orb_true_iff in H as [H|H].
    + apply bool_decide_eq_true in H. subst u.
      now rewrite Nat.sub_diag.
    + pose proof (is_suffix_length u s H) as Hl.
      change (length (a :: s)) with (S (length s)).
      replace (S (length s) - length u)%nat with (S (length s - length u))
        by lia.
      cbn [take]. rewrite <- app_comm_cons. f_equal. now apply IH.
Qed.

(** *** [replace] *)

Lemma replace_go_skip (old new : list N) (k : nat) (s : list N) :
  replace_go old new k s = replace_go old new 0 (drop k s).
Proof.
  revert k. induction s as [|c s IH]; intros k.
  - now rewrite drop_nil.
  - destruct k as [|k]; [reflexivity|]. cbn [replace_go drop]. apply IH.
Qed.

Lemma replace_nil (old new : list N) : old <> [] -> replace old new [] = [].
Proof. destruct old; [contradiction|reflexivity]. Qed.

Lemma replace_match (old new s : list N) :
  old <> [] -> starts_with old s = true ->
  replace old new s = new ++ replace old new (drop (length old) s).
Proof.
  intros Ho H. destruct old as [|a old]; [contradiction|].
  destruct s as [|c s]; [discriminate|].
  unfold replace. cbn [replace_go]. rewrite H.
  rewrite replace_go_skip.
  replace (length (a :: old) - 1)%nat with (length old) by (simpl; lia).
  reflexivity.
Qed.

Lemma replace_nomatch (old new : list N) (c : N) (s : list N) :
  old <> [] -> starts_with old (c :: s) = false ->
  replace old new (c :: s) = c :: replace old new s.
Proof.
  intros Ho H. destruct old as [|a old]; [contradiction|].
  unfold replace. cbn [replace_go]. now rewrite H.
Qed.

(** Nothing to replace. *)
Lemma replace_absent (old new s : list N) :
  contains old s = false -> replace old new s = s.
Proof.
  intros H. assert (Ho : old <> []) by (intros ->; destruct s; discriminate).
  induction s as [|c s IH]; [now apply replace_nil|].
  rewrite contains_cons in H. apply orb_false_iff in H as [H1 H2].
  rewrite replace_nomatch by assumption. f_equal. auto.
Qed.

(** Separator: the replacement works on both sides of a character the pattern
    lacks. *)
Lemma replace_sep (c : N) (old new y : list N) :
  lacks c old = true -> old <> [] ->
  forall x,
    replace old new (x ++ c :: y) =
    replace old new x ++ c :: replace old new y.
Proof.
  intros Hc Ho x.
  remember (length x) as n eqn:Hn. revert x Hn.
  induction n as [n IH] using lt_wf_ind. intros x Hn.
  destruct (starts_with old x) eqn:Hsw.
  - pose proof Hsw as Hx. apply starts_with_inv in Hx as [t ->].
    rewrite (replace_match old new (old ++ t)) by assumption.
    rewrite (replace_match old new ((old ++ t) ++ c :: y)).
    2: assumption.
    2: now rewrite starts_with_sep.
    rewrite <- app_assoc, !drop_app_length, <- app_assoc. f_equal.
    apply (IH (length t)); [|reflexivity].
    subst n. rewrite length_app. destruct old; [contradiction|simpl; lia].
  - destruct x as [|a x].
    + simpl app. rewrite replace_nil by assumption.
      apply replace_nomatch; [assumption|].
      pose proof (starts_with_sep c old [] y Hc) as H0. simpl app in H0.
      now rewrite H0.
    + simpl app. rewrite (replace_nomatch old new a x) by assumption.
      rewrite replace_nomatch; [|assumption|].
      * simpl app. f_equal. apply (IH (length x)); [|reflexivity].
        subst n. simpl. lia.
      * change (a :: x ++ c :: y) with ((a :: x) ++ c :: y).
        now rewrite starts_with_sep.
Qed.

(** Anchor: in a text [a ++ c :: b] whose [a] lacks [c], the first place
    where [u ++ c :: v] can be is at the end of [a]. *)
Lemma replace_anchor (c : N) (u v new b : list N) :
  lacks c u = true ->
  forall a,
    lacks c a = true ->
    replace (u ++ c :: v) new (a ++ c :: b) =
    if is_suffix u a && starts_with v b
    then take (length a - length u) a ++ new ++
         replace (u ++ c :: v) new (drop (length v) b)
    else a ++ c :: replace (u ++ c :: v) new b.
Proof.
  intros Hu.
  assert (Ho : u ++ c :: v <> []) by (destruct u; discriminate).
  induction a as [|y a IH]; intros Ha.
  - pose proof (starts_with_anchor c u v [] b Hu Ha) as Hsw.
    simpl app in *. cbn [is_suffix]. unfold str_eqb. rewrite orb_false_r.
    destruct (decide (u = [])) as [->|Hne];
      [rewrite bool_decide_eq_true_2 in Hsw |- * by reflexivity
      |rewrite bool_decide_eq_false_2 in Hsw |- * by assumption];
      simpl andb in *.
    + destruct (starts_with v b) eqn:Hv.
      * rewrite replace_match by assumption. simpl. reflexivity.
      * rewrite replace_nomatch; [reflexivity|assumption|assumption].
    + rewrite replace_nomatch; [reflexivity|assumption|assumption].
  - pose proof (starts_with_anchor c u v (y :: a) b Hu Ha) as Hsw.
    set (a' := y :: a) in Hsw.
    rewrite lacks_cons in Ha. apply andb_true_iff in Ha as [_ Ha].
    specialize (IH Ha). simpl app in *. cbn [is_suffix]. unfold str_eqb.
    destruct (decide (u = y :: a)) as [->|Hne];
      [rewrite bool_decide_eq_true_2 in Hsw |- * by reflexivity
      |rewrite bool_decide_eq_false_2 in Hsw |- * by assumption];
      simpl andb in *.
    + destruct (starts_with v b) eqn:Hv.
      * rewrite replace_match by assumption.
        rewrite Nat.sub_diag. cbn [take app]. f_equal. f_equal.
        change (y :: a ++ c :: v) with ((y :: a) ++ c :: v).
        change (y :: a ++ c :: b) with ((y :: a) ++ c :: b).
        rewrite length_app, drop_app, drop_ge by (simpl; lia).
        cbn [length].
        replace (S (length a) + S (length v) - S (length a))%nat
          with (S (length v)) by lia.
        reflexivity.
      * rewrite replace_nomatch by assumption.
        rewrite IH. rewrite andb_false_r. reflexivity.
    + rewrite replace_nomatch by assumption. rewrite IH.
      destruct (is_suffix u a && starts_with v b) eqn:Hs; [|reflexivity].
      apply andb_true_iff in Hs as [Hs _].
      pose proof (is_suffix_length u a Hs) as Hl.
      change (length (y :: a)) with (S (length a)).
      replace (S (length a) - length u)%nat with (S (length a - length u))
        by lia.
      reflexivity.
Qed.

(** *** [find] *)

Lemma find_nomatch (p : list N) (c : N) (s : list N) :
  starts_with p (c :: s) = false -> find p (c :: s) = S <$> find p s.
Proof. intros H. cbn [find]. now rewrite H. Qed.

Lemma find_match (p s : list N) :
  starts_with p s = true -> find p s = Some 0%nat.
Proof. intros H. destruct s; cbn [find]; now rewrite H. Qed.

Lemma find_sep (c : N) (p x y : list N) :
  lacks c p = true -> contains p x = false ->
  find p (x ++ c :: y) = (fun i => length x + 1 + i)%nat <$> find p y.
Proof.
  intros Hc. induction x as [|a x IH]; intros Hx.
  - simpl app. rewrite contains_nil in Hx.
    rewrite find_nomatch.
    + now destruct (find p y).
    + pose proof (starts_with_sep c p [] y Hc) as H0. simpl app in H0.
      now rewrite H0.
  - rewrite contains_cons in Hx. apply orb_false_iff in Hx as [H1 H2].
    simpl app. rewrite find_nomatch.
    + rewrite (IH H2). now destruct (find p y).
    + change (a :: x ++ c :: y) with ((a :: x) ++ c :: y).
      now rewrite starts_with_sep.
Qed.

(** *** [split] and [join] *)

Lemma split_lacks (sep : N) (x : list N) :
  lacks sep x = true -> split sep None x = [x].
Proof.
  induction x as [|a x IH]; intros H; [reflexivity|].
  rewrite lacks_cons in H. apply andb_true_iff in H as [Ha H].
  apply negb_true_iff in Ha. cbn [split]. rewrite Ha. simpl.
  now rewrite (IH H).
Qed.

Lemma split_sep (sep : N) (x y : list N) :
  lacks sep x = true ->
  split sep None (x ++ sep :: y) = x :: split sep None y.
Proof.
  induction x as [|a x IH]; intros H.
  - simpl app. cbn [split]. now rewrite N.eqb_refl.
  - rewrite lacks_cons in H. apply andb_true_iff in H as [Ha H].
    apply negb_true_iff in Ha. simpl app. cbn [split]. rewrite Ha. simpl.
    now rewrite (IH H).
Qed.

Lemma join_cons (sep x y : list N) (l : list (list N)) :
  join sep (x :: y :: l) = x ++ sep ++ join sep (y :: l).
Proof. reflexivity. Qed.

Lemma split_join (sep : N) (l : list (list N)) :
  l <> [] -> forallb (lacks sep) l = true ->
  split sep None (join [sep] l) = l.
Proof.
  induction l as [|x l IH]; intros Hl H; [contradiction|].
  cbn [forallb] in H. apply andb_true_iff in H as [Hx H].
  destruct l as [|y l].
  - simpl. now apply split_lacks.
  - rewrite join_cons. set (J := join [sep] (y :: l)) in *.
    change (x ++ [sep] ++ J) with (x ++ sep :: J).
    rewrite split_sep by assumption.
    f_equal. apply IH; [discriminate|assumption].
Qed.

Lemma contains_join (sep : N) (p : list N) (l : list (list N)) :
  lacks sep p = true -> p <> [] ->
  contains p (join [sep] l) = existsb (contains p) l.
Proof.
  intros Hs Hp. induction l as [|x l IH].
  - simpl. destruct p; [contradiction|reflexivity].
  - destruct l as [|y l].
    + simpl. now rewrite orb_false_r.
    + rewrite join_cons. set (J := join [sep] (y :: l)) in *.
      change (x ++ [sep] ++ J) with (x ++ sep :: J).
      rewrite contains_app_sep by assumption.
      rewrite IH. reflexivity.
Qed.

Lemma replace_join (sep : N) (p new : list N) (l : list (list N)) :
  lacks sep p = true -> p <> [] ->
  replace p new (join [sep] l) = join [sep] (map (replace p new) l).
Proof.
  intros Hs Hp. induction l as [|x l IH].
  - simpl. now apply replace_nil.
  - destruct l as [|y l]; [reflexivity|].
    rewrite join_cons. set (J := join [sep] (y :: l)) in *.
    change (x ++ [sep] ++ J) with (x ++ sep :: J).
    rewrite replace_sep by assumption.
    rewrite IH. reflexivity.
Qed.

Lemma is_suffix_nil (a : list N) : is_suffix [] a = true.
Proof.
  induction a as [|x a IH]; [reflexivity|]. now apply is_suffix_cons.
Qed.

(** Newlines to spaces. *)
Lemma replace_char_sep (c d : N) (x y : list N) :
  lacks c x = true ->
  replace [c] [d] (x ++ c :: y) = x ++ d :: replace [c] [d] y.
Proof.
  intros Hx.
  pose proof (replace_anchor c [] [] [d] y eq_refl x Hx) as H.
  simpl app in H. rewrite H, is_suffix_nil. simpl.
  now rewrite Nat.sub_0_r, firstn_all.
Qed.

Lemma replace_char_lacks (c d : N) (x : list N) :
  lacks c x = true -> replace [c] [d] x = x.
Proof.
  intros Hx. apply replace_absent. apply (contains_lacks c); [assumption|].
  unfold lacks. simpl. now rewrite N.eqb_refl.
Qed.

Lemma replace_char_join (c d : N) (l : list (list N)) :
  forallb (lacks c) l = true ->
  replace [c] [d] (join [c] l) = join [d] l.
Proof.
  induction l as [|x l IH]; intros H; [reflexivity|].
  cbn [forallb] in H. apply andb_true_iff in H as [Hx H].
  destruct l as [|y l].
  - simpl. now apply replace_char_lacks.
  - rewrite !join_cons. set (J := join [c] (y :: l)) in *.
    change (x ++ [c] ++ J) with (x ++ c :: J).
    rewrite replace_char_sep by assumption.
    now rewrite IH.
Qed.

(** *** Characters kept out by [replace] *)

Lemma lacks_replace (c : N) (old new s : list N) :
  old <> [] -> lacks c new = true -> lacks c s = true ->
  lacks c (replace old new s) = true.
Proof.
  intros Ho Hn.
  remember (length s) as n eqn:Hlen. revert s Hlen.
  induction n as [n IH] using lt_wf_ind. intros s Hlen Hs.
  destruct s as [|a s]; [now rewrite replace_nil|].
  destruct (starts_with old (a :: s)) eqn:Hsw.
  - rewrite replace_match by assumption. rewrite lacks_app, Hn. simpl.
    apply (IH (length (drop (length old) (a :: s)))); [|reflexivity|].
    + subst n. rewrite length_drop. destruct old; [contradiction|simpl; lia].
    + apply starts_with_inv in Hsw as [t Ht]. rewrite Ht in Hs |- *.
      rewrite drop_app_length. rewrite lacks_app in Hs.
      now apply andb_true_iff in Hs as [_ Hs].
  - rewrite replace_nomatch by assumption.
    rewrite lacks_cons in Hs |- *. apply andb_true_iff in Hs as [Ha Hs].
    rewrite Ha. simpl. apply (IH (length s)); [subst n; simpl; lia|reflexivity|assumption].
Qed.

(** *** Digits *)

Lemma digits_lack (c : N) (p : list N) :
  forallb is_digit p = true -> is_digit c = false -> lacks c p = true.
Proof.
  intros Hp Hc. unfold lacks. rewrite forallb_forall in Hp |- *.
  intros x Hx. specialize (Hp x Hx).
  destruct (N.eqb_spec x c) as [->|]; [congruence|reflexivity].
Qed.

(** *** [strip] of a text between two characters that are not white space,
    followed by a space *)
Lemma lstrip_keeps (c : N) (x : list N) :
  is_space c = false -> lstrip (c :: x) = c :: x.
Proof. intros H. cbn [lstrip]. now rewrite H. Qed.

Lemma strip_trailing_space (c d : N) (x : list N) :
  is_space c = false -> is_space d = false ->
  strip ((c :: x ++ [d]) ++ [32%N]) = c :: x ++ [d].
Proof.
  intros Hc Hd. unfold strip, rstrip.
  change ((c :: x ++ [d]) ++ [32%N]) with (c :: (x ++ [d]) ++ [32%N]).
  rewrite (lstrip_keeps c) by assumption.
  change (c :: (x ++ [d]) ++ [32%N]) with (((c :: x) ++ [d]) ++ [32%N]).
  rewrite !rev_app_distr.
  change (rev [32%N] ++ rev [d] ++ rev (c :: x))
    with (32%N :: d :: rev (c :: x)).
  change (lstrip (32%N :: d :: rev (c :: x)))
    with (lstrip (d :: rev (c :: x))).
  rewrite (lstrip_keeps d) by assumption.
  change (d :: rev (c :: x)) with ([d] ++ rev (c :: x)).
  rewrite rev_app_distr, rev_involutive. reflexivity.
Qed.

End TextFacts.

(** ** The abbreviated TimeMap of the [Link] header *)

Module TimeMapFacts.
Import Index Env TimeMap SampleArchive TextDefs TextFacts.

(** The relations the abbreviation gives to seven captures with the pivot at
    the fourth: the first, the one before the pivot, the pivot, the one after
    it and the last are kept. *)
Lemma abbreviated_rel_seven :
  map (abbreviated_rel 7 3) (seq 0 7) =
  [Some (lit "first "); None; Some (lit "prev "); Some [];
   Some (lit "next "); None; Some (lit "last ")].
Proof. reflexivity. Qed.

(** Seven captures of [example.com/], pivot [20190101000004]: the header
    holds the links of the captures 1, 3, 4, 5 and 7, on one line. *)
Lemma abbreviated_seven_captures :
  get_link_header_abbreviated_timemap (captures_archive 7)
    (lit "example.com/") (lit "20190101000004") = Ok (sample_expected 7 3) /\
  contains [NEWLINE] (sample_expected 7 3) = false /\
  map (fun i => contains (lit "memento/2019010100000" ++ [N.of_nat (48 + i)])
                  (sample_expected 7 3)) (seq 1 7) =
  [true; false; true; true; true; false; true].
Proof. repeat split; vm_compute; reflexivity. Qed.

(** One capture: its [first last memento] link follows the four links of the
    TimeMap, on one line, with neither [prev] nor [next]. *)
Lemma abbreviated_one_capture :
  get_link_header_abbreviated_timemap (captures_archive 1)
    (lit "example.com/") (lit "20190101000001") = Ok (sample_expected 1 0) /\
  contains [NEWLINE] (sample_expected 1 0) = false /\
  contains (litq "rel='first last memento'") (sample_expected 1 0) = true /\
  contains (lit "prev") (sample_expected 1 0) = false /\
  contains (lit "next") (sample_expected 1 0) = false.
Proof. repeat split; vm_compute; reflexivity. Qed.

(** C5.  Seven captures of [example.com/page?rel=next], a page asked with a
    query string, and the pivot [20190101000004], the timestamp of the fourth
    capture alone: the abbreviated TimeMap keeps the seven links.  The test
    for a relation reads the whole line, finds [rel=] and [next] in the URI
    of each link, and drops none: the second and the sixth capture, which are
    neither first, last, pivot, [prev] nor [next], stay in the header. *)
Theorem abbreviated_timemap_keeps_unrelated_on_rel_query :
  (lines ← get_cdxj_lines_with_urir (surt (query_archive 7))
             (content (query_archive 7)) (lit "example.com/page?rel=next");
   captures_of (query_archive 7) lines) = Ok (query_captures 7) /\
  pivot_positions (lit "20190101000004") 0 (query_captures 7) = [3%nat] /\
  get_link_header_abbreviated_timemap (query_archive 7)
    (lit "example.com/page?rel=next") (lit "20190101000004") =
    Ok (join [SPACE] (query_headers ++ query_links)) /\
  length query_links = 7%nat /\
  map (abbreviated_rel 7 3) (seq 0 7) =
    [Some (lit "first "); None; Some (lit "prev "); Some [];
     Some (lit "next "); None; Some (lit "last ")] /\
  has_relation
    (memento_link (lit "http://localhost:5000/") (lit "20190101000002")
       (lit "example.com/page?rel=next") []
       (lit "Tue, 01 Jan 2019 00:00:00 GMT") ++ lit ",") = true /\
  has_relation
    (memento_link (lit "http://localhost:5000/") (lit "20190101000002")
       (lit "example.com/") []
       (lit "Tue, 01 Jan 2019 00:00:00 GMT") ++ lit ",") = false.
Proof. repeat split; vm_compute; reflexivity. Qed.

End TimeMapFacts.

(** ** The abbreviation on TimeMaps of plain texts

    When no URI holds [rel=] or the digits of the pivot, the abbreviated
    TimeMap is the four links of the TimeMap and, of the captures, the
    first, the last, the pivot and its two neighbours. *)

Module Abbreviation.
Import Index Env TimeMap TextDefs TextFacts.

(** *** Texts *)

(** Two texts built from the same pieces are equal: literals are unfolded
    to their characters and the appends associated to the right. *)
Ltac assoc_eq :=
  repeat first [rewrite <- !app_assoc | rewrite !app_nil_r
               | progress cbn [app]];
  reflexivity.
Ltac text_eq := cbv -[app]; assoc_eq.

Lemma plain_lacks (x : list N) :
  plain x = true -> lacks DQ x = true /\ lacks NEWLINE x = true.
Proof.
  unfold plain, lacks. rewrite !forallb_forall. intros H.
  split; intros c Hc; specialize (H c Hc);
    apply andb_true_iff in H as [H1 H2]; assumption.
Qed.

Lemma digits_plain (x : list N) : forallb is_digit x = true -> plain x = true.
Proof.
  unfold plain. rewrite !forallb_forall. intros H c Hc.
  specialize (H c Hc). unfold is_digit in H.
  apply andb_true_iff in H as [H1 H2].
  apply N.leb_le in H1. apply N.leb_le in H2. unfold DQ, NEWLINE.
  apply andb_true_iff. split; apply negb_true_iff, N.eqb_neq; lia.
Qed.

Lemma contains_tail (p : list N) (c : N) (s : list N) :
  contains p (c :: s) = false -> contains p s = false.
Proof.
  rewrite contains_cons. intros H. now apply orb_false_iff in H as [_ H].
Qed.

Lemma contains_drop (p : list N) (k : nat) (s : list N) :
  contains p s = false -> contains p (drop k s) = false.
Proof.
  revert s. induction k as [|k IH]; intros s H; [assumption|].
  destruct s as [|c s]; [assumption|].
  simpl drop. apply IH. now apply (contains_tail p c).
Qed.

Lemma contains_app_r (p x y : list N) :
  contains p y = true -> contains p (x ++ y) = true.
Proof.
  intros H. induction x as [|c x IH]; [assumption|].
  simpl app. rewrite contains_cons, IH. apply orb_true_r.
Qed.

(** A text made of characters that are not digits holds no text of
    digits. *)
Lemma contains_nondigits (p s : list N) :
  forallb is_digit p = true -> p <> [] ->
  forallb (fun c => negb (is_digit c)) s = true ->
  contains p s = false.
Proof.
  intros Hp Hn. induction s as [|c s IH]; intros Hs.
  - destruct p; [contradiction|reflexivity].
  - cbn [forallb] in Hs. apply andb_true_iff in Hs as [Hc Hs].
    apply negb_true_iff in Hc.
    rewrite contains_cons_sep; [now apply IH| |assumption].
    now apply digits_lack.
Qed.

Lemma existsb_ext_in {A} (f g : A -> bool) (l : list A) :
  (forall x, In x l -> f x = g x) -> existsb f l = existsb g l.
Proof.
  induction l as [|x l IH]; intros H; [reflexivity|].
  cbn [existsb]. rewrite (H x) by (left; reflexivity).
  f_equal. apply IH. intros y Hy. apply H. now right.
Qed.

(** *** The relation tests *)

Lemma rel_then_absent (words : list (list N)) (s : list N) :
  forallb (fun w => negb (contains w s)) words = true ->
  rel_then words s = false.
Proof.
  intros H. unfold rel_then. destruct (find (lit "rel=") s) as [i|]; [|reflexivity].
  induction words as [|w words IH]; [reflexivity|].
  cbn [forallb] in H. apply andb_true_iff in H as [Hw H].
  apply negb_true_iff in Hw. cbn [existsb].
  rewrite (contains_drop w _ s Hw). simpl. now apply IH.
Qed.

Lemma re_rel_then_line (words : list (list N)) (line : list N) :
  lacks NEWLINE line = true ->
  re_rel_then words line = rel_then words line.
Proof.
  intros H. unfold re_rel_then. rewrite split_lacks by assumption.
  simpl. apply orb_false_r.
Qed.

(** *** The full TimeMap, line by line *)

Section FullTimeMap.

Variable E : env.

Lemma captures_of_cons (line : list N) (rest : list (list N))
    (captures : list (list N * list N * list N)) :
  captures_of E (line :: rest) = Ok captures ->
  exists c cs, capture_of E line = Ok c /\ captures_of E rest = Ok cs /\
               captures = c :: cs.
Proof.
  cbn [captures_of]. unfold mbind, res_bind, bind.
  destruct (capture_of E line) as [c|]; [|discriminate].
  destruct (captures_of E rest) as [cs|]; [|discriminate].
  intros [= <-]. now exists c, cs.
Qed.

Lemma captures_of_length (lines : list (list N)) :
  forall captures,
    captures_of E lines = Ok captures -> length captures = length lines.
Proof.
  induction lines as [|line rest IH]; intros captures H.
  - injection H as <-. reflexivity.
  - apply captures_of_cons in H as (c & cs & _ & Hcs & ->).
    simpl. f_equal. now apply IH.
Qed.

Lemma memento_entry_link (hp : list N) (n i : nat) (line : list N)
    (datetime uri rfc : list N) :
  capture_of E line = Ok (datetime, uri, rfc) ->
  memento_entry E hp n i line =
  Ok (lit "," ++ NEWLINE ::
      memento_link hp datetime uri (first_last_str n i) rfc).
Proof.
  intros H. unfold memento_entry, mbind, res_bind, bind. rewrite H.
  reflexivity.
Qed.

Lemma timemap_loop_lines (hp : list N) (n : nat) (lines : list (list N)) :
  forall captures i A pre,
    captures_of E lines = Ok captures ->
    (i + length lines = n)%nat ->
    exists T,
      timemap_loop E hp n i lines (A ++ pre) = Ok T /\
      T ++ [NEWLINE] =
      A ++ join [NEWLINE]
             ((pre ++ if captures is [] then [] else lit ",") ::
              full_links hp n i captures ++ [[]]).
Proof.
  induction lines as [|line rest IH]; intros captures i A pre Hc Hn.
  - injection Hc as <-. exists (A ++ pre). split; [reflexivity|].
    simpl. now rewrite !app_nil_r, <- app_assoc.
  - pose proof (captures_of_cons _ _ _ Hc) as (c & cs & Hl & Hcs & ->).
    destruct c as [[datetime uri] rfc].
    cbn [timemap_loop]. rewrite (memento_entry_link hp n i line _ _ _ Hl).
    unfold mbind, res_bind, bind.
    set (m := memento_link hp datetime uri (first_last_str n i) rfc).
    assert ((A ++ pre) ++ lit "," ++ NEWLINE :: m =
            (A ++ pre ++ lit "," ++ [NEWLINE]) ++ m) as ->
      by (clearbody m; clear; text_eq).
    simpl length in Hn.
    destruct (IH cs (S i) (A ++ pre ++ lit "," ++ [NEWLINE]) m Hcs
                ltac:(lia)) as (T & HT & Heq).
    exists T. split; [assumption|]. rewrite Heq.
    cbn [full_links]. fold m.
    assert (comma n i = if cs is [] then [] else lit ",") as ->.
    { pose proof (captures_of_length _ _ Hcs) as Hlen. unfold comma.
      destruct cs as [|c' cs'].
      - simpl in Hlen. replace n with (S i) by lia.
        now rewrite Nat.ltb_irrefl.
      - simpl in Hlen.
        assert ((S i <? n)%nat = true) as -> by (apply Nat.ltb_lt; lia).
        reflexivity. }
    set (J := join [NEWLINE]
                ((m ++ (if cs is [] then [] else lit ",")) ::
                 full_links hp n (S i) cs ++ [[]])).
    change (join [NEWLINE]
              ((pre ++ lit ",") ::
               ((m ++ (if cs is [] then [] else lit ",")) ::
                full_links hp n (S i) cs) ++ [[]]))
      with ((pre ++ lit ",") ++ [NEWLINE] ++ J).
    generalize J. clearbody m. clear. intros J. assoc_eq.
Qed.

Lemma generate_link_timemap_lines (lines : list (list N))
    (captures : list (list N * list N * list N))
    (original tm_self tg_uri : list N) :
  captures_of E lines = Ok captures ->
  generate_link_timemap_from_cdxj_lines E lines original tm_self tg_uri =
  Ok (join [NEWLINE]
        (timemap_lines (lit "http://" ++ unsurt E original)
           (proxied E tm_self) (proxied E tg_uri)
           (host_and_port_of E tm_self) captures)).
Proof.
  intros Hc. unfold generate_link_timemap_from_cdxj_lines.
  set (hp := host_and_port_of E tm_self).
  set (ts := proxied E tm_self). set (tg := proxied E tg_uri).
  set (orig := lit "http://" ++ unsurt E original).
  set (h0 := header_link orig (litq "original',")).
  set (h1 := header_link ts
               (litq "self timemap'; type='application/link-format',")).
  set (h2 := header_link
               (replace (lit "/timemap/link/") (lit "/timemap/cdxj/") ts)
               (litq "timemap'; type='application/cdxj+ors',")).
  set (pre := header_link tg (litq "timegate'")).
  set (cd := replace (lit "/timemap/link/") (lit "/timemap/cdxj/") ts) in *.
  match goal with
  | |- context [timemap_loop E hp _ 0 lines ?d] =>
      assert (d = (h0 ++ NEWLINE :: h1 ++ NEWLINE :: h2 ++ [NEWLINE]) ++ pre)
        as -> by (clearbody orig ts tg cd; clear; text_eq)
  end.
  destruct (timemap_loop_lines hp (length lines) lines captures 0%nat
              (h0 ++ NEWLINE :: h1 ++ NEWLINE :: h2 ++ [NEWLINE]) pre Hc
              eq_refl) as (T & HT & Heq).
  rewrite HT. unfold mbind, res_bind, bind. f_equal. rewrite Heq.
  rewrite <- (captures_of_length _ _ Hc).
  unfold timemap_lines. fold cd. fold h0 h1 h2.
  assert (header_link tg (litq "timegate'" ++
                          if captures is [] then [] else lit ",") =
          pre ++ if captures is [] then [] else lit ",") as ->
    by (clearbody tg; clear; destruct captures; text_eq).
  set (rest := (pre ++ (if captures is [] then [] else lit ",")) ::
               full_links hp (length captures) 0 captures ++ [[]]).
  change ([h0; h1; h2; pre ++ (if captures is [] then [] else lit ",")] ++
          full_links hp (length captures) 0 captures ++ [[]])
    with (h0 :: h1 :: h2 :: rest).
  change (join [NEWLINE] (h0 :: h1 :: h2 :: rest))
    with (h0 ++ [NEWLINE] ++ h1 ++ [NEWLINE] ++ h2 ++ [NEWLINE] ++
          join [NEWLINE] rest).
  generalize (join [NEWLINE] rest). clearbody h0 h1 h2. clear.
  intros J. assoc_eq.
Qed.

End FullTimeMap.

(** *** Patterns with a double quote on the lines of a TimeMap *)

Lemma lacks_quote_end (w : list N) : lacks DQ (w ++ [DQ]) = false.
Proof. rewrite lacks_app. apply andb_false_r. Qed.

Lemma starts_with_quoted (w s : list N) :
  lacks DQ s = true -> starts_with (w ++ [DQ]) s = false.
Proof.
  intros Hs. destruct (starts_with (w ++ [DQ]) s) eqn:H; [|reflexivity].
  pose proof (starts_with_lacks DQ _ _ H Hs) as Hl.
  now rewrite lacks_quote_end in Hl.
Qed.

Lemma contains_quoted (p w s : list N) :
  lacks DQ s = true -> contains (p ++ DQ :: w) s = false.
Proof.
  intros Hs. apply (contains_lacks DQ); [assumption|].
  rewrite lacks_app, lacks_cons. simpl. apply andb_false_r.
Qed.

Lemma link_target_end (hp datetime uri : list N) :
  link_target hp datetime uri =
  (lit "<" ++ hp ++ lit "memento/" ++ datetime ++ lit "/" ++ uri ++
   lit ">; ") ++ lit "rel=".
Proof. text_eq. Qed.

Lemma memento_link_shape (hp datetime uri rel rfc cm : list N) :
  memento_link hp datetime uri rel rfc ++ cm =
  link_target hp datetime uri ++ DQ :: (rel ++ lit "memento") ++
  DQ :: lit "; datetime=" ++ DQ :: rfc ++ DQ :: cm.
Proof. text_eq. Qed.

Lemma header_link_shape (uri rest : list N) :
  header_link uri rest =
  ((lit "<" ++ uri ++ lit ">; ") ++ lit "rel=") ++ DQ :: rest.
Proof. text_eq. Qed.

Lemma lacks_link_target (c : N) (hp datetime uri : list N) :
  lacks c hp = true -> lacks c datetime = true -> lacks c uri = true ->
  lacks c (lit "<memento//>; rel=") = true ->
  lacks c (link_target hp datetime uri) = true.
Proof.
  intros H1 H2 H3 H4. unfold link_target.
  rewrite !lacks_app, H1, H2, H3.
  change (lit "<memento//>; rel=")
    with (lit "<" ++ lit "memento/" ++ lit "/" ++ lit ">; rel=") in H4.
  rewrite !lacks_app in H4.
  apply andb_true_iff in H4 as [Ha H4].
  apply andb_true_iff in H4 as [Hb H4].
  apply andb_true_iff in H4 as [Hc Hd].
  now rewrite Ha, Hb, Hc, Hd.
Qed.

Section Lines.

Variables hp datetime uri rel rfc cm : list N.
Hypothesis plain_hp : plain hp = true.
Hypothesis digits_datetime : forallb is_digit datetime = true.
Hypothesis plain_uri : plain uri = true.
Hypothesis plain_rfc : plain rfc = true.
Hypothesis plain_rel : plain rel = true.
Hypothesis plain_cm : plain cm = true.

Lemma lacks_quote_target : lacks DQ (link_target hp datetime uri) = true.
Proof.
  apply lacks_link_target; try reflexivity;
    [apply plain_lacks|apply plain_lacks, digits_plain|apply plain_lacks];
    assumption.
Qed.

Lemma lacks_newline_target :
  lacks NEWLINE (link_target hp datetime uri) = true.
Proof.
  apply lacks_link_target; try reflexivity;
    [apply plain_lacks|apply plain_lacks, digits_plain|apply plain_lacks];
    assumption.
Qed.

Lemma lacks_quote_rel : lacks DQ (rel ++ lit "memento") = true.
Proof.
  rewrite lacks_app. apply andb_true_iff. split; [|reflexivity].
  now apply plain_lacks.
Qed.

Lemma lacks_newline_link :
  lacks NEWLINE (memento_link hp datetime uri rel rfc ++ cm) = true.
Proof.
  rewrite memento_link_shape.
  repeat first [rewrite lacks_app | rewrite lacks_cons].
  rewrite lacks_newline_target.
  rewrite (proj2 (plain_lacks _ plain_rel)), (proj2 (plain_lacks _ plain_rfc)),
    (proj2 (plain_lacks _ plain_cm)).
  reflexivity.
Qed.

(** [rel=], a double quote, [w] and a double quote: found in the link of a
    capture when [w] is its relation. *)
Lemma contains_relation_link (w : list N) :
  lacks DQ w = true ->
  contains (lit "rel=" ++ DQ :: w ++ [DQ])
    (memento_link hp datetime uri rel rfc ++ cm) =
  bool_decide (w = rel ++ lit "memento").
Proof.
  intros Hw.
  pose proof (proj1 (plain_lacks _ plain_rfc)) as Hrfc.
  pose proof (proj1 (plain_lacks _ plain_cm)) as Hcm.
  rewrite memento_link_shape.
  rewrite contains_anchor by (reflexivity || apply lacks_quote_target).
  rewrite link_target_end at 1. rewrite is_suffix_app. cbn [andb].
  rewrite starts_with_anchor by (assumption || apply lacks_quote_rel).
  cbn [starts_with]. rewrite andb_true_r.
  rewrite contains_anchor by (reflexivity || apply lacks_quote_rel).
  rewrite is_suffix_app_lit by (simpl; lia).
  change (is_suffix (lit "rel=") (lit "memento")) with false. cbn [andb orb].
  rewrite contains_anchor by reflexivity.
  change (is_suffix (lit "rel=") (lit "; datetime=")) with false.
  cbn [andb orb].
  rewrite contains_anchor by (reflexivity || assumption).
  rewrite starts_with_quoted by assumption. rewrite andb_false_r.
  rewrite contains_quoted by assumption.
  now rewrite !orb_false_r.
Qed.

(** The first loop marks the neighbours of the pivot: [memento] and the
    double quote after it are found once, at the relation. *)
Hypothesis memento_rfc : contains (lit "memento") rfc = false.

Lemma replace_memento_link (mark : list N) :
  replace (lit "memento" ++ [DQ]) (mark ++ lit "memento" ++ [DQ])
    (memento_link hp datetime uri rel rfc ++ cm) =
  memento_link hp datetime uri (rel ++ mark) rfc ++ cm.
Proof.
  pose proof (proj1 (plain_lacks _ plain_rfc)) as Hrfc.
  pose proof (proj1 (plain_lacks _ plain_cm)) as Hcm.
  rewrite !memento_link_shape.
  rewrite replace_anchor by (reflexivity || apply lacks_quote_target).
  unfold link_target at 1.
  replace (lit "<" ++ hp ++ lit "memento/" ++ datetime ++ lit "/" ++ uri ++
           lit ">; rel=")
    with ((lit "<" ++ hp ++ lit "memento/" ++ datetime ++ lit "/" ++ uri) ++
          lit ">; rel=") by text_eq.
  rewrite is_suffix_app_lit by (simpl; lia).
  change (is_suffix (lit "memento") (lit ">; rel=")) with false. cbn [andb].
  rewrite replace_anchor by (reflexivity || apply lacks_quote_rel).
  rewrite is_suffix_app. cbn [starts_with andb].
  rewrite length_app.
  replace (length rel + length (lit "memento") - length (lit "memento"))%nat
    with (length rel) by lia.
  rewrite take_app_length. cbn [length]. rewrite drop_0.
  rewrite replace_anchor by reflexivity.
  change (is_suffix (lit "memento") (lit "; datetime=")) with false.
  cbn [andb].
  rewrite replace_anchor by (reflexivity || assumption).
  assert (is_suffix (lit "memento") rfc = false) as ->.
  { destruct (is_suffix (lit "memento") rfc) eqn:H; [|reflexivity].
    apply is_suffix_contains in H. congruence. }
  cbn [andb].
  rewrite (replace_absent _ _ cm)
    by (apply (contains_quoted (lit "memento") []); assumption).
  assoc_eq.
Qed.

(** The first [rel=] of the link of a capture is the one of its relation,
    when neither the host nor the URI holds one. *)
Hypothesis rel_hp : contains (lit "rel=") hp = false.
Hypothesis rel_uri : contains (lit "rel=") uri = false.

Lemma rel_then_link (words : list (list N)) (R : list N) :
  rel_then words (link_target hp datetime uri ++ R) =
  existsb (fun w => contains w R) words.
Proof.
  set (P := lit "<" ++ hp ++ lit "memento/" ++ datetime ++ lit "/" ++ uri).
  assert (HP : contains (lit "rel=") P = false).
  { unfold P.
    change (lit "<" ++ hp ++ lit "memento/" ++ datetime ++ lit "/" ++ uri)
      with ([] ++ 60%N :: hp ++ 109%N :: lit "emento" ++ 47%N ::
            datetime ++ 47%N :: uri).
    rewrite !contains_app_sep by reflexivity.
    rewrite rel_hp, rel_uri.
    rewrite (contains_lacks 114%N _ datetime);
      [reflexivity| |reflexivity].
    now apply digits_lack. }
  assert (Hshape : link_target hp datetime uri ++ R =
                   P ++ 62%N :: lit "; rel=" ++ R)
    by (unfold P; text_eq).
  unfold rel_then. rewrite Hshape.
  rewrite find_sep by (reflexivity || assumption).
  change (find (lit "rel=") (lit "; rel=" ++ R)) with (Some 2%nat).
  cbn [fmap option_fmap option_map].
  replace (P ++ 62%N :: lit "; rel=" ++ R)
    with ((P ++ lit ">; rel=") ++ R) by (clearbody P; text_eq).
  replace (length P + 1 + 2 + 4)%nat with (length (P ++ lit ">; rel="))
    by (rewrite length_app; simpl; lia).
  now rewrite drop_app_length.
Qed.

Lemma is_memento_link :
  is_memento (memento_link hp datetime uri rel rfc ++ cm) = true.
Proof.
  unfold is_memento. rewrite re_rel_then_line by apply lacks_newline_link.
  rewrite memento_link_shape, rel_then_link. cbn [existsb].
  rewrite orb_false_r.
  replace (DQ :: (rel ++ lit "memento") ++ DQ :: lit "; datetime=" ++
           DQ :: rfc ++ DQ :: cm)
    with ((DQ :: rel) ++ litq "memento'" ++
          lit "; datetime=" ++ DQ :: rfc ++ DQ :: cm) by text_eq.
  apply contains_intro.
Qed.

(** A relation word after [rel=] is one of the relation itself. *)
Hypothesis words_rfc :
  forallb (fun w => negb (contains w rfc)) relation_words = true.
Hypothesis cm_cases : cm = [] \/ cm = lit ",".

Lemma has_relation_link :
  has_relation (memento_link hp datetime uri rel rfc ++ cm) =
  existsb (fun w => contains w (rel ++ lit "memento")) relation_words.
Proof.
  unfold has_relation. rewrite re_rel_then_line by apply lacks_newline_link.
  rewrite memento_link_shape, rel_then_link.
  fold relation_words.
  assert (Hw : forall w, In w relation_words ->
            contains w (DQ :: (rel ++ lit "memento") ++ DQ ::
                        lit "; datetime=" ++ DQ :: rfc ++ DQ :: cm) =
            contains w (rel ++ lit "memento")).
  { intros w Hin.
    assert (Hq : lacks DQ w = true /\ w <> [] /\
                 contains w (lit "; datetime=") = false /\
                 contains w [] = false /\ contains w (lit ",") = false).
    { cbn [In relation_words] in Hin. clear -Hin.
      repeat (destruct Hin as [<-|Hin];
              [repeat split; try reflexivity; discriminate|]).
      contradiction. }
    destruct Hq as (Hq & Hn & Hd & He & Hc).
    rewrite contains_cons_sep by assumption.
    rewrite !contains_app_sep by assumption.
    rewrite Hd.
    assert (contains w rfc = false) as ->.
    { rewrite forallb_forall in words_rfc.
      now apply negb_true_iff, words_rfc. }
    assert (contains w cm = false) as ->
      by (destruct cm_cases as [-> | ->]; assumption).
    now rewrite !orb_false_r. }
  now apply existsb_ext_in.
Qed.

End Lines.

(** *** The pivot on the link of a capture *)

Lemma contains_gap (p g y : list N) :
  forallb is_digit p = true -> p <> [] ->
  forallb (fun c => negb (is_digit c)) g = true ->
  contains p (g ++ y) = contains p y.
Proof.
  intros Hp Hn. induction g as [|c g IH]; intros Hg; [reflexivity|].
  cbn [forallb] in Hg. apply andb_true_iff in Hg as [Hc Hg].
  apply negb_true_iff in Hc. simpl app.
  rewrite contains_cons_sep; [now apply IH| |assumption].
  now apply digits_lack.
Qed.

Lemma contains_digits_gap (p x g y : list N) :
  forallb is_digit p = true -> p <> [] ->
  forallb (fun c => negb (is_digit c)) g = true -> g <> [] ->
  contains p (x ++ g ++ y) = contains p x || contains p y.
Proof.
  intros Hp Hn Hg Hg0. destruct g as [|c g]; [contradiction|].
  cbn [forallb] in Hg. apply andb_true_iff in Hg as [Hc Hg].
  apply negb_true_iff in Hc. simpl app.
  rewrite contains_app_sep by now apply digits_lack.
  now rewrite contains_gap.
Qed.

Section PivotLine.

Variables pivot hp datetime uri rel rfc cm : list N.
Hypothesis digits_pivot : forallb is_digit pivot = true.
Hypothesis pivot_not_empty : pivot <> [].
Hypothesis same_length : length datetime = length pivot.
Hypothesis pivot_hp : contains pivot hp = false.
Hypothesis pivot_uri : contains pivot uri = false.
Hypothesis pivot_rfc : contains pivot rfc = false.
Hypothesis no_digit_rel : forallb (fun c => negb (is_digit c)) rel = true.
Hypothesis cm_cases : cm = [] \/ cm = lit ",".

Lemma contains_pivot_link :
  contains pivot (memento_link hp datetime uri rel rfc ++ cm) =
  bool_decide (pivot = datetime).
Proof.
  replace (memento_link hp datetime uri rel rfc ++ cm)
    with ([] ++ lit "<" ++ hp ++ lit "memento/" ++ datetime ++ lit "/" ++
          uri ++ (lit ">; rel=" ++ DQ :: rel ++ lit "memento" ++ DQ ::
                  lit "; datetime=" ++ [DQ]) ++ rfc ++ (DQ :: cm) ++ [])
    by text_eq.
  assert (Hg : forallb (fun c => negb (is_digit c))
                 (lit ">; rel=" ++ DQ :: rel ++ lit "memento" ++ DQ ::
                  lit "; datetime=" ++ [DQ]) = true).
  { change (lit ">; rel=" ++ DQ :: rel ++ lit "memento" ++ DQ ::
            lit "; datetime=" ++ [DQ])
      with ((lit ">; rel=" ++ [DQ]) ++ rel ++ lit "memento" ++ DQ ::
            lit "; datetime=" ++ [DQ]).
    now rewrite !forallb_app, no_digit_rel. }
  assert (Hcm : forallb (fun c => negb (is_digit c)) (DQ :: cm) = true)
    by (destruct cm_cases as [-> | ->]; reflexivity).
  rewrite !contains_digits_gap by (assumption || reflexivity || discriminate).
  rewrite pivot_hp, pivot_uri, pivot_rfc.
  rewrite (contains_same_length pivot datetime)
    by (assumption || now symmetry).
  destruct pivot; [contradiction|].
  cbn [contains starts_with orb]. now rewrite !orb_false_r.
Qed.

End PivotLine.

(** *** The four links of the TimeMap itself *)

Section HeaderLine.

Variables uri rest : list N.
Hypothesis plain_uri : plain uri = true.

Lemma lacks_quote_header :
  lacks DQ ((lit "<" ++ uri ++ lit ">; ") ++ lit "rel=") = true.
Proof.
  rewrite !lacks_app, (proj1 (plain_lacks _ plain_uri)). reflexivity.
Qed.

Lemma lacks_newline_header :
  lacks NEWLINE rest = true -> lacks NEWLINE (header_link uri rest) = true.
Proof.
  intros H. rewrite header_link_shape, !lacks_app, lacks_cons, H.
  now rewrite (proj2 (plain_lacks _ plain_uri)).
Qed.

Lemma contains_relation_header (v : list N) :
  contains (lit "rel=" ++ DQ :: v) (header_link uri rest) =
  starts_with v rest || contains (lit "rel=" ++ DQ :: v) rest.
Proof.
  rewrite header_link_shape.
  rewrite contains_anchor by (reflexivity || apply lacks_quote_header).
  now rewrite is_suffix_app.
Qed.

Lemma contains_memento_header :
  contains (lit "memento" ++ [DQ]) (header_link uri rest) =
  contains (lit "memento" ++ [DQ]) rest.
Proof.
  rewrite header_link_shape.
  rewrite contains_anchor by (reflexivity || apply lacks_quote_header).
  replace ((lit "<" ++ uri ++ lit ">; ") ++ lit "rel=")
    with ((lit "<" ++ uri) ++ lit ">; rel=") by text_eq.
  rewrite is_suffix_app_lit by (simpl; lia).
  reflexivity.
Qed.

Lemma is_memento_header :
  lacks NEWLINE rest = true ->
  contains (lit "memento" ++ [DQ]) rest = false ->
  is_memento (header_link uri rest) = false.
Proof.
  intros Hn Hc. unfold is_memento.
  rewrite re_rel_then_line by now apply lacks_newline_header.
  apply rel_then_absent. cbn [forallb].
  change (litq "memento'") with (lit "memento" ++ [DQ]).
  now rewrite contains_memento_header, Hc.
Qed.

Lemma drop_unrelated_header (pivot : list N) :
  lacks NEWLINE rest = true ->
  contains (lit "memento" ++ [DQ]) rest = false ->
  drop_unrelated pivot (header_link uri rest) = header_link uri rest.
Proof.
  intros Hn Hc. unfold drop_unrelated.
  now rewrite is_memento_header.
Qed.

End HeaderLine.

(** [rel="self timemap"] becomes [rel="timemap"] on the second link. *)
Lemma replace_self_header (uri : list N) :
  plain uri = true ->
  replace (litq "rel='self timemap'") (litq "rel='timemap'")
    (header_link uri (litq "self timemap'; type='application/link-format',")) =
  header_link uri (litq "timemap'; type='application/link-format',").
Proof.
  intros Hu. rewrite header_link_shape.
  change (litq "rel='self timemap'")
    with (lit "rel=" ++ DQ :: litq "self timemap'").
  rewrite replace_anchor by (reflexivity || now apply lacks_quote_header).
  rewrite is_suffix_app. cbn [andb].
  change (starts_with (litq "self timemap'")
            (litq "self timemap'; type='application/link-format',"))
    with true. cbv iota.
  rewrite (length_app _ (lit "rel=")).
  replace (length (lit "<" ++ uri ++ lit ">; ") + length (lit "rel=") -
           length (lit "rel="))%nat
    with (length (lit "<" ++ uri ++ lit ">; ")) by lia.
  rewrite take_app_length.
  set (t := replace _ _ (drop _ _)).
  vm_compute in t. subst t. text_eq.
Qed.

(** *** What the texts of a clean capture give *)

Lemma clean_capture_inv (pivot datetime uri rfc : list N) :
  clean_capture pivot (datetime, uri, rfc) = true ->
  forallb is_digit datetime = true /\ datetime <> [] /\
  length datetime = length pivot /\
  plain uri = true /\ plain rfc = true /\
  contains (lit "rel=") uri = false /\ contains pivot uri = false /\
  contains pivot rfc = false /\ contains (lit "memento") rfc = false /\
  forallb (fun w => negb (contains w rfc)) relation_words = true.
Proof.
  unfold clean_capture. rewrite !andb_true_iff, !negb_true_iff.
  intros [[[[[[[[[H1 H2] H3] H4] H5] H6] H7] H8] H9] H10].
  repeat split; try assumption.
  - intros ->. unfold str_eqb in H2.
    now rewrite bool_decide_eq_true_2 in H2.
  - now apply Nat.eqb_eq.
Qed.

Lemma clean_links_inv (pivot original_uri tm_self tg_uri hp : list N) :
  clean_links pivot original_uri tm_self tg_uri hp = true ->
  plain original_uri = true /\ plain tm_self = true /\
  plain tg_uri = true /\ plain hp = true /\
  contains (lit "rel=") hp = false /\ contains pivot hp = false.
Proof.
  unfold clean_links. rewrite !andb_true_iff, !negb_true_iff.
  intros [[[[[H1 H2] H3] H4] H5] H6]. repeat split; assumption.
Qed.

Lemma plain_word_first_last (n i : nat) :
  plain_word (first_last_str n i) = true.
Proof. unfold first_last_str. repeat case_match; reflexivity. Qed.

Lemma plain_word_app (a b : list N) :
  plain_word a = true -> plain_word b = true -> plain_word (a ++ b) = true.
Proof.
  unfold plain_word, plain. rewrite !andb_true_iff, !forallb_app.
  intros [-> ->] [-> ->]. now split.
Qed.

Lemma comma_cases (n i : nat) : comma n i = [] \/ comma n i = lit ",".
Proof. unfold comma. case_match; [now right|now left]. Qed.

Lemma plain_comma (n i : nat) : plain (comma n i) = true.
Proof. destruct (comma_cases n i) as [-> | ->]; reflexivity. Qed.

(** The second loop on the link of a capture: kept at the pivot, kept with
    a relation word, emptied otherwise. *)
Lemma drop_unrelated_link (pivot hp datetime uri rfc rel : list N)
    (n i : nat) :
  forallb is_digit pivot = true -> pivot <> [] ->
  plain hp = true -> contains (lit "rel=") hp = false ->
  contains pivot hp = false ->
  clean_capture pivot (datetime, uri, rfc) = true ->
  plain_word rel = true ->
  drop_unrelated pivot (memento_link hp datetime uri rel rfc ++ comma n i) =
  if bool_decide (pivot = datetime)
  then memento_link hp datetime uri rel rfc ++ comma n i
  else if existsb (fun w => contains w (rel ++ lit "memento")) relation_words
       then memento_link hp datetime uri rel rfc ++ comma n i
       else [].
Proof.
  intros Hp Hn Hhp Hrel Hph Hc Hw.
  apply clean_capture_inv in Hc
    as (H1 & H2 & H3 & H4 & H5 & H6 & H7 & H8 & H9 & H10).
  unfold plain_word in Hw. apply andb_true_iff in Hw as [Hw1 Hw2].
  unfold drop_unrelated.
  rewrite is_memento_link by (assumption || apply plain_comma).
  rewrite (contains_pivot_link pivot)
    by (assumption || apply comma_cases).
  rewrite has_relation_link
    by (assumption || apply plain_comma || apply comma_cases).
  cbn [negb].
  destruct (bool_decide (pivot = datetime)); [reflexivity|].
  now destruct (existsb _ relation_words).
Qed.

(** *** The relations of the links *)

Lemma first_last_cases (n i : nat) :
  first_last_str n i = lit "first " \/ first_last_str n i = lit "last " \/
  first_last_str n i = [] \/ first_last_str n i = lit "first last ".
Proof. unfold first_last_str. repeat case_match; auto. Qed.

Lemma has_relation_first_last (n i : nat) :
  (i < n)%nat ->
  existsb (fun w => contains w (first_last_str n i ++ lit "memento"))
    relation_words =
  (i =? 0)%nat || (i =? n - 1)%nat.
Proof.
  intros Hi. unfold first_last_str.
  destruct (1 <? n)%nat eqn:H1.
  - destruct (i =? 0)%nat eqn:H2; [reflexivity|].
    destruct (i =? n - 1)%nat eqn:H3; reflexivity.
  - apply Nat.ltb_ge in H1. assert (n = 1%nat) as -> by lia.
    assert (i = 0%nat) as -> by lia. reflexivity.
Qed.

Lemma has_relation_marked (n i : nat) (mark : list N) :
  mark = lit "prev " \/ mark = lit "next " ->
  existsb (fun w => contains w ((first_last_str n i ++ mark) ++ lit "memento"))
    relation_words = true.
Proof.
  intros Hm.
  destruct (first_last_cases n i) as [-> | [-> | [-> | ->]]];
    destruct Hm as [-> | ->]; reflexivity.
Qed.

Lemma link_not_empty (hp datetime uri rel rfc cm : list N) :
  memento_link hp datetime uri rel rfc ++ cm <> [].
Proof. unfold memento_link. simpl. discriminate. Qed.

Lemma header_not_empty (uri rest : list N) : header_link uri rest <> [].
Proof. unfold header_link. simpl. discriminate. Qed.

Lemma full_links_length (hp : list N) (n : nat)
    (cs : list (list N * list N * list N)) :
  forall i, length (full_links hp n i cs) = length cs.
Proof.
  induction cs as [|[[d u] r] cs IH]; intros i; [reflexivity|].
  simpl. now rewrite IH.
Qed.

Lemma full_links_app (hp : list N) (n : nat)
    (A B : list (list N * list N * list N)) :
  forall i,
    full_links hp n i (A ++ B) =
    full_links hp n i A ++ full_links hp n (i + length A) B.
Proof.
  induction A as [|[[d u] r] A IH]; intros i.
  - simpl. now rewrite Nat.add_0_r.
  - simpl. rewrite IH. do 3 f_equal. lia.
Qed.

Lemma kept_links_app (hp : list N) (n p : nat)
    (A B : list (list N * list N * list N)) :
  forall i,
    kept_links hp n p i (A ++ B) =
    kept_links hp n p i A ++ kept_links hp n p (i + length A) B.
Proof.
  induction A as [|[[d u] r] A IH]; intros i.
  - simpl. now rewrite Nat.add_0_r.
  - simpl. rewrite IH, <- app_assoc. do 3 f_equal. lia.
Qed.

Lemma pivot_positions_split (pivot : list N)
    (captures : list (list N * list N * list N)) :
  forall i p,
    pivot_positions pivot i captures = [p] ->
    exists A uri rfc B,
      captures = A ++ (pivot, uri, rfc) :: B /\
      (i + length A = p)%nat /\
      pivot_positions pivot i A = [] /\
      pivot_positions pivot (S p) B = [].
Proof.
  induction captures as [|[[d u] r] cs IH]; intros i p H; [discriminate|].
  cbn [pivot_positions] in H.
  destruct (decide (d = pivot)) as [->|Hd].
  - rewrite bool_decide_eq_true_2 in H by reflexivity.
    injection H as <- H. exists [], u, r, cs.
    repeat split; [simpl; lia|assumption].
  - rewrite bool_decide_eq_false_2 in H by assumption. simpl in H.
    destruct (IH _ _ H) as (A & uri & rfc & B & -> & Hl & HA & HB).
    exists ((d, u, r) :: A), uri, rfc, B.
    repeat split; [simpl; lia| |assumption].
    cbn [pivot_positions]. rewrite bool_decide_eq_false_2 by assumption.
    assumption.
Qed.

(** *** The two loops over the links of the captures *)

Section Loops.

Variables pivot hp : list N.
Variables n p : nat.
Hypothesis digits_pivot : forallb is_digit pivot = true.
Hypothesis pivot_not_empty : pivot <> [].
Hypothesis plain_hp : plain hp = true.
Hypothesis rel_hp : contains (lit "rel=") hp = false.
Hypothesis pivot_hp : contains pivot hp = false.

Lemma mark_link (datetime uri rfc rel mark : list N) (i : nat) :
  clean_capture pivot (datetime, uri, rfc) = true ->
  plain_word rel = true ->
  replace (litq "memento'") (mark ++ litq "memento'")
    (memento_link hp datetime uri rel rfc ++ comma n i) =
  memento_link hp datetime uri (rel ++ mark) rfc ++ comma n i.
Proof.
  intros Hc Hw.
  apply clean_capture_inv in Hc
    as (H1 & H2 & H3 & H4 & H5 & H6 & H7 & H8 & H9 & H10).
  unfold plain_word in Hw. apply andb_true_iff in Hw as [Hw1 Hw2].
  apply (replace_memento_link hp datetime uri rel rfc (comma n i));
    assumption || apply plain_comma.
Qed.

(** Away from the pivot and its neighbours, the first and the last link
    stay. *)
Lemma kept_region (cs : list (list N * list N * list N)) :
  forall i,
    forallb (clean_capture pivot) cs = true ->
    pivot_positions pivot i cs = [] ->
    (i + length cs <= n)%nat ->
    (i + length cs + 1 <= p \/ p + 2 <= i)%nat ->
    filter (fun l => l <> [])
      (map (drop_unrelated pivot) (full_links hp n i cs)) =
    kept_links hp n p i cs.
Proof.
  induction cs as [|[[d u] r] cs IH]; intros i Hc Hp Hn Hr; [reflexivity|].
  cbn [forallb] in Hc. apply andb_true_iff in Hc as [Hc Hcs].
  cbn [pivot_positions] in Hp.
  destruct (decide (d = pivot)) as [->|Hd].
  { rewrite bool_decide_eq_true_2 in Hp by reflexivity. discriminate. }
  rewrite bool_decide_eq_false_2 in Hp by assumption. simpl in Hp.
  simpl length in Hn, Hr.
  cbn [full_links kept_links map].
  rewrite drop_unrelated_link
    by (assumption || apply plain_word_first_last).
  rewrite bool_decide_eq_false_2 by congruence.
  rewrite has_relation_first_last by lia.
  unfold abbreviated_rel.
  assert ((i =? p)%nat = false) as -> by (apply Nat.eqb_neq; lia).
  assert ((S i =? p)%nat = false) as -> by (apply Nat.eqb_neq; lia).
  assert ((i =? S p)%nat = false) as -> by (apply Nat.eqb_neq; lia).
  destruct ((i =? 0)%nat || (i =? n - 1)%nat).
  - rewrite filter_cons_True by apply link_not_empty.
    simpl. f_equal. apply IH; assumption || lia.
  - rewrite filter_cons_False by (intros H; now apply H).
    simpl. apply IH; assumption || lia.
Qed.

(** The neighbour before the pivot, marked by the first loop. *)
Lemma kept_prev (d u r : list N) (i : nat) :
  clean_capture pivot (d, u, r) = true ->
  d <> pivot -> S i = p ->
  drop_unrelated pivot
    (replace (litq "memento'") (litq "prev memento'")
       (memento_link hp d u (first_last_str n i) r ++ comma n i)) =
  memento_link hp d u (first_last_str n i ++ lit "prev ") r ++ comma n i.
Proof.
  intros Hc Hd Hi.
  change (litq "prev memento'") with (lit "prev " ++ litq "memento'").
  rewrite mark_link by (assumption || apply plain_word_first_last).
  assert (Hw : plain_word (first_last_str n i ++ lit "prev ") = true)
    by (apply plain_word_app; [apply plain_word_first_last|reflexivity]).
  rewrite drop_unrelated_link by assumption.
  rewrite bool_decide_eq_false_2 by congruence.
  now rewrite has_relation_marked by (now left).
Qed.

Lemma kept_next (d u r : list N) (i : nat) :
  clean_capture pivot (d, u, r) = true ->
  d <> pivot -> i = S p ->
  drop_unrelated pivot
    (replace (litq "memento'") (litq "next memento'")
       (memento_link hp d u (first_last_str n i) r ++ comma n i)) =
  memento_link hp d u (first_last_str n i ++ lit "next ") r ++ comma n i.
Proof.
  intros Hc Hd Hi.
  change (litq "next memento'") with (lit "next " ++ litq "memento'").
  rewrite mark_link by (assumption || apply plain_word_first_last).
  assert (Hw : plain_word (first_last_str n i ++ lit "next ") = true)
    by (apply plain_word_app; [apply plain_word_first_last|reflexivity]).
  rewrite drop_unrelated_link by assumption.
  rewrite bool_decide_eq_false_2 by congruence.
  now rewrite has_relation_marked by (now right).
Qed.

Lemma kept_pivot (u r : list N) (i : nat) :
  clean_capture pivot (pivot, u, r) = true ->
  drop_unrelated pivot
    (memento_link hp pivot u (first_last_str n i) r ++ comma n i) =
  memento_link hp pivot u (first_last_str n i) r ++ comma n i.
Proof.
  intros Hc.
  rewrite drop_unrelated_link
    by (assumption || apply plain_word_first_last).
  now rewrite bool_decide_eq_true_2.
Qed.

(** The replacement of [rel="self timemap"] leaves the links of the
    captures, none of which is the [first last memento] of a TimeMap of one
    capture when there are more. *)
Lemma replace_self_link (d u r : list N) (i : nat) :
  clean_capture pivot (d, u, r) = true ->
  replace (litq "rel='self timemap'") (litq "rel='timemap'")
    (memento_link hp d u (first_last_str n i) r ++ comma n i) =
  memento_link hp d u (first_last_str n i) r ++ comma n i.
Proof.
  intros Hc. apply replace_absent.
  apply clean_capture_inv in Hc
    as (H1 & H2 & H3 & H4 & H5 & H6 & H7 & H8 & H9 & H10).
  pose proof (plain_word_first_last n i) as Hw.
  unfold plain_word in Hw. apply andb_true_iff in Hw as [Hw1 Hw2].
  change (litq "rel='self timemap'")
    with (lit "rel=" ++ DQ :: lit "self timemap" ++ [DQ]).
  rewrite contains_relation_link
    by (assumption || apply plain_comma || reflexivity).
  apply bool_decide_eq_false_2.
  destruct (first_last_cases n i) as [-> | [-> | [-> | ->]]]; discriminate.
Qed.

Lemma contains_single_link (d u r : list N) (i : nat) :
  clean_capture pivot (d, u, r) = true ->
  contains (litq "rel='first last memento'")
    (memento_link hp d u (first_last_str n i) r ++ comma n i) =
  bool_decide (first_last_str n i = lit "first last ").
Proof.
  intros Hc.
  apply clean_capture_inv in Hc
    as (H1 & H2 & H3 & H4 & H5 & H6 & H7 & H8 & H9 & H10).
  pose proof (plain_word_first_last n i) as Hw.
  unfold plain_word in Hw. apply andb_true_iff in Hw as [Hw1 Hw2].
  change (litq "rel='first last memento'")
    with (lit "rel=" ++ DQ :: lit "first last memento" ++ [DQ]).
  rewrite contains_relation_link
    by (assumption || apply plain_comma || reflexivity).
  destruct (first_last_cases n i) as [-> | [-> | [-> | ->]]]; reflexivity.
Qed.

Lemma replace_self_links (cs : list (list N * list N * list N)) :
  forall i,
    forallb (clean_capture pivot) cs = true ->
    map (replace (litq "rel='self timemap'") (litq "rel='timemap'"))
      (full_links hp n i cs) = full_links hp n i cs.
Proof.
  induction cs as [|[[d u] r] cs IH]; intros i Hc; [reflexivity|].
  cbn [forallb] in Hc. apply andb_true_iff in Hc as [Hc Hcs].
  cbn [full_links map]. rewrite replace_self_link by assumption.
  f_equal. now apply IH.
Qed.

Lemma contains_single_links (cs : list (list N * list N * list N)) :
  forall i,
    forallb (clean_capture pivot) cs = true ->
    (1 < n)%nat ->
    existsb (contains (litq "rel='first last memento'"))
      (full_links hp n i cs) = false.
Proof.
  induction cs as [|[[d u] r] cs IH]; intros i Hc Hn; [reflexivity|].
  cbn [forallb] in Hc. apply andb_true_iff in Hc as [Hc Hcs].
  cbn [full_links existsb]. rewrite contains_single_link by assumption.
  rewrite IH by assumption. rewrite orb_false_r.
  apply bool_decide_eq_false_2. unfold first_last_str.
  assert ((1 <? n)%nat = true) as -> by now apply Nat.ltb_lt.
  repeat case_match; discriminate.
Qed.

Lemma lacks_newline_links (cs : list (list N * list N * list N)) :
  forall i,
    forallb (clean_capture pivot) cs = true ->
    forallb (lacks NEWLINE) (full_links hp n i cs) = true.
Proof.
  induction cs as [|[[d u] r] cs IH]; intros i Hc; [reflexivity|].
  cbn [forallb] in Hc. apply andb_true_iff in Hc as [Hc Hcs].
  cbn [full_links forallb]. rewrite IH by assumption.
  apply clean_capture_inv in Hc
    as (H1 & H2 & H3 & H4 & H5 & H6 & H7 & H8 & H9 & H10).
  pose proof (plain_word_first_last n i) as Hw.
  unfold plain_word in Hw. apply andb_true_iff in Hw as [Hw1 Hw2].
  rewrite lacks_newline_link by (assumption || apply plain_comma).
  reflexivity.
Qed.

(** The first loop passes the links before the pivot. *)
Lemma find_pivot_links (cs : list (list N * list N * list N))
    (rest : list (list N)) :
  forall i idx,
    forallb (clean_capture pivot) cs = true ->
    pivot_positions pivot i cs = [] ->
    find_pivot pivot idx (full_links hp n i cs ++ rest) =
    find_pivot pivot (idx + length cs) rest.
Proof.
  induction cs as [|[[d u] r] cs IH]; intros i idx Hc Hp.
  - simpl. now rewrite Nat.add_0_r.
  - cbn [forallb] in Hc. apply andb_true_iff in Hc as [Hc Hcs].
    cbn [pivot_positions] in Hp.
    destruct (decide (d = pivot)) as [->|Hd].
    { rewrite bool_decide_eq_true_2 in Hp by reflexivity. discriminate. }
    rewrite bool_decide_eq_false_2 in Hp by assumption. simpl in Hp.
    cbn [full_links app find_pivot].
    pose proof Hc as Hc'.
    apply clean_capture_inv in Hc'
      as (H1 & H2 & H3 & H4 & H5 & H6 & H7 & H8 & H9 & H10).
    pose proof (plain_word_first_last n i) as Hw.
    unfold plain_word in Hw. apply andb_true_iff in Hw as [Hw1 Hw2].
    rewrite (contains_pivot_link pivot)
      by (assumption || apply comma_cases).
    rewrite (bool_decide_eq_false_2 (pivot = d)) by congruence.
    rewrite andb_false_r. rewrite IH by assumption.
    f_equal. simpl. lia.
Qed.

Lemma find_pivot_here (u r : list N) (i idx : nat) (rest : list (list N)) :
  clean_capture pivot (pivot, u, r) = true ->
  find_pivot pivot idx
    ((memento_link hp pivot u (first_last_str n i) r ++ comma n i) :: rest) =
  Some idx.
Proof.
  intros Hc. cbn [find_pivot].
  apply clean_capture_inv in Hc
    as (H1 & H2 & H3 & H4 & H5 & H6 & H7 & H8 & H9 & H10).
  pose proof (plain_word_first_last n i) as Hw.
  unfold plain_word in Hw. apply andb_true_iff in Hw as [Hw1 Hw2].
  rewrite is_memento_link by (assumption || apply plain_comma).
  rewrite (contains_pivot_link pivot) by (assumption || apply comma_cases).
  now rewrite bool_decide_eq_true_2.
Qed.

End Loops.

(** *** The assignments of the first loop *)

Lemma set_index_insert {A} (l : list A) (k : nat) (x : A) :
  (k < length l)%nat -> set_index l (Z.of_nat k) x = Ok (<[k := x]> l).
Proof.
  intros Hk. unfold set_index.
  assert (H0 : (Z.of_nat k <? 0)%Z = false) by (apply Z.ltb_ge; lia).
  assert (H1 : (Z.of_nat (length l) <=? Z.of_nat k)%Z = false)
    by (apply Z.leb_gt; lia).
  rewrite H0. cbv zeta. rewrite H0, H1. cbn [orb]. now rewrite Nat2Z.id.
Qed.

Lemma mark_neighbours_middle (U : list (list N)) (u m v : list N)
    (V : list (list N)) :
  mark_neighbours (U ++ u :: m :: v :: V) (S (length U)) =
  Ok (U ++ replace (litq "memento'") (litq "prev memento'") u :: m ::
      replace (litq "memento'") (litq "next memento'") v :: V).
Proof.
  unfold mark_neighbours.
  set (L := U ++ u :: m :: v :: V).
  assert (HL : length L = (length U + 3 + length V)%nat)
    by (unfold L; rewrite length_app; simpl; lia).
  assert (((0 <? Z.of_nat (S (length U))) &&
           (Z.of_nat (S (length U)) <? Z.of_nat (length L) - 1))%Z = true)
    as ->.
  { apply andb_true_iff. split; apply Z.ltb_lt; lia. }
  cbn [orb].
  replace (Z.of_nat (S (length U)) + 1)%Z
    with (Z.of_nat (S (S (length U)))) by lia.
  replace (Z.of_nat (S (length U)) - 1)%Z with (Z.of_nat (length U)) by lia.
  assert (Hv : L !! S (S (length U)) = Some v).
  { unfold L. rewrite lookup_app_r by lia.
    now replace (S (S (length U)) - length U)%nat with 2%nat by lia. }
  rewrite (IndexShape.index_lookup _ _ _ Hv).
  unfold mbind, res_bind, bind.
  rewrite set_index_insert by lia.
  set (L1 := <[S (S (length U)) := _]> L).
  assert (Hu : L1 !! length U = Some u).
  { unfold L1. rewrite list_lookup_insert_ne by lia.
    unfold L. rewrite lookup_app_r by lia.
    now rewrite Nat.sub_diag. }
  rewrite (IndexShape.index_lookup _ _ _ Hu).
  rewrite set_index_insert by (unfold L1; rewrite length_insert; lia).
  f_equal. unfold L1, L.
  rewrite (insert_app_r_alt U _ (S (S (length U)))) by lia.
  replace (S (S (length U)) - length U)%nat with 2%nat by lia.
  rewrite (insert_app_r_alt U _ (length U)) by lia.
  rewrite Nat.sub_diag. reflexivity.
Qed.

Lemma pivot_positions_app (pivot : list N)
    (A B : list (list N * list N * list N)) :
  forall i,
    pivot_positions pivot i (A ++ B) =
    pivot_positions pivot i A ++ pivot_positions pivot (i + length A) B.
Proof.
  induction A as [|[[d u] r] A IH]; intros i.
  - simpl. now rewrite Nat.add_0_r.
  - simpl. rewrite IH, <- app_assoc. do 3 f_equal. lia.
Qed.

Lemma drop_unrelated_nil (pivot : list N) : drop_unrelated pivot [] = [].
Proof. reflexivity. Qed.

(** *** The lines of the TimeMap through the two loops *)

Section Lines.

Variables pivot original_uri tm_self tg_uri hp : list N.
Hypothesis digits_pivot : forallb is_digit pivot = true.
Hypothesis pivot_not_empty : pivot <> [].
Hypothesis clean :
  clean_links pivot original_uri tm_self tg_uri hp = true.

Lemma plain_cdxj_uri :
  plain (replace (lit "/timemap/link/") (lit "/timemap/cdxj/") tm_self) = true.
Proof.
  apply clean_links_inv in clean as (H1 & H2 & H3 & H4 & H5 & H6).
  apply plain_lacks in H2 as [Hq Hn].
  unfold plain. apply forallb_forall. intros c Hc.
  assert (Ha : lacks DQ
            (replace (lit "/timemap/link/") (lit "/timemap/cdxj/") tm_self) =
            true) by (apply lacks_replace; [discriminate|reflexivity|assumption]).
  assert (Hb : lacks NEWLINE
            (replace (lit "/timemap/link/") (lit "/timemap/cdxj/") tm_self) =
            true) by (apply lacks_replace; [discriminate|reflexivity|assumption]).
  unfold lacks in Ha, Hb. rewrite forallb_forall in Ha, Hb.
  now rewrite (Ha c Hc), (Hb c Hc).
Qed.

Lemma replace_self_other (uri rest : list N) :
  plain uri = true ->
  starts_with (litq "self timemap'") rest ||
  contains (litq "rel='self timemap'") rest = false ->
  replace (litq "rel='self timemap'") (litq "rel='timemap'")
    (header_link uri rest) = header_link uri rest.
Proof.
  intros Hu Hr. apply replace_absent.
  change (litq "rel='self timemap'")
    with (lit "rel=" ++ DQ :: litq "self timemap'") in *.
  now rewrite contains_relation_header.
Qed.

Lemma contains_single_header (uri rest : list N) :
  plain uri = true ->
  starts_with (litq "first last memento'") rest ||
  contains (litq "rel='first last memento'") rest = false ->
  contains (litq "rel='first last memento'") (header_link uri rest) = false.
Proof.
  intros Hu Hr.
  change (litq "rel='first last memento'")
    with (lit "rel=" ++ DQ :: litq "first last memento'") in *.
  now rewrite contains_relation_header.
Qed.

Lemma relinked_lines (captures : list (list N * list N * list N)) :
  captures <> [] ->
  forallb (clean_capture pivot) captures = true ->
  map (replace (litq "rel='self timemap'") (litq "rel='timemap'"))
    (timemap_lines original_uri tm_self tg_uri hp captures) =
  abbreviated_headers original_uri tm_self tg_uri ++
  full_links hp (length captures) 0 captures ++ [[]].
Proof.
  intros Hne Hc.
  pose proof plain_cdxj_uri as Hcd.
  apply clean_links_inv in clean as (H1 & H2 & H3 & H4 & H5 & H6).
  unfold timemap_lines, abbreviated_headers.
  destruct captures as [|c cs]; [contradiction|].
  set (cap := c :: cs) in *.
  rewrite !map_app. cbn [map].
  rewrite (replace_self_links pivot hp) by assumption.
  rewrite replace_self_header by assumption.
  rewrite !replace_self_other by (assumption || reflexivity).
  rewrite replace_nil by discriminate.
  reflexivity.
Qed.

Lemma lacks_newline_lines (captures : list (list N * list N * list N)) :
  forallb (clean_capture pivot) captures = true ->
  forallb (lacks NEWLINE)
    (abbreviated_headers original_uri tm_self tg_uri ++
     full_links hp (length captures) 0 captures ++ [[]]) = true.
Proof.
  intros Hc.
  pose proof plain_cdxj_uri as Hcd.
  apply clean_links_inv in clean as (H1 & H2 & H3 & H4 & H5 & H6).
  rewrite !forallb_app. rewrite (lacks_newline_links pivot hp) by assumption.
  unfold abbreviated_headers. cbn [forallb].
  rewrite !lacks_newline_header by (assumption || reflexivity).
  reflexivity.
Qed.

Lemma contains_single_lines (captures : list (list N * list N * list N)) :
  forallb (clean_capture pivot) captures = true ->
  (1 < length captures)%nat ->
  existsb (contains (litq "rel='first last memento'"))
    (abbreviated_headers original_uri tm_self tg_uri ++
     full_links hp (length captures) 0 captures ++ [[]]) = false.
Proof.
  intros Hc Hn.
  pose proof plain_cdxj_uri as Hcd.
  apply clean_links_inv in clean as (H1 & H2 & H3 & H4 & H5 & H6).
  rewrite !existsb_app.
  rewrite (contains_single_links pivot hp) by assumption.
  unfold abbreviated_headers. cbn [existsb].
  rewrite !contains_single_header by (assumption || reflexivity).
  reflexivity.
Qed.

Lemma drop_unrelated_headers :
  map (drop_unrelated pivot)
    (abbreviated_headers original_uri tm_self tg_uri) =
  abbreviated_headers original_uri tm_self tg_uri.
Proof.
  pose proof plain_cdxj_uri as Hcd.
  apply clean_links_inv in clean as (H1 & H2 & H3 & H4 & H5 & H6).
  unfold abbreviated_headers. cbn [map].
  now rewrite !drop_unrelated_header by (assumption || reflexivity).
Qed.

Lemma keep_headers :
  filter (fun l => l <> [])
    (abbreviated_headers original_uri tm_self tg_uri) =
  abbreviated_headers original_uri tm_self tg_uri.
Proof.
  unfold abbreviated_headers.
  now rewrite !filter_cons_True by apply header_not_empty.
Qed.

Lemma find_pivot_headers (idx : nat) (rest : list (list N)) :
  find_pivot pivot idx
    (abbreviated_headers original_uri tm_self tg_uri ++ rest) =
  find_pivot pivot (idx + 4) rest.
Proof.
  pose proof plain_cdxj_uri as Hcd.
  apply clean_links_inv in clean as (H1 & H2 & H3 & H4 & H5 & H6).
  unfold abbreviated_headers. cbn [app find_pivot].
  rewrite !is_memento_header by (assumption || reflexivity).
  cbn [andb]. f_equal. lia.
Qed.

(** The lines up to the pivot: the last of them is marked [prev]. *)
Lemma before_pivot (n : nat) (A : list (list N * list N * list N)) :
  forallb (clean_capture pivot) A = true ->
  pivot_positions pivot 0 A = [] ->
  (length A < n)%nat ->
  exists U u,
    abbreviated_headers original_uri tm_self tg_uri ++ full_links hp n 0 A =
      U ++ [u] /\
    length U = (3 + length A)%nat /\
    filter (fun l => l <> [])
      (map (drop_unrelated pivot)
         (U ++ [replace (litq "memento'") (litq "prev memento'") u])) =
    abbreviated_headers original_uri tm_self tg_uri ++
    kept_links hp n (length A) 0 A.
Proof.
  intros Hc Hp Hn.
  pose proof drop_unrelated_headers as Hd.
  pose proof keep_headers as Hk.
  pose proof (clean_links_inv _ _ _ _ _ clean) as (H1 & H2 & H3 & H4 & H5 & H6).
  destruct A as [|a A' _] using rev_ind.
  - exists [header_link original_uri (litq "original',");
            header_link tm_self
              (litq "timemap'; type='application/link-format',");
            header_link
              (replace (lit "/timemap/link/") (lit "/timemap/cdxj/") tm_self)
              (litq "timemap'; type='application/cdxj+ors',")],
           (header_link tg_uri (litq "timegate',")).
    split; [reflexivity|]. split; [reflexivity|].
    rewrite (replace_absent _ _ (header_link tg_uri _)).
    2:{ change (litq "memento'") with (lit "memento" ++ [DQ]).
        now rewrite contains_memento_header. }
    cbn [full_links kept_links]. rewrite app_nil_r.
    change ([_; _; _] ++ [_])
      with (abbreviated_headers original_uri tm_self tg_uri).
    now rewrite Hd, Hk.
  - destruct a as [[d u] r].
    rewrite forallb_app in Hc. apply andb_true_iff in Hc as [Hc Ha].
    cbn [forallb] in Ha. rewrite andb_true_r in Ha.
    rewrite pivot_positions_app in Hp. apply app_eq_nil in Hp as [Hp Hpa].
    cbn [pivot_positions] in Hpa. rewrite app_nil_r in Hpa.
    assert (Hdp : d <> pivot).
    { intros ->. rewrite bool_decide_eq_true_2 in Hpa by reflexivity.
      discriminate. }
    rewrite length_app in Hn |- *. simpl length in Hn |- *.
    simpl Nat.add in Hpa.
    exists (abbreviated_headers original_uri tm_self tg_uri ++
            full_links hp n 0 A'),
      (memento_link hp d u (first_last_str n (length A')) r ++
       comma n (length A')).
    split; [|split].
    + rewrite full_links_app. cbn [full_links]. now rewrite app_assoc.
    + rewrite length_app, full_links_length. simpl. lia.
    + rewrite !map_app, !filter_app. rewrite Hd, Hk.
      rewrite (kept_region pivot hp n (length A' + 1))
        by (assumption || lia).
      cbn [map]. rewrite (kept_prev pivot hp n (length A' + 1))
        by (assumption || lia).
      rewrite filter_cons_True by apply link_not_empty.
      rewrite kept_links_app. cbn [kept_links Nat.add].
      unfold abbreviated_rel.
      assert ((length A' =? length A' + 1)%nat = false) as ->
        by (apply Nat.eqb_neq; lia).
      assert ((S (length A') =? length A' + 1)%nat = true) as ->
        by (apply Nat.eqb_eq; lia).
      now rewrite <- !app_assoc.
Qed.

(** The lines after the pivot: the first of them is marked [next]. *)
Lemma after_pivot (n p : nat) (B : list (list N * list N * list N)) :
  forallb (clean_capture pivot) B = true ->
  pivot_positions pivot (S p) B = [] ->
  (S p + length B <= n)%nat ->
  exists v V,
    full_links hp n (S p) B ++ [[]] = v :: V /\
    filter (fun l => l <> [])
      (map (drop_unrelated pivot)
         (replace (litq "memento'") (litq "next memento'") v :: V)) =
    kept_links hp n p (S p) B.
Proof.
  intros Hc Hp Hn.
  pose proof (clean_links_inv _ _ _ _ _ clean) as (H1 & H2 & H3 & H4 & H5 & H6).
  destruct B as [|[[d u] r] B'].
  - exists [], []. split; [reflexivity|].
    rewrite replace_nil by discriminate. cbn [map].
    rewrite drop_unrelated_nil.
    now rewrite filter_cons_False by (intros H; now apply H).
  - cbn [forallb] in Hc. apply andb_true_iff in Hc as [Hc Hb].
    cbn [pivot_positions] in Hp.
    assert (Hdp : d <> pivot).
    { intros ->. rewrite bool_decide_eq_true_2 in Hp by reflexivity.
      discriminate. }
    rewrite bool_decide_eq_false_2 in Hp by assumption. simpl in Hp.
    simpl length in Hn.
    exists (memento_link hp d u (first_last_str n (S p)) r ++ comma n (S p)),
      (full_links hp n (S (S p)) B' ++ [[]]).
    split; [reflexivity|].
    cbn [map]. rewrite (kept_next pivot hp n p) by (assumption || lia).
    rewrite filter_cons_True by apply link_not_empty.
    rewrite map_app, filter_app. cbn [map]. rewrite drop_unrelated_nil.
    rewrite (filter_cons_False _ []) by (intros H; now apply H).
    rewrite filter_nil, app_nil_r.
    rewrite (kept_region pivot hp n p) by (assumption || lia).
    cbn [kept_links]. unfold abbreviated_rel.
    assert ((S p =? p)%nat = false) as -> by (apply Nat.eqb_neq; lia).
    assert ((S (S p) =? p)%nat = false) as -> by (apply Nat.eqb_neq; lia).
    now rewrite Nat.eqb_refl.
Qed.

End Lines.

(** *** The abbreviated TimeMap *)

Lemma strip_flat (s : list N) (c d : N) :
  head s = Some c -> last s = Some d ->
  is_space c = false -> is_space d = false ->
  strip (s ++ [32%N]) = s.
Proof.
  intros Hh Hl Hc Hd.
  destruct s as [|c' s']; [discriminate|]. injection Hh as ->.
  apply last_Some in Hl as [l' Hl].
  unfold strip, rstrip.
  change ((c :: s') ++ [32%N]) with (c :: s' ++ [32%N]).
  rewrite (lstrip_keeps c) by assumption.
  change (c :: s' ++ [32%N]) with ((c :: s') ++ [32%N]).
  rewrite Hl, !rev_app_distr.
  change (rev [32%N] ++ rev [d] ++ rev l') with (32%N :: d :: rev l').
  change (lstrip (32%N :: d :: rev l')) with (lstrip (d :: rev l')).
  rewrite (lstrip_keeps d) by assumption.
  change (d :: rev l') with ([d] ++ rev l').
  now rewrite rev_app_distr, rev_involutive.
Qed.

Lemma join_snoc_empty (sep : list N) (l : list (list N)) :
  l <> [] -> join sep (l ++ [[]]) = join sep l ++ sep.
Proof.
  induction l as [|x l IH]; intros Hl; [contradiction|].
  destruct l as [|y l].
  - simpl. now rewrite app_nil_r.
  - change ((x :: y :: l) ++ [[]]) with (x :: (y :: l) ++ [[]]).
    change (join sep (x :: (y :: l) ++ [[]]))
      with (x ++ sep ++ join sep ((y :: l) ++ [[]])).
    rewrite IH by discriminate. rewrite join_cons.
    now rewrite <- !app_assoc.
Qed.

Lemma last_join (l : list (list N)) (x : list N) (d : N) :
  last x = Some d -> last (join [SPACE] (l ++ [x])) = Some d.
Proof.
  intros Hx. induction l as [|y l IH]; [assumption|].
  destruct l as [|z l].
  - simpl. rewrite last_app. simpl. rewrite last_cons, Hx. reflexivity.
  - change ((y :: z :: l) ++ [x]) with (y :: (z :: l) ++ [x]).
    change (join [SPACE] (y :: (z :: l) ++ [x]))
      with (y ++ [SPACE] ++ join [SPACE] ((z :: l) ++ [x])).
    rewrite !last_app. now rewrite IH.
Qed.

Lemma last_link (hp datetime uri rel rfc : list N) :
  last (memento_link hp datetime uri rel rfc ++ []) = Some DQ.
Proof.
  rewrite app_nil_r.
  replace (memento_link hp datetime uri rel rfc)
    with ((lit "<" ++ hp ++ lit "memento/" ++ datetime ++ lit "/" ++ uri ++
           lit ">; rel=" ++ DQ :: rel ++ lit "memento" ++ DQ ::
           lit "; datetime=" ++ DQ :: rfc) ++ [DQ]) by text_eq.
  apply last_snoc.
Qed.

(** X1.  On a TimeMap of plain texts whose pivot is the timestamp of the capture
    at position [p] alone, the abbreviated TimeMap is one line: the four
    links of the TimeMap and, of the captures, the first, the last, the
    pivot, the one before it marked [prev] and the one after it marked
    [next]. *)
Theorem abbreviated_timemap_on_plain_texts (E : env) (urir pivot : list N)
    (lines : list (list N)) (captures : list (list N * list N * list N))
    (p : nat) :
  get_cdxj_lines_with_urir (surt E) (content E) urir = Ok lines ->
  captures_of E lines = Ok captures ->
  pivot_positions pivot 0 captures = [p] ->
  forallb (clean_capture pivot) captures = true ->
  clean_links pivot (lit "http://" ++ unsurt E (surt E urir))
    (proxied E (timemap_link_uri E urir)) (proxied E (timegate_uri E urir))
    (host_and_port_of E (timemap_link_uri E urir)) = true ->
  get_link_header_abbreviated_timemap E urir pivot =
  Ok (abbreviated_expected (lit "http://" ++ unsurt E (surt E urir))
        (proxied E (timemap_link_uri E urir))
        (proxied E (timegate_uri E urir))
        (host_and_port_of E (timemap_link_uri E urir)) p captures).
Proof.
  intros Hl Hc Hp Hclean Hlinks.
  unfold get_link_header_abbreviated_timemap.
  rewrite Hl. unfold mbind, res_bind, bind.
  rewrite (generate_link_timemap_lines E lines captures _ _ _ Hc).
  set (orig := lit "http://" ++ unsurt E (surt E urir)) in *.
  set (ts := proxied E (timemap_link_uri E urir)) in *.
  set (tg := proxied E (timegate_uri E urir)) in *.
  set (hp := host_and_port_of E (timemap_link_uri E urir)) in *.
  clearbody orig ts tg hp. clear Hl Hc lines.
  destruct (pivot_positions_split _ _ _ _ Hp)
    as (A & u & r & B & -> & Hlen & HA & HB).
  simpl in Hlen. subst p. clear Hp.
  rewrite forallb_app in Hclean. apply andb_true_iff in Hclean as [HcA Hcc].
  cbn [forallb] in Hcc. apply andb_true_iff in Hcc as [Hcc HcB].
  pose proof (clean_capture_inv _ _ _ _ Hcc)
    as (Hdig & Hne & _ & _ & _ & _ & _ & _ & _ & _).
  pose proof (clean_links_inv _ _ _ _ _ Hlinks)
    as (H1 & H2 & H3 & H4 & H5 & H6).
  assert (Hall : forallb (clean_capture pivot) (A ++ (pivot, u, r) :: B) = true).
  { rewrite forallb_app. cbn [forallb]. now rewrite HcA, Hcc, HcB. }
  rewrite replace_join by (reflexivity || discriminate).
  rewrite (relinked_lines pivot) by (assumption || now destruct A).
  rewrite contains_join by (reflexivity || discriminate).
  set (n := length (A ++ (pivot, u, r) :: B)).
  assert (Hn : n = (length A + 1 + length B)%nat)
    by (unfold n; rewrite length_app; simpl; lia).
  unfold abbreviated_expected.
  change [header_link orig (litq "original',");
          header_link ts (litq "timemap'; type='application/link-format',");
          header_link
            (replace (lit "/timemap/link/") (lit "/timemap/cdxj/") ts)
            (litq "timemap'; type='application/cdxj+ors',");
          header_link tg (litq "timegate',")]
    with (abbreviated_headers orig ts tg).
  fold n.
  destruct (decide (n = 1%nat)) as [Hone|Hmany].
  - (* one capture *)
    assert (A = []) as -> by (destruct A; [reflexivity|simpl in Hn; lia]).
    assert (B = []) as -> by (destruct B; [reflexivity|simpl in Hn; lia]).
    unfold n. cbn [app length full_links].
    rewrite !existsb_app. cbn [existsb].
    rewrite (contains_single_link pivot) by assumption.
    change (bool_decide (first_last_str 1 0 = lit "first last ")) with true.
    rewrite orb_true_l, orb_true_r.
    rewrite replace_char_join.
    2:{ pose proof (lacks_newline_lines pivot orig ts tg hp Hlinks
                      [(pivot, u, r)]) as Hnl.
        cbn [length full_links] in Hnl.
        apply Hnl. cbn [forallb]. now rewrite Hcc. }
    change (abbreviated_headers orig ts tg ++
            [memento_link hp pivot u (first_last_str 1 0) r ++ comma 1 0; []])
      with ((abbreviated_headers orig ts tg ++
             [memento_link hp pivot u (first_last_str 1 0) r ++ []]) ++
            [[]]).
    rewrite join_snoc_empty by (unfold abbreviated_headers; discriminate).
    rewrite (strip_flat _ 60%N DQ);
      [reflexivity|reflexivity|apply last_join, last_link
      |reflexivity|reflexivity].
  - (* more than one *)
    unfold n at 1 2.
    rewrite (contains_single_lines pivot) by (assumption || fold n; lia).
    rewrite split_join
      by ((unfold abbreviated_headers; discriminate) ||
          now apply (lacks_newline_lines pivot)).
    fold n.
    rewrite (find_pivot_headers pivot orig ts tg hp Hlinks).
    rewrite full_links_app. cbn [full_links Nat.add].
    rewrite <- (app_assoc (full_links hp n 0 A)).
    rewrite (find_pivot_links pivot hp n) by assumption.
    cbn [app]. rewrite (find_pivot_here pivot hp n) by assumption.
    destruct (before_pivot pivot orig ts tg hp Hdig Hne Hlinks n A HcA HA
                ltac:(lia))
      as (U & u0 & HU & HlenU & Hk1).
    destruct (after_pivot pivot orig ts tg hp Hdig Hne Hlinks n (length A) B
                HcB HB ltac:(lia)) as (v & V & HV & Hk2).
    rewrite (app_assoc (abbreviated_headers orig ts tg)), HU, HV.
    rewrite <- (app_assoc U). cbn [app].
    replace (4 + length A)%nat with (S (length U)) by lia.
    rewrite mark_neighbours_middle.
    f_equal.
    rewrite (cons_middle (replace (litq "memento'") (litq "prev memento'") u0)
               U), app_assoc.
    rewrite map_app, filter_app, Hk1.
    rewrite map_cons, (kept_pivot pivot hp n) by assumption.
    rewrite filter_cons_True by apply link_not_empty.
    rewrite Hk2.
    rewrite kept_links_app. cbn [kept_links Nat.add].
    unfold abbreviated_rel. rewrite Nat.eqb_refl.
    now rewrite <- !app_assoc.
Qed.

Lemma abbreviated_timemap_on_plain_texts_witness :
  (get_cdxj_lines_with_urir (surt (SampleArchive.captures_archive 7))
     (content (SampleArchive.captures_archive 7)) (lit "example.com/") =
     Ok (map SampleArchive.capture_line (seq 1 7)) /\
   captures_of (SampleArchive.captures_archive 7)
     (map SampleArchive.capture_line (seq 1 7)) =
     Ok (SampleArchive.sample_captures 7) /\
   pivot_positions (lit "20190101000004") 0 (SampleArchive.sample_captures 7) =
     [3%nat] /\
   forallb (clean_capture (lit "20190101000004"))
     (SampleArchive.sample_captures 7) = true /\
   clean_links (lit "20190101000004") (lit "http://example.com/")
     (lit "http://localhost:5000/timemap/link/example.com/")
     (lit "http://localhost:5000/timegate/example.com/")
     (lit "http://localhost:5000/") = true) /\
  get_link_header_abbreviated_timemap (SampleArchive.captures_archive 7)
    (lit "example.com/") (lit "20190101000004") =
  Ok (SampleArchive.sample_expected 7 3).
Proof.
  split.
  - repeat split; vm_compute; reflexivity.
  - apply (abbreviated_timemap_on_plain_texts
             (SampleArchive.captures_archive 7) (lit "example.com/")
             (lit "20190101000004")
             (map SampleArchive.capture_line (seq 1 7))
             (SampleArchive.sample_captures 7) 3);
      vm_compute; reflexivity.
Defined.

End Abbreviation.

(** ** More on the index: what the searches do on any input *)

Module IndexExtras.
Import Index IndexShape AdjacencyScan Samples.

(** *** [get_cdxj_line_closest_to] *)

Lemma closest_loop_member (t : Z) (cdxj_lines : list (list N)) :
  forall (smallest_diff : option Z) (best_line r : option (list N)),
    (smallest_diff = None /\ best_line = None \/
     exists m b, smallest_diff = Some m /\ best_line = Some b) ->
    closest_loop t smallest_diff best_line cdxj_lines = Ok r ->
    match r with
    | Some best => best ∈ cdxj_lines \/ best_line = Some best
    | None => cdxj_lines = [] /\ best_line = None
    end.
Proof.
  induction cdxj_lines as [|line rest IH]; intros sd bl r Hinv H.
  - simpl in H. injection H as <-. destruct bl; auto.
  - cbn [closest_loop] in H. unfold mbind, res_bind, bind in H.
    destruct (line_datetime line) as [dt|]; [|discriminate].
    destruct Hinv as [[-> ->]|(m & b & -> & ->)].
    + apply IH in H; [|right; eauto].
      destruct r as [best|].
      * destruct H as [H|[= <-]]; left; [now right|now left].
      * now destruct H.
    + destruct (Z.abs (dt - t) <? m)%Z.
      * apply IH in H; [|right; eauto].
        destruct r as [best|].
        -- destruct H as [H|[= <-]]; left; [now right|now left].
        -- now destruct H.
      * apply IH in H; [|right; eauto].
        destruct r as [best|].
        -- destruct H as [H|H]; [left; now right|now right].
        -- now destruct H.
Qed.

(** X4.  The closest capture is one of the lines given; there is none only when
    no line is given. *)
Theorem closest_line_is_a_line (datetime_target : list N)
    (cdxj_lines : list (list N)) (r : option (list N)) :
  get_cdxj_line_closest_to datetime_target cdxj_lines = Ok r ->
  match r with
  | Some best => best ∈ cdxj_lines
  | None => cdxj_lines = []
  end.
Proof.
  unfold get_cdxj_line_closest_to, mbind, res_bind, bind.
  destruct (int datetime_target) as [t|]; [|discriminate].
  intros H. apply closest_loop_member in H; [|now left].
  destruct r as [best|].
  - now destruct H as [H|H].
  - now destruct H.
Qed.

Lemma closest_line_is_a_line_witness :
  get_cdxj_line_closest_to (lit "25") three_captures =
    Ok (Some (lit "k 20 {}")) /\
  lit "k 20 {}" ∈ three_captures.
Proof.
  split; [vm_compute; reflexivity|].
  exact (closest_line_is_a_line (lit "25") three_captures
           (Some (lit "k 20 {}")) eq_refl).
Defined.

(** *** [binary_search] *)

Lemma objectify_lengths (only_uri : bool) (lines : list (list N)) :
  forall o,
    objectify_cdxj_data lines only_uri = Ok o ->
    (length (metadata o) + length (data o) <= length lines)%nat.
Proof.
  induction lines as [|line rest IH]; intros o H.
  - injection H as <-. simpl. lia.
  - cbn [objectify_cdxj_data] in H.
    destruct (length (strip line) =? 0)%nat.
    { injection H as <-. simpl. lia. }
    destruct line as [|c line']; [discriminate|].
    unfold mbind, res_bind, bind in H.
    destruct (negb (c =? BANG)%N).
    + destruct (split SPACE (Some 2%nat) (c :: line'))
        as [|f0 [|f1 [|f2 [|? ?]]]]; try discriminate.
      destruct (objectify_cdxj_data rest only_uri) as [o'|]; [|discriminate].
      injection H as <-. specialize (IH o' eq_refl). simpl. lia.
    + destruct (objectify_cdxj_data rest only_uri) as [o'|]; [|discriminate].
      injection H as <-. specialize (IH o' eq_refl). simpl. lia.
Qed.

Lemma index_in_range {A} (l : list A) (i : nat) :
  (i < length l)%nat -> exists x, l !! i = Some x /\ index l (Z.of_nat i) = Ok x.
Proof.
  intros Hi. destruct (lookup_lt_is_Some_2 l i Hi) as [x Hx].
  exists x. split; [assumption|]. now apply index_lookup.
Qed.

(** X5.  Asked for the index or for the line, [binary_search] finds the same
    thing: the line returned is the one at the index returned, a miss is a
    miss in both, and so is an error. *)
Theorem binary_search_modes_agree (haystack : list (list N))
    (needle : list N) (only_uri : bool) :
  match binary_search haystack needle true only_uri with
  | Ok (Some (FoundIndex i)) =>
      exists line,
        haystack !! i = Some line /\
        binary_search haystack needle false only_uri =
          Ok (Some (FoundLine line))
  | Ok (Some (FoundLine _)) => False
  | Ok None => binary_search haystack needle false only_uri = Ok None
  | Raise e => binary_search haystack needle false only_uri = Raise e
  end.
Proof.
  unfold binary_search, mbind, res_bind, bind.
  destruct (objectify_cdxj_data haystack only_uri) as [o|] eqn:Ho;
    [|reflexivity].
  pose proof (objectify_lengths _ _ _ Ho) as Hlen.
  set (pos := bisect_left (data o) needle 0 (length (data o))).
  destruct (negb (pos =? length (data o))%nat &&
            bool_decide (data o !! pos = Some needle)) eqn:Hc;
    [|reflexivity].
  apply andb_true_iff in Hc as [_ Hc]. apply bool_decide_eq_true in Hc.
  apply lookup_lt_Some in Hc.
  destruct (index_in_range haystack (pos + length (metadata o)))
    as (line & Hl & Hi); [lia|].
  exists line. split; [assumption|]. now rewrite Hi.
Qed.

Lemma objectify_stops_at_blank (only_uri : bool) (b : list N)
    (post : list (list N)) :
  is_blank b = true ->
  forall pre,
    objectify_cdxj_data (pre ++ b :: post) only_uri =
    objectify_cdxj_data pre only_uri.
Proof.
  intros Hb. induction pre as [|line pre IH].
  - simpl app. cbn [objectify_cdxj_data]. unfold is_blank in Hb.
    now rewrite Hb.
  - simpl app. cbn [objectify_cdxj_data]. now rewrite IH.
Qed.

Lemma index_app_l {A} (l1 l2 : list A) (i : nat) :
  (i < length l1)%nat ->
  index (l1 ++ l2) (Z.of_nat i) = index l1 (Z.of_nat i).
Proof.
  intros Hi. unfold index.
  assert ((Z.of_nat i <? 0)%Z = false) as -> by (apply Z.ltb_ge; lia).
  cbv zeta.
  assert ((Z.of_nat i <? 0)%Z = false) as -> by (apply Z.ltb_ge; lia).
  rewrite Nat2Z.id. now rewrite lookup_app_l.
Qed.

(** X6.  The search does not see the first blank line or anything after it: the
    answer is the one for the lines before. *)
Theorem binary_search_stops_at_blank (pre : list (list N)) (b : list N)
    (post : list (list N)) (needle : list N) (returnIndex only_uri : bool) :
  is_blank b = true ->
  binary_search (pre ++ b :: post) needle returnIndex only_uri =
  binary_search pre needle returnIndex only_uri.
Proof.
  intros Hb. unfold binary_search, mbind, res_bind, bind.
  rewrite objectify_stops_at_blank by assumption.
  destruct (objectify_cdxj_data pre only_uri) as [o|] eqn:Ho; [|reflexivity].
  pose proof (objectify_lengths _ _ _ Ho) as Hlen.
  set (pos := bisect_left (data o) needle 0 (length (data o))).
  destruct (negb (pos =? length (data o))%nat &&
            bool_decide (data o !! pos = Some needle)) eqn:Hc;
    [|reflexivity].
  destruct returnIndex; [reflexivity|].
  apply andb_true_iff in Hc as [_ Hc]. apply bool_decide_eq_true in Hc.
  apply lookup_lt_Some in Hc.
  rewrite index_app_l by lia. reflexivity.
Qed.

Lemma binary_search_stops_at_blank_witness :
  is_blank (lit "  ") = true /\
  binary_search ([lit "com,a)/ 2019 {}"] ++ lit "  " :: [lit "com,b)/ 2019 {}"])
    (lit "com,b)/ 2019") false false =
  binary_search [lit "com,a)/ 2019 {}"] (lit "com,b)/ 2019") false false.
Proof.
  split; [reflexivity|].
  apply (binary_search_stops_at_blank [lit "com,a)/ 2019 {}"] (lit "  ")
           [lit "com,b)/ 2019 {}"] (lit "com,b)/ 2019") false false).
  reflexivity.
Defined.

Lemma objectify_malformed (only_uri : bool) (bad : list N)
    (post : list (list N)) :
  is_blank bad = false -> is_metadata_line bad = false ->
  length (split SPACE (Some 2%nat) bad) <> 3%nat ->
  forall pre,
    Forall (fun l => is_metadata_line l = true \/ is_data_line l = true) pre ->
    objectify_cdxj_data (pre ++ bad :: post) only_uri = Raise ValueError.
Proof.
  intros Hb Hm Hs. induction pre as [|line pre IH]; intros Hpre.
  - simpl app. cbn [objectify_cdxj_data]. unfold is_blank in Hb. rewrite Hb.
    destruct bad as [|c bad']; [discriminate|].
    cbn [is_metadata_line] in Hm. rewrite Hm. cbn [negb].
    destruct (split SPACE (Some 2%nat) (c :: bad'))
      as [|f0 [|f1 [|f2 [|? ?]]]]; try reflexivity.
    now contradiction Hs.
  - apply Forall_cons in Hpre as [Hline Hpre].
    simpl app. cbn [objectify_cdxj_data].
    unfold mbind, res_bind, bind. rewrite (IH Hpre).
    destruct Hline as [Hl|Hl].
    + rewrite (metadata_line_not_blank line Hl : (_ =? _)%nat = false).
      destruct line as [|c line']; [discriminate|].
      cbn [is_metadata_line] in Hl. now rewrite Hl.
    + unfold is_data_line in Hl.
      apply andb_true_iff in Hl as [Hl H3].
      apply andb_true_iff in Hl as [Hl1 Hl2].
      apply negb_true_iff in Hl1, Hl2.
      rewrite (Hl1 : (_ =? _)%nat = false).
      destruct line as [|c line']; [discriminate|].
      cbn [is_metadata_line] in Hl2. rewrite Hl2. cbn [negb].
      destruct (split SPACE (Some 2%nat) (c :: line'))
        as [|f0 [|f1 [|f2 [|? ?]]]]; try discriminate.
      reflexivity.
Qed.

(** X7.  A line that is neither blank nor metadata and has fewer than three
    fields, anywhere before the first blank line, makes every search raise
    [ValueError], whatever is searched. *)
Theorem malformed_line_fails_every_search (pre : list (list N))
    (bad : list N) (post : list (list N)) (needle : list N)
    (returnIndex only_uri : bool) :
  Forall (fun l => is_metadata_line l = true \/ is_data_line l = true) pre ->
  is_blank bad = false -> is_metadata_line bad = false ->
  length (split SPACE (Some 2%nat) bad) <> 3%nat ->
  binary_search (pre ++ bad :: post) needle returnIndex only_uri =
  Raise ValueError.
Proof.
  intros Hpre Hb Hm Hs. unfold binary_search, mbind, res_bind, bind.
  now rewrite objectify_malformed.
Qed.

Lemma malformed_line_fails_every_search_witness :
  (Forall (fun l => is_metadata_line l = true \/ is_data_line l = true)
     [lit "com,a)/ 2019 {}"] /\
   is_blank (lit "com,b)/") = false /\
   is_metadata_line (lit "com,b)/") = false /\
   length (split SPACE (Some 2%nat) (lit "com,b)/")) <> 3%nat) /\
  binary_search ([lit "com,a)/ 2019 {}"] ++ lit "com,b)/" :: [])
    (lit "com,a)/ 2019") false false = Raise ValueError.
Proof.
  assert (H1 : Forall (fun l => is_metadata_line l = true \/
                               is_data_line l = true)
                 [lit "com,a)/ 2019 {}"])
    by (repeat constructor; right; reflexivity).
  assert (H2 : length (split SPACE (Some 2%nat) (lit "com,b)/")) <> 3%nat)
    by (vm_compute; discriminate).
  split; [repeat split; try reflexivity; assumption|].
  exact (malformed_line_fails_every_search [lit "com,a)/ 2019 {}"]
           (lit "com,b)/") [] (lit "com,a)/ 2019") false false H1
           eq_refl eq_refl H2).
Defined.

(** *** [get_cdxj_lines_with_urir] on an index that need not be sorted *)

(** X8.  Whatever the order of the data lines, the scan returns nothing, or each
    line of the file whose first field is the key, once. *)
Theorem scan_all_or_nothing (surt : list N -> list N) (content urir : list N)
    (metas datas tail : list (list N)) (ls : list (list N)) :
  split NEWLINE None content = metas ++ datas ++ tail ->
  index_shape metas datas tail = true ->
  get_cdxj_lines_with_urir surt content urir = Ok ls ->
  ls = [] \/
  ls ≡ₚ filter (fun l => first_field l = surt urir) (metas ++ datas ++ tail).
Proof.
  intros Hlines Hshape.
  unfold get_cdxj_lines_with_urir, get_cdxj_line_binarySearch.
  rewrite Hlines. rewrite (binary_search_shape _ _ _ _ _ _ Hshape).
  cbv zeta.
  set (pos := bisect_left (map (search_string true) datas) (surt urir) 0
                (length (map (search_string true) datas))).
  destruct (datas !! pos) as [l|] eqn:Hl;
    [|intros [= <-]; now left].
  destruct (bool_decide (search_string true l = surt urir)) eqn:Hk;
    [|intros [= <-]; now left].
  apply bool_decide_eq_true in Hk.
  apply index_shape_inv in Hshape as (_ & Hdatas & _).
  assert (Hdl : is_data_line l = true).
  { rewrite Forall_forall in Hdatas. apply Hdatas.
    now apply list_elem_of_lookup_2 in Hl. }
  assert (Hf : first_field l = surt urir).
  { destruct (data_line_search_strings l Hdl) as [Heq _]. congruence. }
  set (lines := metas ++ datas ++ tail).
  assert (Hi : lines !! (pos + length metas)%nat = Some l).
  { unfold lines. rewrite lookup_app_r by lia.
    replace (pos + length metas - length metas)%nat with pos by lia.
    now apply lookup_app_l_Some. }
  unfold mbind, res_bind, bind.
  rewrite (index_lookup _ _ _ Hi).
  intros [= <-]. right.
  rewrite <- (take_drop_middle lines _ l Hi) at 3.
  rewrite filter_app, filter_cons_True by assumption.
  rewrite <- Permutation_middle. cbn [app]. constructor.
  apply Permutation_app; [|reflexivity].
  apply filter_Permutation. symmetry. apply Permutation_rev.
Qed.

Lemma scan_all_or_nothing_witness :
  let lines := split NEWLINE None sample_content in
  (split NEWLINE None sample_content =
     take 2 lines ++ take 4 (drop 2 lines) ++ drop 6 lines /\
   index_shape (take 2 lines) (take 4 (drop 2 lines)) (drop 6 lines) = true /\
   get_cdxj_lines_with_urir (fun u => u) sample_content (lit "com,b)/") =
     Ok [lit "com,b)/ 20190101000000 {}"; lit "com,b)/ 20200101000000 {}"]) /\
  ([lit "com,b)/ 20190101000000 {}"; lit "com,b)/ 20200101000000 {}"] = [] \/
   [lit "com,b)/ 20190101000000 {}"; lit "com,b)/ 20200101000000 {}"] ≡ₚ
   filter (fun l => first_field l = (fun u => u) (lit "com,b)/"))
     (take 2 lines ++ take 4 (drop 2 lines) ++ drop 6 lines)).
Proof.
  intros lines.
  assert (H1 : split NEWLINE None sample_content =
               take 2 lines ++ take 4 (drop 2 lines) ++ drop 6 lines)
    by (vm_compute; reflexivity).
  assert (H2 : index_shape (take 2 lines) (take 4 (drop 2 lines))
                 (drop 6 lines) = true) by (vm_compute; reflexivity).
  assert (H3 : get_cdxj_lines_with_urir (fun u => u) sample_content
                 (lit "com,b)/") =
               Ok [lit "com,b)/ 20190101000000 {}";
                   lit "com,b)/ 20200101000000 {}"])
    by (vm_compute; reflexivity).
  split; [auto|].
  exact (scan_all_or_nothing (fun u => u) sample_content (lit "com,b)/")
           _ _ _ _ H1 H2 H3).
Defined.

End IndexExtras.
(** ** More on the replay: what a reconstruction needs, replayed redirects *)

Module AssembleExtras.
Import Index Env TimeMap Chunked Replay ReplayFacts.

Section WithEnv.

Variable E : env.

(** A slash, fourteen decimal digits and a slash at the start of a text. *)
Lemma d14_at_start (ds post : list N) :
  length ds = 14%nat -> forallb (isdecimal E) ds = true ->
  (14 <=? length (ds ++ 47%N :: post))%nat &&
  forallb (isdecimal E) (take 14 (ds ++ 47%N :: post)) &&
  bool_decide ((ds ++ 47%N :: post) !! 14%nat = Some 47%N) = true.
Proof.
  intros Hl Hd.
  rewrite take_app_length' by (now symmetry). rewrite Hd.
  rewrite length_app, Hl. cbn [length andb].
  replace (14 <=? 14 + S (length post))%nat with true
    by (symmetry; apply Nat.leb_le; lia).
  apply bool_decide_eq_true. apply list_lookup_middle. now symmetry.
Qed.

(** [search_d14_end] finds the first slash, fourteen decimal digits and
    slash, and returns the position after them. *)
Lemma search_d14_end_spec (url : list N) :
  forall pos e, search_d14_end E pos url = Some e ->
  exists pre ds post,
    url = pre ++ 47%N :: ds ++ 47%N :: post /\
    length ds = 14%nat /\ forallb (isdecimal E) ds = true /\
    e = (pos + length pre + 16)%nat /\
    forall pre' ds' post',
      url = pre' ++ 47%N :: ds' ++ 47%N :: post' ->
      length ds' = 14%nat -> forallb (isdecimal E) ds' = true ->
      (length pre <= length pre')%nat.
Proof.
  induction url as [|c url IH]; intros pos e H; [discriminate|].
  cbn [search_d14_end] in H.
  destruct ((c =? 47)%N && (14 <=? length url)%nat &&
            forallb (isdecimal E) (take 14 url) &&
            bool_decide (url !! 14%nat = Some 47%N)) eqn:Hc.
  - injection H as <-.
    apply andb_true_iff in Hc as [Hc H4].
    apply andb_true_iff in Hc as [Hc H3].
    apply andb_true_iff in Hc as [H1 H2].
    apply N.eqb_eq in H1. apply Nat.leb_le in H2.
    apply bool_decide_eq_true in H4.
    exists [], (take 14 url), (drop 15 url).
    split; [|split; [|split; [|split]]].
    + cbn [app]. subst c. f_equal.
      rewrite <- (take_drop 14 url) at 1. f_equal.
      rewrite (drop_S url 47%N 14 H4). reflexivity.
    + rewrite length_take. lia.
    + assumption.
    + cbn [length]. lia.
    + intros. cbn [length]. lia.
  - apply IH in H as (pre & ds & post & -> & Hl & Hd & -> & Hmin).
    exists (c :: pre), ds, post.
    split; [reflexivity|]. split; [assumption|]. split; [assumption|].
    split; [cbn [length]; lia|].
    intros pre' ds' post' Hurl Hl' Hd'.
    destruct pre' as [|c' pre'].
    + cbn [app] in Hurl. injection Hurl as Hc' Hrest.
      rewrite Hrest, Hc', N.eqb_refl in Hc. cbn [andb] in Hc.
      rewrite <- !andb_assoc in Hc.
      rewrite andb_assoc, (d14_at_start ds' post' Hl' Hd') in Hc.
      discriminate.
    + cbn [app] in Hurl. injection Hurl as _ Hrest.
      specialize (Hmin pre' ds' post' Hrest Hl' Hd'). cbn [length]. lia.
Qed.

(** The injection of the script into a page leaves the status and, but for
    [Content-Length], the headers as they were. *)
Lemma inject_keeps (html : bool) (resp1 resp2 : response) :
  (if html then
     text ← decode (data resp1);
     set_data resp1
       (replace (lit "</html>") (ipwb_js_inject ++ lit "</html>") text)
   else Ok resp1) = Ok resp2 ->
  status resp2 = status resp1 /\
  forall k, same_key (lit "Content-Length") k = false ->
            headers_get (headers resp2) k = headers_get (headers resp1) k.
Proof.
  destruct html; [|now intros [= <-]].
  unfold set_data, mbind, res_bind, bind.
  destruct (decode (data resp1)) as [text|]; [|discriminate].
  unfold mbind, res_bind, bind.
  destruct (encode _); [|discriminate]. intros [= <-].
  split; [reflexivity|]. intros k Hk. cbn [headers].
  now apply headers_get_set_other.
Qed.

(** X13.  What a reconstruction that returns has found: a header blob of
    bytes, a [status_code] that is a string with more than white space in
    it, which is the status of the response, and a [mime_type] that is a
    string, a list or an object. *)
Theorem assemble_needs_text_status (json_object : gmap (list N) jval)
    (datetime payload : list N) (header : blob) (r : flask_return) :
  assemble E json_object datetime payload header = Ok r ->
  exists resp b c st mime,
    r = RespObj resp /\ header = BBytes b /\
    json_object !! lit "status_code" = Some (JStr (c :: st)) /\
    strip (c :: st) <> [] /\
    status resp = JStr (c :: st) /\
    json_object !! lit "mime_type" = Some mime /\
    match mime with
    | JStr _ | JArr _ | JObj _ => True
    | JInt _ | JBool _ | JNull | JFloat _ => False
    end.
Proof.
  intros Hrun. unfold assemble in Hrun.
  remember (match json_object !! lit "status_code" with
            | Some st => st
            | None => JInt 200
            end) as status0 eqn:Hs0.
  unfold_bind.
  destruct header as [b| |]; try discriminate.
  destruct (header_lines (BBytes b)) as [h_lines|]; [|discriminate].
  destruct (checked_status status0) eqn:Hck; [|discriminate].
  destruct (header_loop _ _ _ _) as [resp1|] eqn:Hloop; [|discriminate].
  apply header_loop_status in Hloop as Hst1.
  destruct (json_object !! lit "mime_type") as [mime|]; [|discriminate].
  destruct (mime_is_html mime) as [html|] eqn:Hm; [|discriminate].
  match type of Hrun with
  | context [if html then ?a else ?b] =>
      destruct (if html then a else b) as [resp2|] eqn:H2; [|discriminate]
  end.
  apply inject_keeps in H2 as [Hst2 _].
  destruct (digits14_to_rfc1123 E datetime) as [md|]; [|discriminate].
  destruct (status_is_redirect status0) as [is3|] eqn:H3; [|discriminate].
  assert (Hst : forall resp, r = RespObj resp -> status resp = status resp2).
  { intros resp ->.
    destruct is3;
      [destruct (headers_get _ (lit "Location"));
       [destruct (isUri _); [destruct (search_d14_end _ _ _)|]|]|];
      try discriminate; now injection Hrun as <-. }
  assert (Hr : exists resp, r = RespObj resp).
  { destruct is3;
      [destruct (headers_get _ (lit "Location"));
       [destruct (isUri _); [destruct (search_d14_end _ _ _)|]|]|];
      try discriminate; injection Hrun as <-; eauto. }
  destruct Hr as [resp ->]. specialize (Hst resp eq_refl).
  destruct status0 as [[|c st]| | | | | |]; try discriminate.
  cbn [checked_status] in Hck.
  destruct (str_eqb (strip (c :: st)) []) eqn:Hstrip; [discriminate|].
  apply bool_decide_eq_false in Hstrip.
  exists resp, b, c, st, mime.
  split; [reflexivity|]. split; [reflexivity|]. split.
  { destruct (json_object !! lit "status_code"); [now subst|discriminate]. }
  split; [exact Hstrip|]. split.
  { rewrite Hst, Hst2, Hst1. reflexivity. }
  split; [reflexivity|].
  destruct mime; try discriminate; exact I.
Qed.

(** X14.  A stored redirect is replayed inside the archive: when the status
    starts with [3], the response has a [Location]; one that is not an
    absolute [http] or [https] URI is the stored one, and an absolute one is
    the stored one behind the start of the request URL up to the end of its
    first segment of fourteen decimal digits between slashes. *)
Theorem replayed_redirect_location (json_object : gmap (list N) jval)
    (datetime payload : list N) (header : blob) (resp : response)
    (st : list N) :
  assemble E json_object datetime payload header = Ok (RespObj resp) ->
  status resp = JStr (51%N :: st) ->
  exists h_lines resp0 location,
    header_lines header = Ok h_lines /\
    header_loop E payload h_lines (Response E payload (JStr (51%N :: st))) =
      Ok resp0 /\
    headers_get (headers resp0) (lit "Location") = Some location /\
    if isUri location then
      exists pre ds post,
        request_url E = pre ++ 47%N :: ds ++ 47%N :: post /\
        length ds = 14%nat /\ forallb (isdecimal E) ds = true /\
        (forall pre' ds' post',
            request_url E = pre' ++ 47%N :: ds' ++ 47%N :: post' ->
            length ds' = 14%nat -> forallb (isdecimal E) ds' = true ->
            (length pre <= length pre')%nat) /\
        headers_get (headers resp) (lit "Location") =
          Some (pre ++ 47%N :: ds ++ 47%N :: location)
    else headers_get (headers resp) (lit "Location") = Some location.
Proof.
  intros Hrun Hst. unfold assemble in Hrun.
  remember (match json_object !! lit "status_code" with
            | Some st => st
            | None => JInt 200
            end) as status0 eqn:Hs0.
  clear Hs0. unfold_bind.
  destruct (header_lines header) as [h_lines|]; [|discriminate].
  destruct (checked_status status0) eqn:Hck; [|discriminate].
  destruct (header_loop _ _ _ _) as [resp1|] eqn:Hloop; [|discriminate].
  pose proof (header_loop_status _ _ _ _ _ Hloop) as Hs1.
  cbn [Response status] in Hs1.
  destruct (json_object !! lit "mime_type") as [mime|]; [|discriminate].
  destruct (mime_is_html mime) as [html|]; [|discriminate].
  match type of Hrun with
  | context [if html then ?a else ?b] =>
      destruct (if html then a else b) as [resp2|] eqn:H2; [|discriminate]
  end.
  apply inject_keeps in H2 as [Hs2 Hh2].
  specialize (Hh2 (lit "Location") eq_refl).
  destruct (digits14_to_rfc1123 E datetime) as [md|]; [|discriminate].
  destruct (status_is_redirect status0) as [is3|] eqn:H3; [|discriminate].
  set (r3 := match header with
             | BNone => set_header (set_header resp2 MEMENTO_DATETIME md)
                          MARKER (lit "InterPlanetary Wayback")
             | _ => set_header resp2 MEMENTO_DATETIME md
             end) in *.
  assert (Hr3 : status r3 = status resp2) by (subst r3; now destruct header).
  assert (Hloc : headers_get (headers r3) (lit "Location") =
                 headers_get (headers resp1) (lit "Location")).
  { rewrite <- Hh2. subst r3.
    destruct header; cbn [set_header headers];
      rewrite ?(headers_get_set_other _ (lit "Location") MARKER)
        by reflexivity;
      now rewrite (headers_get_set_other _ (lit "Location") MEMENTO_DATETIME)
        by reflexivity. }
  clearbody r3. rewrite Hloc in Hrun.
  assert (Hs : status resp = status r3).
  { destruct is3;
      [destruct (headers_get (headers resp1) (lit "Location"));
       [destruct (isUri _); [destruct (search_d14_end _ _ _)|]|]|];
      try discriminate; now injection Hrun as <-. }
  rewrite Hst, Hr3, Hs2, Hs1 in Hs.
  destruct status0 as [s0| | | | | |]; try discriminate.
  injection Hs as <-. cbn in H3. injection H3 as <-.
  destruct (headers_get (headers resp1) (lit "Location")) as [location|]
    eqn:Hl1; [|discriminate].
  exists h_lines, resp1, location.
  split; [reflexivity|]. split; [exact Hloop|]. split; [exact Hl1|].
  destruct (isUri location).
  - destruct (search_d14_end E 0 (request_url E)) as [e|] eqn:He;
      [|discriminate].
    apply search_d14_end_spec in He
      as (pre & ds & post & Hurl & Hl & Hd & -> & Hmin).
    exists pre, ds, post.
    split; [exact Hurl|]. split; [exact Hl|]. split; [exact Hd|].
    split; [exact Hmin|].
    injection Hrun as <-. cbn [set_header headers].
    rewrite headers_get_set_same. f_equal.
    rewrite Hurl.
    replace (pre ++ 47%N :: ds ++ 47%N :: post)
      with ((pre ++ 47%N :: ds ++ [47%N]) ++ post)
      by (rewrite <- !app_assoc; cbn [app]; now rewrite <- !app_assoc).
    rewrite take_app_length'.
    + rewrite <- !app_assoc. cbn [app]. now rewrite <- !app_assoc.
    + rewrite length_app. cbn [length]. rewrite length_app. cbn [length]. lia.
  - now injection Hrun as <-.
Qed.

End WithEnv.

Lemma assemble_needs_text_status_witness :
  exists r,
    assemble SampleArchive.archive
      SampleArchive.object_plain (lit "20190101000000")
      SampleArchive.payload_plain (BBytes SampleArchive.header_plain) = Ok r /\
    exists resp b c st mime,
      r = RespObj resp /\ BBytes SampleArchive.header_plain = BBytes b /\
      SampleArchive.object_plain !! lit "status_code" = Some (JStr (c :: st)) /\
      strip (c :: st) <> [] /\
      status resp = JStr (c :: st) /\
      SampleArchive.object_plain !! lit "mime_type" = Some mime /\
      match mime with
      | JStr _ | JArr _ | JObj _ => True
      | JInt _ | JBool _ | JNull | JFloat _ => False
      end.
Proof.
  eexists. split; [vm_compute; reflexivity|].
  apply (assemble_needs_text_status SampleArchive.archive
           SampleArchive.object_plain (lit "20190101000000")
           SampleArchive.payload_plain (BBytes SampleArchive.header_plain)).
  vm_compute. reflexivity.
Defined.

Lemma replayed_redirect_location_witness :
  let E := SampleArchive.archive in
  exists resp,
    (assemble E SampleArchive.object_moved (lit "20190101000000")
       SampleArchive.payload_plain (BBytes SampleArchive.header_moved) =
       Ok (RespObj resp) /\
     status resp = JStr (lit "301")) /\
    exists h_lines resp0 location,
      header_lines (BBytes SampleArchive.header_moved) = Ok h_lines /\
      header_loop E SampleArchive.payload_plain h_lines
        (Response E SampleArchive.payload_plain (JStr (lit "301"))) =
        Ok resp0 /\
      headers_get (headers resp0) (lit "Location") = Some location /\
      if isUri location then
        exists pre ds post,
          request_url E = pre ++ 47%N :: ds ++ 47%N :: post /\
          length ds = 14%nat /\ forallb (isdecimal E) ds = true /\
          (forall pre' ds' post',
              request_url E = pre' ++ 47%N :: ds' ++ 47%N :: post' ->
              length ds' = 14%nat -> forallb (isdecimal E) ds' = true ->
              (length pre <= length pre')%nat) /\
          headers_get (headers resp) (lit "Location") =
            Some (pre ++ 47%N :: ds ++ 47%N :: location)
      else headers_get (headers resp) (lit "Location") = Some location.
Proof.
  intros E. eexists. split; [split; vm_compute; reflexivity|].
  apply (replayed_redirect_location E SampleArchive.object_moved
           (lit "20190101000000") SampleArchive.payload_plain
           (BBytes SampleArchive.header_moved) _ (lit "01"));
    vm_compute; reflexivity.
Defined.

End AssembleExtras.

(** ** More on the replay: header lines, error pages *)

Module ReplayExtras.
Import Index Env TimeMap Chunked Replay IndexShape TextFacts IndexExtras.

(** *** The loop over the stored header lines *)

Lemma headers_set_elem (hs : list (list N * list N)) (k v : list N) :
  forall kv, kv ∈ headers_set hs k v -> kv = (k, v) \/ kv ∈ hs.
Proof.
  induction hs as [|[k0 v0] hs IH]; intros kv H.
  - apply list_elem_of_singleton in H. now left.
  - cbn [headers_set] in H. destruct (same_key k0 k).
    + apply elem_of_cons in H as [H|H]; [now left|].
      right. right. apply list_elem_of_In in H.
      apply List.filter_In in H as [H _]. now apply list_elem_of_In.
    + apply elem_of_cons in H as [H|H]; [right; subst; left|].
      destruct (IH _ H) as [?|?]; [now left|right; now right].
Qed.

(** X9.  Every header the loop adds goes by [Content-Type],
    [Content-Encoding] or [Location], or by a name that starts with
    [X-Archive-Orig-], or is the [Content-Length] written with a decoded
    body: the length of that body, when a line declares a chunked transfer
    encoding and the payload decodes. *)
Theorem header_loop_prefixes (E : env) (payload : list N)
    (h_lines : list (list N)) :
  forall resp resp',
    header_loop E payload h_lines resp = Ok resp' ->
    forall k v,
      (k, v) ∈ headers resp' ->
      (k, v) ∈ headers resp \/ passes_unprefixed k = true \/
      starts_with (lit "X-Archive-Orig-") k = true \/
      (k = lit "Content-Length" /\
       existsb (declares_chunked E) h_lines = true /\
       exists text b,
         extract_response_from_chunked_data payload = Ok text /\
         encode text = Ok b /\ v = decimal (N.of_nat (length b))).
Proof.
  induction h_lines as [|hLine rest IH]; intros resp resp' H k v Hkv.
  - injection H as <-. now left.
  - cbn [header_loop] in H. cbn [existsb]. unfold declares_chunked at 1.
    destruct (split COLON (Some 1%nat) hLine) as [|k0 [|v0 [|? ?]]];
      try discriminate.
    assert (Hkey : forall v1, (k, v) =
              ((if negb (passes_unprefixed k0)
                then lit "X-Archive-Orig-" ++ k0 else k0), v1) ->
              passes_unprefixed k = true \/
              starts_with (lit "X-Archive-Orig-") k = true).
    { intros v1 Heq. injection Heq as Hk _. rewrite Hk. clear.
      destruct (passes_unprefixed k0) eqn:Hp; cbn [negb].
      - now left.
      - right. exact (starts_with_app (lit "X-Archive-Orig-") k0). }
    destruct (str_eqb (lower k0) (lit "transfer-encoding") && re_chunked E v0).
    + cbn [orb].
      destruct (extract_response_from_chunked_data payload) as [text|]
        eqn:Hx.
      * unfold mbind, res_bind, bind, set_data in H.
        unfold mbind, res_bind, bind in H.
        destruct (encode text) as [b|] eqn:Hb; [|discriminate].
        destruct (IH _ _ H k v Hkv) as [Hin|[Hp|[Hp|Hp]]].
        -- cbn [set_header headers] in Hin.
           apply headers_set_elem in Hin as [Heq|Hin].
           ++ destruct (Hkey _ Heq); auto.
           ++ apply headers_set_elem in Hin as [Heq|Hin]; [|now left].
              injection Heq as -> ->. right. right. right.
              split; [reflexivity|]. split; [reflexivity|]. now exists text, b.
        -- auto.
        -- auto.
        -- destruct Hp as (Hk & _ & Ht). right. right. right.
           split; [exact Hk|]. split; [reflexivity|exact Ht].
      * destruct (IH _ _ H k v Hkv) as [Hin|[Hp|[Hp|Hp]]]; auto.
        destruct Hp as (_ & _ & text & b & Ht & _). discriminate.
    + cbn [orb].
      destruct (IH _ _ H k v Hkv) as [Hin|[Hp|[Hp|Hp]]]; auto.
      cbn [set_header headers] in Hin.
      apply headers_set_elem in Hin as [Heq|Hin]; [|now left].
      destruct (Hkey _ Heq); auto.
Qed.

Lemma header_loop_prefixes_witness :
  exists resp',
    header_loop SampleArchive.archive SampleArchive.payload_in_chunks
      [lit "Transfer-Encoding: chunked"; lit "Server: nginx"]
      {| status := JInt 200; headers := [];
         data := SampleArchive.payload_in_chunks |} = Ok resp' /\
    headers resp' =
      [(lit "Content-Length", lit "9");
       (lit "X-Archive-Orig-Transfer-Encoding", lit "chunked");
       (lit "X-Archive-Orig-Server", lit "nginx")] /\
    forall k v,
      (k, v) ∈ headers resp' ->
      (k, v) ∈ @nil (list N * list N) \/ passes_unprefixed k = true \/
      starts_with (lit "X-Archive-Orig-") k = true \/
      (k = lit "Content-Length" /\
       existsb (declares_chunked SampleArchive.archive)
         [lit "Transfer-Encoding: chunked"; lit "Server: nginx"] = true /\
       exists text b,
         extract_response_from_chunked_data SampleArchive.payload_in_chunks =
           Ok text /\
         encode text = Ok b /\ v = decimal (N.of_nat (length b))).
Proof.
  eexists. split; [vm_compute; reflexivity|].
  split; [vm_compute; reflexivity|].
  exact (header_loop_prefixes SampleArchive.archive
           SampleArchive.payload_in_chunks
           [lit "Transfer-Encoding: chunked"; lit "Server: nginx"]
           {| status := JInt 200; headers := [];
              data := SampleArchive.payload_in_chunks |} _ eq_refl).
Defined.

(** X10.  The loop never touches the status; the body changes only at a
    line that declares a chunked transfer encoding, and then, when the
    payload decodes, it is the decoded payload. *)
Theorem header_loop_status_and_body (E : env) (payload : list N)
    (h_lines : list (list N)) :
  forall resp resp',
    header_loop E payload h_lines resp = Ok resp' ->
    status resp' = status resp /\
    (existsb (declares_chunked E) h_lines = false ->
     data resp' = data resp) /\
    (forall text,
        existsb (declares_chunked E) h_lines = true ->
        extract_response_from_chunked_data payload = Ok text ->
        encode text = Ok (data resp')).
Proof.
  induction h_lines as [|hLine rest IH]; intros resp resp' H.
  - injection H as <-.
    split; [reflexivity|split; [reflexivity|discriminate]].
  - cbn [header_loop] in H. cbn [existsb]. unfold declares_chunked at 1 3.
    destruct (split COLON (Some 1%nat) hLine) as [|k0 [|v0 [|? ?]]];
      try discriminate.
    destruct (str_eqb (lower k0) (lit "transfer-encoding") && re_chunked E v0).
    + destruct (extract_response_from_chunked_data payload) as [text|] eqn:Hx.
      * unfold mbind, res_bind, bind, set_data in H.
        unfold mbind, res_bind, bind in H.
        destruct (encode text) as [b|] eqn:Hb; [|discriminate].
        destruct (IH _ _ H) as (Hs & Hd & Hc).
        cbn [set_header status data] in Hs, Hd.
        split; [assumption|]. split; [discriminate|].
        intros text' _ [= <-].
        destruct (existsb (declares_chunked E) rest) eqn:Hr.
        -- now apply Hc.
        -- rewrite Hd by reflexivity. assumption.
      * destruct (IH _ _ H) as (Hs & Hd & Hc).
        split; [assumption|]. split; [discriminate|].
        intros text' _ [=].
    + destruct (IH _ _ H) as (Hs & Hd & Hc).
      cbn [set_header status data] in Hs, Hd. cbn [orb].
      repeat split; assumption.
Qed.

Lemma header_loop_status_and_body_witness :
  (exists resp',
      header_loop SampleArchive.archive SampleArchive.payload_in_chunks
        [lit "Transfer-Encoding: chunked"; lit "Server: nginx"]
        {| status := JInt 200; headers := [];
           data := SampleArchive.payload_in_chunks |} = Ok resp' /\
      extract_response_from_chunked_data SampleArchive.payload_in_chunks =
        Ok (lit "Wikipedia") /\
      status resp' = JInt 200 /\
      encode (lit "Wikipedia") = Ok (data resp')) /\
  (exists resp',
      header_loop SampleArchive.archive SampleArchive.payload_plain
        [lit "Content-Type: text/plain"]
        {| status := JInt 200; headers := [];
           data := SampleArchive.payload_plain |} = Ok resp' /\
      status resp' = JInt 200 /\ data resp' = SampleArchive.payload_plain).
Proof.
  split.
  - eexists. split; [vm_compute; reflexivity|].
    split; [vm_compute; reflexivity|].
    destruct (header_loop_status_and_body SampleArchive.archive
                SampleArchive.payload_in_chunks
                [lit "Transfer-Encoding: chunked"; lit "Server: nginx"]
                {| status := JInt 200; headers := [];
                   data := SampleArchive.payload_in_chunks |} _ eq_refl)
      as (Hs & _ & Hc).
    split; [exact Hs|]. apply Hc; vm_compute; reflexivity.
  - eexists. split; [vm_compute; reflexivity|].
    destruct (header_loop_status_and_body SampleArchive.archive
                SampleArchive.payload_plain
                [lit "Content-Type: text/plain"]
                {| status := JInt 200; headers := [];
                   data := SampleArchive.payload_plain |} _ eq_refl)
      as (Hs & Hd & _).
    split; [exact Hs|exact (Hd eq_refl)].
Defined.

(** *** Error pages *)

(** X11.  A URI without captures: [show_memento] answers with the 404 page of
    [resolve_memento], which carries no [Link] header of its own, and does
    not call [show_uri]. *)
Theorem show_memento_no_capture (E : env) (urir datetime u dt : list N)
    (t : Z) :
  compile_target_uri urir (request_query_string E) = Ok u ->
  pad_digits14 E datetime = Ok dt ->
  is_localhosty E u = false ->
  get_cdxj_lines_with_urir (surt E) (content E) u = Ok [] ->
  int dt = Ok t ->
  show_memento E urir datetime =
    (r ← lift (Response_text E
                 (lit "<h1>ERROR 404</h1>" ++ lit "<p>No captures found for " ++
                  u ++ lit " at " ++ dt ++ lit ".</p>") (JInt 404));
     Returns (RespObj r)) /\
  forall r,
    show_memento E urir datetime = Returns r ->
    exists resp,
      r = RespObj resp /\ status resp = JInt 404 /\
      headers resp = default_headers E.
Proof.
  intros Hu Hd Hloc Hlines Hint.
  assert (Heq : show_memento E urir datetime =
                (r ← lift (Response_text E
                    (lit "<h1>ERROR 404</h1>" ++
                     lit "<p>No captures found for " ++
                     u ++ lit " at " ++ dt ++ lit ".</p>") (JInt 404));
                 Returns (RespObj r))).
  { unfold show_memento. rewrite Hu.
    change (lift (Ok u)) with (Returns u). cbn [mbind outcome_bind].
    rewrite Hd. unfold resolve_memento. rewrite Hloc.
    unfold mbind at 2 3 4. unfold res_bind, bind. rewrite Hlines.
    unfold get_cdxj_line_closest_to, mbind at 2, res_bind, bind.
    rewrite Hint. cbn [closest_loop].
    unfold Response_text, mbind at 2 3, res_bind, bind.
    destruct (encode _); reflexivity. }
  split; [exact Heq|].
  intros r0. rewrite Heq. unfold Response_text, mbind at 2, res_bind, bind.
  destruct (encode _) as [b|]; [|discriminate].
  change (lift (Ok (Response E b (JInt 404))))
    with (Returns (Response E b (JInt 404))).
  cbn [mbind outcome_bind]. intros [= <-].
  eexists. repeat split.
Qed.

Lemma show_memento_no_capture_witness :
  (compile_target_uri (lit "example.com/other")
     (request_query_string (SampleArchive.captures_archive 1)) =
     Ok (lit "example.com/other") /\
   get_cdxj_lines_with_urir (surt (SampleArchive.captures_archive 1))
     (content (SampleArchive.captures_archive 1)) (lit "example.com/other") =
     Ok [] /\
   int (lit "20190101000001") = Ok 20190101000001%Z) /\
  forall r,
    show_memento (SampleArchive.captures_archive 1) (lit "example.com/other")
      (lit "20190101000001") = Returns r ->
    exists resp,
      r = RespObj resp /\ status resp = JInt 404 /\
      headers resp = default_headers (SampleArchive.captures_archive 1).
Proof.
  split; [repeat split; vm_compute; reflexivity|].
  apply (show_memento_no_capture (SampleArchive.captures_archive 1)
           (lit "example.com/other") (lit "20190101000001")
           (lit "example.com/other") (lit "20190101000001")
           20190101000001%Z); vm_compute; reflexivity.
Defined.

(** X12.  A malformed line in the index: the lookup of [show_uri] raises, the
    handler answers with the page [not found :(] and the status 200, for
    every path and timestamp. *)
Theorem show_uri_on_malformed_index (E : env) (path datetime : list N)
    (pre : list (list N)) (bad : list N) (post : list (list N)) :
  check_daemon_is_alive E = Ok tt ->
  split NEWLINE None (content E) = pre ++ bad :: post ->
  Forall (fun l => is_metadata_line l = true \/ is_data_line l = true) pre ->
  is_blank bad = false -> is_metadata_line bad = false ->
  length (split SPACE (Some 2%nat) bad) <> 3%nat ->
  show_uri E path datetime =
    (r ← lift (Response_text E (path ++ lit " not found :(" ++ go_home E)
                 (JInt 200));
     Returns (RespObj r)).
Proof.
  intros Hd Hlines Hpre Hb Hm Hs.
  unfold show_uri. rewrite Hd.
  unfold get_cdxj_line_binarySearch, binary_search, mbind at 1, res_bind, bind.
  rewrite Hlines, (objectify_malformed false bad post Hb Hm Hs pre Hpre).
  reflexivity.
Qed.

Lemma show_uri_on_malformed_index_witness :
  (split NEWLINE None
     (content (SampleArchive.archive_over (lit "com,example)/"))) =
     [] ++ lit "com,example)/" :: [] /\
   is_blank (lit "com,example)/") = false /\
   is_metadata_line (lit "com,example)/") = false /\
   length (split SPACE (Some 2%nat) (lit "com,example)/")) <> 3%nat) /\
  show_uri (SampleArchive.archive_over (lit "com,example)/"))
    (lit "example.com/") (lit "20190101000001") =
  (r ← lift (Response_text (SampleArchive.archive_over (lit "com,example)/"))
               (lit "example.com/" ++ lit " not found :(" ++
                go_home (SampleArchive.archive_over (lit "com,example)/")))
               (JInt 200));
   Returns (RespObj r)).
Proof.
  assert (H : length (split SPACE (Some 2%nat) (lit "com,example)/")) <> 3%nat)
    by (vm_compute; discriminate).
  split; [repeat split; try (vm_compute; reflexivity); exact H|].
  apply (show_uri_on_malformed_index
           (SampleArchive.archive_over (lit "com,example)/"))
           (lit "example.com/") (lit "20190101000001")
           [] (lit "com,example)/") []);
    try (vm_compute; reflexivity); [constructor|exact H].
Defined.

End ReplayExtras.

(** ** The two TimeMaps, line by line *)

Module TimeMapExtras.
Import Index Env TimeMap Replay Views TextFacts Abbreviation.

Section WithEnv.

Variable E : env.

Lemma timemap_loop_raise (hp : list N) (n : nat) (lines : list (list N))
    (e : exn) :
  forall i acc,
    captures_of E lines = Raise e ->
    timemap_loop E hp n i lines acc = Raise e.
Proof.
  induction lines as [|line rest IH]; intros i acc H; [discriminate|].
  cbn [captures_of timemap_loop] in *.
  unfold memento_entry, mbind, res_bind, bind in *.
  destruct (capture_of E line) as [[[d u] r]|]; [|congruence].
  apply IH. destruct (captures_of E rest); [discriminate|congruence].
Qed.

(** X2.  The Link TimeMap is the four links of the TimeMap and one link for
    every line, in the order of the lines, one to a line; it is not built
    when a line has fewer than three fields or a timestamp that does not
    convert, and the error is the one of the first such line. *)
Theorem link_timemap_lines_or_error (lines : list (list N))
    (original tm_self tg_uri : list N) :
  generate_link_timemap_from_cdxj_lines E lines original tm_self tg_uri =
  (captures ← captures_of E lines;
   Ok (join [NEWLINE]
         (timemap_lines (lit "http://" ++ unsurt E original)
            (proxied E tm_self) (proxied E tg_uri)
            (host_and_port_of E tm_self) captures))).
Proof.
  destruct (captures_of E lines) as [captures|e] eqn:Hc.
  - now apply generate_link_timemap_lines.
  - unfold generate_link_timemap_from_cdxj_lines.
    now rewrite (timemap_loop_raise _ _ _ e).
Qed.

Lemma cdxj_fields_of_length (lines : list (list N)) :
  forall cs, cdxj_fields_of E lines = Ok cs -> length cs = length lines.
Proof.
  induction lines as [|line rest IH]; intros cs H.
  - injection H as <-. reflexivity.
  - cbn [cdxj_fields_of] in H. unfold mbind, res_bind, bind in H.
    destruct (cdxj_fields E line) as [c|]; [|discriminate].
    destruct (cdxj_fields_of E rest) as [cs'|]; [|discriminate].
    injection H as <-. simpl. f_equal. now apply IH.
Qed.

Lemma cdxj_loop_lines (hp : list N) (n : nat) (lines : list (list N)) :
  forall i acc,
    cdxj_loop E hp n i lines acc =
    (cs ← cdxj_fields_of E lines;
     Ok (acc ++ unlines (cdxj_lines_of hp n i cs))).
Proof.
  induction lines as [|line rest IH]; intros i acc.
  - simpl. unfold unlines. simpl. now rewrite app_nil_r.
  - cbn [cdxj_loop cdxj_fields_of].
    unfold cdxj_entry, mbind, res_bind, bind.
    destruct (cdxj_fields E line) as [[[s d] r]|]; [|reflexivity].
    rewrite IH. unfold mbind, res_bind, bind.
    destruct (cdxj_fields_of E rest) as [cs|]; [|reflexivity].
    f_equal. cbn [cdxj_lines_of]. unfold unlines. cbn [flat_map].
    unfold cdxj_line. generalize (flat_map (fun l => l ++ [NEWLINE])
                                    (cdxj_lines_of hp n (S i) cs)).
    intros J. text_eq.
Qed.

(** X3.  The CDXJ TimeMap is six lines of preamble and one line for every index
    line, in the order of the lines, each with its newline.  Without
    [timemap/] in its own URI it raises [ValueError], whatever the lines;
    otherwise it is not built when a line has fewer than three fields or a
    timestamp that does not convert. *)
Theorem cdxj_timemap_lines_or_error (lines : list (list N))
    (original tm_self tg_uri : list N) :
  generate_cdxj_timemap_from_cdxj_lines E lines original tm_self tg_uri =
  (i ← str_index (lit "timemap/") (proxied E tm_self);
   cs ← cdxj_fields_of E lines;
   Ok (unlines
         (cdxj_preamble (lit "http://" ++ unsurt E original)
            (proxied E tm_self) (proxied E tg_uri) ++
          cdxj_lines_of (take i (proxied E tm_self)) (length lines) 0 cs))).
Proof.
  unfold generate_cdxj_timemap_from_cdxj_lines.
  set (ts := proxied E tm_self). set (tg := proxied E tg_uri).
  set (orig := lit "http://" ++ unsurt E original).
  unfold mbind at 1 3. unfold res_bind, bind.
  destruct (str_index (lit "timemap/") ts) as [i|]; [|reflexivity].
  rewrite cdxj_loop_lines. unfold mbind, res_bind, bind.
  destruct (cdxj_fields_of E lines) as [cs|]; [|reflexivity].
  f_equal. unfold unlines. rewrite flat_map_app. f_equal.
  unfold cdxj_preamble. cbn [flat_map].
  set (lk := replace (lit "/timemap/cdxj/") (lit "/timemap/link/") ts).
  clearbody orig ts tg lk. clear. text_eq.
Qed.

End WithEnv.

End TimeMapExtras.

(** ** The figures of the index *)

Module StatsFacts.
Import Index Env Stats StrOrder Samples.

Lemma str_ltb_leb (a b : list N) : str_ltb a b = true -> str_leb a b = true.
Proof.
  intros H. unfold str_leb. now rewrite (str_ltb_asym _ _ H).
Qed.

Lemma spans_add (m m' : memento_info) (ds : list (list N)) (dt : list N) :
  spans m ds ->
  match oldest_datetime m with
  | None =>
      oldest_datetime m' = Some dt /\ newest_datetime m' = Some dt
  | Some o =>
      oldest_datetime m' = Some (if str_ltb dt o then dt else o) /\
      exists n,
        newest_datetime m = Some n /\
        newest_datetime m' = Some (if str_ltb n dt then dt else n)
  end ->
  spans m' (ds ++ [dt]).
Proof.
  unfold spans. intros Hs Hm.
  destruct (oldest_datetime m) as [o|].
  - destruct Hm as (Ho & n & Hn & Hn'). rewrite Hn in Hs.
    rewrite Ho, Hn'. destruct Hs as (Hio & Hin & Hall).
    split; [|split].
    + destruct (str_ltb dt o);
        [apply elem_of_app; right; now left|apply elem_of_app; now left].
    + destruct (str_ltb n dt);
        [apply elem_of_app; right; now left|apply elem_of_app; now left].
    + intros d Hd. apply elem_of_app in Hd as [Hd|Hd].
      * destruct (Hall d Hd) as [H1 H2]. split.
        -- destruct (str_ltb dt o) eqn:Hlt; [|assumption].
           apply str_ltb_leb. now apply (str_ltb_leb_trans dt o d).
        -- destruct (str_ltb n dt) eqn:Hlt; [|assumption].
           apply str_ltb_leb. now apply (str_leb_ltb_trans d n dt).
      * apply list_elem_of_singleton in Hd. subst d. split.
        -- destruct (str_ltb dt o) eqn:Hlt; [apply str_leb_refl|].
           unfold str_leb. now rewrite Hlt.
        -- destruct (str_ltb n dt) eqn:Hlt; [apply str_leb_refl|].
           unfold str_leb. now rewrite Hlt.
  - destruct Hm as [Ho Hn]. rewrite Ho, Hn.
    destruct (newest_datetime m); [contradiction|]. subst ds.
    split; [now left|]. split; [now left|].
    intros d Hd. apply list_elem_of_singleton in Hd. subst d.
    split; apply str_leb_refl.
Qed.

Section WithEnv.

Variable E : env.
Variable X : line_tests.

Lemma mementos_of_snoc (seen : list (list N)) (l : list N) :
  mementos_of X (seen ++ [l]) =
  mementos_of X seen ++ (if counted X l then [l] else []).
Proof. unfold mementos_of. now rewrite List.filter_app. Qed.

Lemma info_step_inv (m m' : memento_info) (l : list N)
    (seen : list (list N)) :
  info_inv X m seen -> info_step E X m l = Ok m' ->
  info_inv X m' (seen ++ [l]).
Proof.
  intros (Hc & Hh & Hu & Hs). unfold info_step, info_inv.
  rewrite mementos_of_snoc.
  destruct (counted X l) eqn:Hcl.
  2:{ intros [= <-]. rewrite app_nil_r. repeat split; assumption. }
  destruct (split SPACE (Some 2%nat) l) as [|k [|dt [|js [|? ?]]]] eqn:Hsp;
    try discriminate.
  unfold mbind, res_bind, bind.
  destruct (json_loads E js) as [j|]; [|discriminate].
  destruct (counts_as_html j) as [html|]; [|discriminate].
  assert (Hk : key_field l = k) by (unfold key_field; now rewrite Hsp).
  assert (Ht : timestamp_field l = dt)
    by (unfold timestamp_field; now rewrite Hsp).
  set (uris := <[k := _]> (surt_uris m)).
  assert (Huris : forall k',
             default 0%nat (uris !! k') =
             length (List.filter (fun l0 => str_eqb (key_field l0) k')
                       (mementos_of X seen ++ [l]))).
  { intros k'. rewrite List.filter_app, length_app. cbn [List.filter].
    rewrite Hk. unfold uris. unfold str_eqb in *.
    destruct (decide (k = k')) as [<-|Hne].
    - rewrite lookup_insert_eq, bool_decide_eq_true_2 by reflexivity.
      specialize (Hu k). destruct (surt_uris m !! k); simpl in *; lia.
    - rewrite lookup_insert_ne, bool_decide_eq_false_2 by assumption.
      rewrite Hu. simpl. lia. }
  assert (Hcount : S (memento_count m) =
                   length (mementos_of X seen ++ [l]))
    by (rewrite length_app; simpl; lia).
  assert (Hhtml : ((if html then S (html_count m) else html_count m) <=
                   S (memento_count m))%nat) by (destruct html; lia).
  rewrite map_app. cbn [map]. rewrite Ht.
  destruct (oldest_datetime m) as [o|] eqn:Ho.
  - destruct (newest_datetime m) as [n|] eqn:Hn; [|discriminate].
    intros [= <-]. cbn [memento_count html_count surt_uris].
    split; [assumption|]. split; [assumption|]. split; [assumption|].
    apply (spans_add m); [assumption|]. rewrite Ho. cbn.
    split; [reflexivity|]. now exists n.
  - intros [= <-]. cbn [memento_count html_count surt_uris].
    split; [assumption|]. split; [assumption|]. split; [assumption|].
    apply (spans_add m); [assumption|]. rewrite Ho. now cbn.
Qed.

Lemma info_loop_inv (lines : list (list N)) :
  forall m m' seen,
    info_inv X m seen -> info_loop E X lines m = Ok m' ->
    info_inv X m' (seen ++ lines).
Proof.
  induction lines as [|l rest IH]; intros m m' seen Hinv H.
  - injection H as <-. now rewrite app_nil_r.
  - cbn [info_loop] in H. unfold mbind, res_bind, bind in H.
    destruct (info_step E X m l) as [m1|] eqn:Hstep; [|discriminate].
    rewrite (cons_middle l seen rest), app_assoc.
    apply (IH m1); [|assumption].
    now apply (info_step_inv m).
Qed.

(** X17.  The figures [calculate_memento_info_in_index] returns: the number of
    lines that are valid and not metadata, no more pages than that, for every
    key the number of those lines with it, and the smallest and the largest
    of their timestamps; an empty index gives the pair of zeros, and nothing
    else does. *)
Theorem memento_info_figures (index_file_contents : list N)
    (r : info_result) :
  calculate_memento_info_in_index E X index_file_contents = Ok r ->
  match r with
  | ErrReturn => index_file_contents = []
  | Info m =>
      let counted_lines :=
        mementos_of X (split NEWLINE None (strip index_file_contents)) in
      index_file_contents <> [] /\
      memento_count m = length counted_lines /\
      (html_count m <= memento_count m)%nat /\
      (forall k,
          default 0%nat (surt_uris m !! k) =
          length (List.filter (fun l => str_eqb (key_field l) k)
                    counted_lines)) /\
      spans m (map timestamp_field counted_lines)
  end.
Proof.
  unfold calculate_memento_info_in_index, str_eqb.
  destruct (decide (index_file_contents = [])) as [->|Hne].
  - rewrite bool_decide_eq_true_2 by reflexivity. now intros [= <-].
  - rewrite bool_decide_eq_false_2 by assumption.
    unfold mbind, res_bind, bind.
    destruct (info_loop E X _ _) as [m|] eqn:Hloop; [|discriminate].
    intros [= <-]. split; [assumption|].
    apply (info_loop_inv _ _ _ []) in Hloop; [exact Hloop|].
    split; [reflexivity|]. split; [cbn; lia|]. split; reflexivity.
Qed.

End WithEnv.

Lemma memento_info_figures_witness :
  let X := {| is_valid_cdxj_line := fun l => negb (str_eqb l []);
              is_cdxj_metadata_record := is_metadata_line |} in
  let text :=
    lit "com,example)/ 20200101000000 " ++ SampleArchive.json_plain ++
    [NEWLINE] ++
    lit "com,example)/ 20190101000000 " ++ SampleArchive.json_plain in
  let E := SampleArchive.archive_over text in
  let m :=
    {| memento_count := 2; html_count := 0;
       surt_uris := {[ lit "com,example)/" := 2%nat ]};
       oldest_datetime := Some (lit "20190101000000");
       newest_datetime := Some (lit "20200101000000") |} in
  calculate_memento_info_in_index E X text = Ok (Info m) /\
  spans m (map timestamp_field
             (mementos_of X (split NEWLINE None (strip text)))).
Proof.
  intros X text E m.
  assert (H : calculate_memento_info_in_index E X text = Ok (Info m))
    by (vm_compute; reflexivity).
  split; [exact H|].
  exact (proj2 (proj2 (proj2 (proj2
           (memento_info_figures E X text (Info m) H))))).
Defined.

End StatsFacts.

(** ** The decoder on chunked ASCII data *)

Module ChunkedExtras.
Import Index Chunked ChunkedShape TextDefs TextFacts.

(** *** [format(n, 'x')] read back by [int(_, 16)] *)

Lemma digit_val_char (r : N) :
  (r < 16)%N ->
  digit_val 16 (digit_char r) = Some r /\
  is_hex_digit (digit_char r) = true.
Proof.
  intros Hr.
  assert (Hc : In r (map N.of_nat (seq 0 16))).
  { apply in_map_iff. exists (N.to_nat r). split; [lia|].
    apply in_seq. lia. }
  simpl in Hc.
  repeat (destruct Hc as [<-|Hc]; [split; reflexivity|]).
  contradiction.
Qed.

Lemma is_hex_digit_facts (c : N) :
  is_hex_digit c = true ->
  is_space c = false /\ (c =? 95)%N = false /\ (c =? 120)%N = false /\
  (c =? 88)%N = false /\ (c =? 45)%N = false /\ (c =? 43)%N = false /\
  (c =? SEMICOLON)%N = false /\ (c =? NEWLINE)%N = false /\
  (c <? 128)%N = true.
Proof.
  unfold is_hex_digit, is_space, SEMICOLON, NEWLINE. intros H.
  apply orb_true_iff in H as [H|H]; apply andb_true_iff in H as [H1 H2];
    apply N.leb_le in H1; apply N.leb_le in H2;
    repeat split;
    repeat match goal with
      | |- (_ || _) = false => apply orb_false_iff; split
      | |- (_ && _) = false => apply andb_false_iff
      | |- (_ =? _)%N = false => apply N.eqb_neq; lia
      | |- (_ <? _)%N = true => apply N.ltb_lt; lia
      end;
    try (left; apply N.leb_gt; lia); try (right; apply N.leb_gt; lia).
Qed.

Lemma digits_go_spec (fuel : nat) :
  forall (n : N) (acc : list N),
    (N.to_nat n < fuel)%nat ->
    exists ds,
      digits_go 16 fuel n acc = ds ++ acc /\ ds <> [] /\
      forallb is_hex_digit ds = true /\
      (n <> 0%N -> ds <> lit "0") /\
      forall a b rest,
        int_digits 16 a b (ds ++ rest) =
        int_digits 16 (a * 16 ^ N.of_nat (length ds) + n) true rest.
Proof.
  induction fuel as [|fuel IH]; intros n acc Hf; [lia|].
  cbn [digits_go].
  assert (Hr : (n mod 16 < 16)%N) by (apply N.mod_lt; lia).
  destruct (digit_val_char _ Hr) as [Hv Hh].
  pose proof (is_hex_digit_facts _ Hh) as (_ & H95 & _).
  pose proof (N.div_mod n 16 ltac:(lia)) as Hdm.
  destruct (N.eqb_spec (n / 16) 0) as [Hq|Hq].
  - exists [digit_char (n mod 16)].
    split; [reflexivity|]. split; [discriminate|].
    split; [cbn [forallb]; now rewrite Hh|].
    split.
    + intros Hn H0. injection H0 as H0.
      assert (n mod 16 = 0)%N.
      { unfold digit_char in H0. destruct (n mod 16 <? 10)%N eqn:Hlt.
        - lia.
        - apply N.ltb_ge in Hlt. lia. }
      lia.
    + intros a b rest. cbn [app int_digits length]. rewrite H95, Hv.
      f_equal. rewrite Hq in Hdm. cbn. lia.
  - destruct (IH (n / 16)%N (digit_char (n mod 16) :: acc))
      as (ds & Heq & Hne & Hall & _ & Hint).
    { assert (Hpos : (0 < n)%N)
        by (destruct (N.eq_dec n 0%N) as [->|]; [now contradiction Hq|lia]).
      pose proof (N.div_lt n 16 Hpos ltac:(lia)). lia. }
    exists (ds ++ [digit_char (n mod 16)]).
    split; [rewrite Heq; now rewrite <- app_assoc|].
    split; [now destruct ds|].
    split; [rewrite forallb_app; cbn [forallb]; now rewrite Hall, Hh|].
    split.
    + intros _ H0. destruct ds as [|d [|d' ds]]; [contradiction| |];
        discriminate.
    + intros a b rest. rewrite <- app_assoc. rewrite Hint.
      cbn [app int_digits]. rewrite H95, Hv. f_equal.
      rewrite length_app. cbn [length].
      replace (N.of_nat (length ds + 1)) with (N.succ (N.of_nat (length ds)))
        by lia.
      rewrite N.pow_succ_r'. lia.
Qed.

(** *** White space around a descriptor *)

Lemma lstrip_nonspace (s : list N) :
  forallb (fun c => negb (is_space c)) s = true -> lstrip s = s.
Proof.
  destruct s as [|c s]; [reflexivity|]. cbn [forallb lstrip].
  intros H. apply andb_true_iff in H as [H _].
  apply negb_true_iff in H. now rewrite H.
Qed.

Lemma forallb_rev {A} (f : A -> bool) (l : list A) :
  forallb f (rev l) = forallb f l.
Proof.
  induction l as [|x l IH]; [reflexivity|].
  cbn [rev forallb]. rewrite forallb_app, IH. cbn [forallb].
  rewrite andb_true_r. apply andb_comm.
Qed.

Lemma strip_nonspace (s : list N) :
  forallb (fun c => negb (is_space c)) s = true -> strip s = s.
Proof.
  intros H. unfold strip, rstrip. rewrite (lstrip_nonspace s H).
  rewrite lstrip_nonspace by now rewrite forallb_rev.
  apply rev_involutive.
Qed.

Lemma strip_nonspace_cr (s : list N) :
  forallb (fun c => negb (is_space c)) s = true -> strip (s ++ [13%N]) = s.
Proof.
  intros H. unfold strip, rstrip.
  destruct s as [|c s].
  - reflexivity.
  - change ((c :: s) ++ [13%N]) with (c :: s ++ [13%N]).
    cbn [forallb] in H. apply andb_true_iff in H as [Hc Hs].
    apply negb_true_iff in Hc.
    rewrite (lstrip_keeps c) by assumption.
    change (c :: s ++ [13%N]) with ((c :: s) ++ [13%N]).
    rewrite rev_app_distr.
    change (rev [13%N] ++ rev (c :: s)) with (13%N :: rev (c :: s)).
    change (lstrip (13%N :: rev (c :: s))) with (lstrip (rev (c :: s))).
    rewrite lstrip_nonspace.
    + apply rev_involutive.
    + rewrite forallb_rev. cbn [forallb]. now rewrite Hc, Hs.
Qed.

Lemma hex_digits_plain (ds : list N) :
  forallb is_hex_digit ds = true ->
  forallb (fun c => negb (is_space c)) ds = true /\
  lacks SEMICOLON ds = true /\ lacks NEWLINE ds = true /\
  ascii ds = true.
Proof.
  intros H. unfold lacks, ascii. rewrite !forallb_forall.
  rewrite forallb_forall in H.
  repeat split; intros c Hc;
    destruct (is_hex_digit_facts c (H c Hc))
      as (H1 & H2 & H3 & H4 & H5 & H6 & H7 & H8 & H9);
    rewrite ?H1, ?H7, ?H8, ?H9; reflexivity.
Qed.

Lemma sign_of_digit (d : N) (ds : list N) :
  d <> 45%N -> d <> 43%N ->
  match d :: ds with
  | 45%N :: r => (true, r)
  | 43%N :: r => (false, r)
  | _ => (false, d :: ds)
  end = (false, d :: ds).
Proof.
  intros H1 H2.
  destruct d as [|p]; [reflexivity|].
  repeat (match goal with
          | |- context [match ?q with xI _ => _ | xO _ => _ | xH => _ end] =>
              is_var q; destruct q
          end; try reflexivity);
    congruence.
Qed.

Lemma prefix_of_digits (d : N) (ds : list N) :
  (forall x s', ds = x :: s' -> ((x =? 120) || (x =? 88))%N = false) ->
  match d :: ds with
  | 48%N :: x :: s' =>
      if ((x =? 120) || (x =? 88))%N then
        match s' with
        | 95%N :: s'' => s''
        | _ => s'
        end
      else d :: ds
  | _ => d :: ds
  end = d :: ds.
Proof.
  intros H.
  destruct ds as [|x s'].
  - destruct d as [|p]; [reflexivity|].
    repeat (match goal with
            | |- context [match ?q with xI _ => _ | xO _ => _ | xH => _ end] =>
                is_var q; destruct q
            end; try reflexivity).
  - rewrite (H x s' eq_refl).
    destruct d as [|p]; [reflexivity|].
    repeat (match goal with
            | |- context [match ?q with xI _ => _ | xO _ => _ | xH => _ end] =>
                is_var q; destruct q
            end; try reflexivity).
Qed.

(** [format(n, 'x')]: digits that [int(_, 16)] reads back. *)
Lemma hex_spec (n : N) :
  hex n <> [] /\ forallb is_hex_digit (hex n) = true /\
  (n <> 0%N -> hex n <> lit "0") /\
  int_base 16 (hex n) = Ok (Z.of_N n).
Proof.
  unfold hex.
  destruct (digits_go_spec (S (N.to_nat n)) n [] ltac:(lia))
    as (ds & Heq & Hne & Hall & Hz & Hint).
  rewrite app_nil_r in Heq. rewrite Heq.
  repeat split; try assumption.
  destruct (hex_digits_plain ds Hall) as (Hsp & _).
  unfold int_base. rewrite (strip_nonspace ds Hsp).
  destruct ds as [|d ds]; [contradiction|].
  cbn [forallb] in Hall. apply andb_true_iff in Hall as [Hd Hds].
  destruct (is_hex_digit_facts d Hd)
    as (_ & _ & _ & _ & H45 & H43 & _).
  apply N.eqb_neq in H45, H43.
  rewrite (sign_of_digit d ds H45 H43).
  unfold int_unsigned. cbn [N.eqb Pos.eqb].
  rewrite prefix_of_digits.
  - specialize (Hint 0%N false []). rewrite app_nil_r in Hint.
    rewrite Hint. cbn [int_digits]. f_equal; lia.
  - intros x s' ->. cbn [forallb] in Hds.
    apply andb_true_iff in Hds as [Hx _].
    destruct (is_hex_digit_facts x Hx) as (_ & _ & H120 & H88 & _).
    now rewrite H120, H88.
Qed.

(** *** The pieces of the decoder *)

Lemma decode_ascii (b : list N) : ascii b = true -> decode b = Ok b.
Proof.
  induction b as [|c b IH]; intros H; [reflexivity|].
  cbn [ascii forallb] in H. apply andb_true_iff in H as [Hc Hb].
  cbn [decode]. rewrite Hc. unfold mbind, res_bind, bind.
  now rewrite (IH Hb).
Qed.

Lemma split_rest (sep : N) (x : list N) : split sep (Some 0%nat) x = [x].
Proof.
  induction x as [|c x IH]; [reflexivity|].
  cbn [split]. rewrite bool_decide_eq_true_2 by reflexivity.
  cbn [negb]. rewrite andb_false_r. now rewrite IH.
Qed.

Lemma split_at (sep : N) (k : nat) (x y : list N) :
  lacks sep x = true ->
  split sep (Some (S k)) (x ++ sep :: y) = x :: split sep (Some k) y.
Proof.
  induction x as [|c x IH]; intros H.
  - simpl app. cbn [split]. rewrite N.eqb_refl.
    now rewrite bool_decide_eq_false_2 by discriminate.
  - rewrite lacks_cons in H. apply andb_true_iff in H as [Hc H].
    apply negb_true_iff in Hc. simpl app. cbn [split]. rewrite Hc.
    cbn [andb]. now rewrite (IH H).
Qed.

(** The descriptor of a line: the digits before the extension and the
    carriage return. *)
Lemma descriptor_line (h ext : list N) :
  forallb is_hex_digit h = true ->
  match ext with
  | [] => true
  | x :: _ => (x =? SEMICOLON)%N
  end = true ->
  descriptor (h ++ ext ++ [13%N]) = h.
Proof.
  intros Hh Hext.
  destruct (hex_digits_plain h Hh) as (Hsp & Hsemi & _).
  unfold descriptor. destruct ext as [|x ext].
  - simpl app. rewrite split_lacks.
    + now apply strip_nonspace_cr.
    + rewrite lacks_app, Hsemi. reflexivity.
  - apply N.eqb_eq in Hext. subst x.
    change (h ++ (SEMICOLON :: ext) ++ [13%N])
      with (h ++ SEMICOLON :: (ext ++ [13%N])).
    rewrite split_sep by assumption.
    now apply strip_nonspace.
Qed.

Lemma chunk_ok_inv (c : list N * list N) :
  chunk_ok c = true ->
  fst c <> [] /\ ascii (fst c) = true /\ ascii (snd c) = true /\
  lacks NEWLINE (snd c) = true /\
  match snd c with
  | [] => true
  | x :: _ => (x =? SEMICOLON)%N
  end = true.
Proof.
  unfold chunk_ok. rewrite !andb_true_iff, negb_true_iff.
  intros [[[[H1 H2] H3] H4] H5]. repeat split; try assumption.
  intros Heq. unfold str_eqb in H1. rewrite Heq in H1.
  now rewrite bool_decide_eq_true_2 in H1.
Qed.

Lemma chunked_encode_cons (c : list N * list N)
    (cs : list (list N * list N)) :
  chunked_encode (c :: cs) =
  (hex (N.of_nat (length (fst c))) ++ snd c ++ [13%N]) ++
  NEWLINE :: fst c ++ CRLF ++ chunked_encode cs.
Proof.
  unfold chunked_encode, encode_chunk, CRLF. cbn [flat_map].
  rewrite <- !app_assoc. reflexivity.
Qed.

Lemma ascii_chunked_encode (cs : list (list N * list N)) :
  forallb chunk_ok cs = true -> ascii (chunked_encode cs) = true.
Proof.
  induction cs as [|c cs IH]; intros H; [reflexivity|].
  cbn [forallb] in H. apply andb_true_iff in H as [Hc Hcs].
  apply chunk_ok_inv in Hc as (_ & Hd & He & _ & _).
  rewrite chunked_encode_cons. unfold ascii in *.
  destruct (hex_spec (N.of_nat (length (fst c)))) as (_ & Hh & _ & _).
  destruct (hex_digits_plain _ Hh) as (_ & _ & _ & Ha). unfold ascii in Ha.
  rewrite !forallb_app. cbn [forallb]. rewrite !forallb_app.
  now rewrite Ha, He, Hd, (IH Hcs).
Qed.

(** The loop on what the encoder sent: the first line of the message, the
    rest, and what the loop returns from there. *)
Lemma chunk_loop_decodes (cs : list (list N * list N)) :
  forallb chunk_ok cs = true ->
  exists line rest d,
    chunked_encode cs = line ++ NEWLINE :: rest /\
    lacks NEWLINE line = true /\
    descriptor line = d /\ d <> [] /\ forallb is_hex_digit d = true /\
    (length cs <= length rest)%nat /\
    forall ret fuel,
      (length cs < fuel)%nat ->
      chunk_loop fuel d rest ret = Some (Ok (ret ++ concat (map fst cs))).
Proof.
  induction cs as [|c cs IH]; intros H.
  - exists (lit "0" ++ [13%N]), CRLF, (lit "0").
    split; [reflexivity|]. split; [reflexivity|]. split; [reflexivity|].
    split; [discriminate|]. split; [reflexivity|]. split; [simpl; lia|].
    intros ret [|fuel] Hf; [lia|].
    cbn [chunk_loop map concat]. rewrite bool_decide_eq_true_2 by reflexivity.
    now rewrite app_nil_r.
  - cbn [forallb] in H. apply andb_true_iff in H as [Hc Hcs].
    destruct (IH Hcs) as (line' & rest' & d' & Heq & Hl' & Hd' & Hne' & Hh' &
                          Hlen & Hloop).
    apply chunk_ok_inv in Hc as (Hdata & _ & _ & Hext & Hsemi).
    set (n := N.of_nat (length (fst c))) in *.
    destruct (hex_spec n) as (Hhne & Hhex & Hh0 & Hint).
    destruct (hex_digits_plain _ Hhex) as (_ & _ & Hhl & _).
    exists (hex n ++ snd c ++ [13%N]),
      (fst c ++ CRLF ++ line' ++ NEWLINE :: rest'), (hex n).
    split; [rewrite chunked_encode_cons, Heq; reflexivity|].
    split; [rewrite !lacks_app, Hhl, Hext; reflexivity|].
    split; [now apply descriptor_line|].
    split; [assumption|]. split; [assumption|].
    split.
    { rewrite !length_app. unfold CRLF. cbn [length]. lia. }
    intros ret [|fuel] Hf; [cbn [length] in Hf; lia|].
    cbn [length] in Hf. cbn [chunk_loop].
    assert (Hn0 : n <> 0%N).
    { unfold n. destruct (fst c); [contradiction|simpl; lia]. }
    rewrite bool_decide_eq_false_2 by now apply Hh0.
    rewrite Hint. unfold slice_to, slice_from.
    assert ((Z.of_N n <? 0)%Z = false) as -> by (apply Z.ltb_ge; lia).
    replace (Z.to_nat (Z.of_N n)) with (length (fst c)) by (unfold n; lia).
    rewrite take_app_length, drop_app_length.
    change (CRLF ++ line' ++ NEWLINE :: rest')
      with ([13%N] ++ NEWLINE :: (line' ++ NEWLINE :: rest')).
    rewrite split_at by reflexivity.
    rewrite split_at by assumption.
    rewrite split_rest. rewrite Hd'.
    destruct (hex_digits_plain _ Hh') as (Hsp' & _).
    rewrite (strip_nonspace d' Hsp').
    destruct d' as [|x d'']; [contradiction|]. cbn [length Nat.eqb].
    rewrite Hloop by lia.
    cbn [map concat]. now rewrite <- app_assoc.
Qed.

(** X18.  What was sent in chunks of ASCII octets comes back whole: the decoder
    returns the data of the chunks one after the other. *)
Theorem chunked_ascii_round_trip (chunks : list (list N * list N)) :
  forallb chunk_ok chunks = true ->
  extract_response_from_chunked_data (chunked_encode chunks) =
  Ok (concat (map fst chunks)).
Proof.
  intros H. unfold extract_response_from_chunked_data.
  rewrite decode_ascii by now apply ascii_chunked_encode.
  unfold mbind, res_bind, bind, extract_response_from_chunked_text.
  destruct (chunk_loop_decodes chunks H)
    as (line & rest & d & Heq & Hl & Hd & _ & _ & Hlen & Hloop).
  rewrite Heq, split_at by assumption. rewrite split_rest, Hd.
  now rewrite Hloop by lia.
Qed.

Lemma chunked_ascii_round_trip_witness :
  forallb chunk_ok [(lit "Wiki", []); (lit "pedia", lit ";x=1")] = true /\
  extract_response_from_chunked_data
    (chunked_encode [(lit "Wiki", []); (lit "pedia", lit ";x=1")]) =
  Ok (concat (map fst [(lit "Wiki", []); (lit "pedia", lit ";x=1")])).
Proof.
  split; [reflexivity|].
  apply (chunked_ascii_round_trip
           [(lit "Wiki", []); (lit "pedia", lit ";x=1")]).
  reflexivity.
Defined.

End ChunkedExtras.

(** ** The TimeGate and the lists of captures *)

Module ViewsExtras.
Import Index Env TimeMap Replay Views ReplayFacts IndexExtras.

Lemma Response_text_status (E : env) (msg : list N) (st : jval)
    (r : response) :
  Response_text E msg st = Ok r ->
  status r = match st with JNull => JInt 200 | _ => st end /\
  headers r = default_headers E.
Proof.
  unfold Response_text, mbind, res_bind, bind.
  destruct (encode msg) as [b|]; [|discriminate].
  intros [= <-]. now split.
Qed.

(** X15.  A redirect of the TimeGate goes to a capture of the URI asked for: the
    timestamp in [Location] is the one of a line the scan returned for it;
    the response names the TimeMap in [Link] and varies on
    [Accept-Datetime]. *)
Theorem timegate_redirects_to_a_capture (E : env) (T : timegate_env)
    (urir : list N) (resp : response) :
  query_timegate E T urir = Ok (RespObj resp) ->
  status resp = JInt 302 ->
  exists u u' lines line ts link,
    compile_target_uri urir (request_query_string E) = Ok u /\
    (if is_localhosty E u then index (split SLASH (Some 4%nat) u) 4
     else Ok u) = Ok u' /\
    get_cdxj_lines_with_urir (surt E) (content E) u' = Ok lines /\
    line ∈ lines /\
    index (split SPACE None line) 1 = Ok ts /\
    headers_get (headers resp) (lit "Location") =
      Some (lit "/memento/" ++ ts ++ lit "/" ++ u) /\
    headers_get (headers resp) (lit "Link") = Some link /\
    headers_get (headers resp) (lit "Vary") = Some (lit "Accept-Datetime").
Proof.
  unfold query_timegate, mbind at 1, res_bind, bind.
  destruct (compile_target_uri urir (request_query_string E)) as [u|] eqn:Hu;
    [|discriminate].
  destruct (negb (is_rfc1123_compliant T _)); [discriminate|].
  unfold mbind at 1, res_bind, bind.
  destruct (rfc1123_to_digits14 T _) as [dt|]; [|discriminate].
  unfold resolve_memento, mbind at 1 2, res_bind, bind.
  destruct (if is_localhosty E u then _ else _) as [u'|] eqn:Hu';
    [|discriminate].
  unfold mbind at 1, res_bind, bind.
  destruct (get_cdxj_lines_with_urir (surt E) (content E) u') as [lines|]
    eqn:Hlines; [|discriminate].
  unfold mbind at 1, res_bind, bind.
  destruct (get_cdxj_line_closest_to dt lines) as [[line|]|] eqn:Hc;
    [| |discriminate].
  - unfold mbind, res_bind, bind.
    destruct (index (split SPACE None line) 0) as [f0|]; [|discriminate].
    destruct (index (split SPACE None line) 1) as [ts|] eqn:Hts;
      [|discriminate].
    destruct (abbreviated_timemap E u' ts) as [link|]; [|discriminate].
    intros [= <-] _.
    exists u, u', lines, line, ts, link.
    repeat split; try assumption.
    + unfold get_cdxj_line_closest_to, mbind, res_bind, bind in Hc.
      destruct (int dt) as [t|]; [|discriminate].
      apply closest_loop_member in Hc; [|now left].
      now destruct Hc as [Hc|Hc].
    + cbn [set_header headers redirect].
      rewrite !headers_get_set_other by reflexivity.
      apply headers_get_set_same.
    + cbn [set_header headers redirect].
      rewrite headers_get_set_other by reflexivity.
      apply headers_get_set_same.
    + cbn [set_header headers redirect]. apply headers_get_set_same.
  - unfold mbind, res_bind, bind.
    destruct (Response_text E _ (JInt 404)) as [r|] eqn:Hr; [|discriminate].
    intros [= <-] Hs. apply Response_text_status in Hr as [Hr _].
    congruence.
Qed.

Lemma timegate_redirects_to_a_capture_witness :
  let T := {| accept_datetime := Some (lit "Wed, 01 Jan 2020 00:00:00 GMT");
              get_rfc1123_of_now := lit "Wed, 01 Jan 2020 00:00:00 GMT";
              is_rfc1123_compliant := fun _ => true;
              rfc1123_to_digits14 := fun _ => Ok (lit "20200101000000") |} in
  let E := SampleArchive.captures_archive 3 in
  exists resp,
    (query_timegate E T (lit "example.com/") = Ok (RespObj resp) /\
     status resp = JInt 302) /\
    exists u u' lines line ts link,
      compile_target_uri (lit "example.com/") (request_query_string E) =
        Ok u /\
      (if is_localhosty E u then index (split SLASH (Some 4%nat) u) 4
       else Ok u) = Ok u' /\
      get_cdxj_lines_with_urir (surt E) (content E) u' = Ok lines /\
      line ∈ lines /\
      index (split SPACE None line) 1 = Ok ts /\
      headers_get (headers resp) (lit "Location") =
        Some (lit "/memento/" ++ ts ++ lit "/" ++ u) /\
      headers_get (headers resp) (lit "Link") = Some link /\
      headers_get (headers resp) (lit "Vary") = Some (lit "Accept-Datetime").
Proof.
  intros T E. eexists. split; [split; vm_compute; reflexivity|].
  apply (timegate_redirects_to_a_capture E T (lit "example.com/"));
    vm_compute; reflexivity.
Defined.

(** X16.  With one capture of the URI both lists of captures redirect to it:
    [show_mementos_for_urirs] to [/memento/], its timestamp and its URI, the
    page of [show_uri] for a timestamp without capture to the timestamp and
    the URI alone. *)
Theorem lone_capture_redirects (E : env) (urir datetime u line k ts js : list N) :
  compile_target_uri urir (request_query_string E) = Ok u ->
  is_localhosty E u = false ->
  get_cdxj_lines_with_urir (surt E) (content E) u = Ok [line] ->
  split SPACE (Some 2%nat) line = [k; ts; js] ->
  show_mementos_for_urirs E urir =
    Ok (redirect E (lit "/memento/" ++ ts ++ lit "/" ++ unsurt E k) 302) /\
  generate_no_mementos_interface E u datetime =
    Ok (RespObj (redirect E (lit "/" ++ ts ++ lit "/" ++ unsurt E k) 302)).
Proof.
  intros Hu Hloc Hlines Hsplit. split.
  - unfold show_mementos_for_urirs, mbind at 1 2 3, res_bind, bind.
    rewrite Hu, Hloc, Hlines, Hsplit. reflexivity.
  - unfold generate_no_mementos_interface, mbind at 1, res_bind, bind.
    rewrite Hlines, Hsplit. reflexivity.
Qed.

Lemma lone_capture_redirects_witness :
  (compile_target_uri (lit "example.com/")
     (request_query_string (SampleArchive.captures_archive 1)) =
     Ok (lit "example.com/") /\
   get_cdxj_lines_with_urir (surt (SampleArchive.captures_archive 1))
     (content (SampleArchive.captures_archive 1)) (lit "example.com/") =
     Ok [lit "com,example)/ 20190101000001 {}"] /\
   split SPACE (Some 2%nat) (lit "com,example)/ 20190101000001 {}") =
     [lit "com,example)/"; lit "20190101000001"; lit "{}"]) /\
  show_mementos_for_urirs (SampleArchive.captures_archive 1)
    (lit "example.com/") =
    Ok (redirect (SampleArchive.captures_archive 1)
          (lit "/memento/" ++ lit "20190101000001" ++ lit "/" ++
           unsurt (SampleArchive.captures_archive 1) (lit "com,example)/"))
          302) /\
  generate_no_mementos_interface (SampleArchive.captures_archive 1)
    (lit "example.com/") (lit "2020") =
    Ok (RespObj (redirect (SampleArchive.captures_archive 1)
          (lit "/" ++ lit "20190101000001" ++ lit "/" ++
           unsurt (SampleArchive.captures_archive 1) (lit "com,example)/"))
          302)).
Proof.
  split; [repeat split; vm_compute; reflexivity|].
  apply (lone_capture_redirects (SampleArchive.captures_archive 1)
           (lit "example.com/") (lit "2020") (lit "example.com/")
           (lit "com,example)/ 20190101000001 {}")
           (lit "com,example)/") (lit "20190101000001") (lit "{}"));
    vm_compute; reflexivity.
Defined.

End ViewsExtras.
